(** * Media cache and frame providers of the CVAT engine

    A shallow embedding of [cvat/apps/engine/cache.py] and
    [cvat/apps/engine/frame_provider.py], with the properties of the
    chunking and frame-serving core that the specification states.

    Python values are modelled as follows: [int] is [Z]; [//] and [%] are
    [Z.div] and [Z.modulo] (both floor, as in Python) behind an explicit
    zero-divisor check; a raised exception is the [Raise] case of [result];
    code that touches the cache backend, the logger or a chunk reader is a
    state-passing computation over [world]. *)

From Stdlib Require Import ZArith Lia List Strings.Byte Strings.Ascii.
From stdpp Require Import base tactics option list strings gmap pretty sorting.

Local Open Scope Z_scope.

(** ** Python preliminaries *)

Inductive exn : Type :=
| ValidationError      (* rest_framework.exceptions.ValidationError *)
| NotFound             (* rest_framework.exceptions.NotFound *)
| AssertionError
| AttributeError
| TypeError
| ValueError
| ZeroDivisionError
| RuntimeError
| StopIteration
| UnpicklingError
| ExternalError (what : string).   (* raised inside a collaborator *)

Inductive result (A : Type) : Type :=
| Ok (a : A)
| Raise (e : exn).
Arguments Ok {A} a.
Arguments Raise {A} e.

Definition rbind {A B} (r : result A) (k : A → result B) : result B :=
  match r with
  | Ok a => k a
  | Raise e => Raise e
  end.

Abbreviation bytes := (list byte).

(** [a // b] *)
Definition py_floordiv (a b : Z) : result Z :=
  if b =? 0 then Raise ZeroDivisionError else Ok (a / b).

(** [divmod(a, b)] *)
Definition py_divmod (a b : Z) : result (Z * Z) :=
  if b =? 0 then Raise ZeroDivisionError else Ok (a / b, a mod b).

(** [math.ceil(a / b)] for two ints: the ceiling of the exact quotient
    (the float quotient is exact at the magnitudes of frame counts). *)
Definition py_ceil_div (a b : Z) : result Z :=
  if b =? 0 then Raise ZeroDivisionError else Ok (- ((- a) / b)).

(** [x in l] on a list of ints *)
Definition py_in (x : Z) (l : list Z) : bool := existsb (Z.eqb x) l.

(** [l.index(x)]: position of the first occurrence; [None] stands for the
    [ValueError] of an absent element. *)
Fixpoint py_index (x : Z) (l : list Z) : option nat :=
  match l with
  | [] => None
  | y :: l' => if x =? y then Some O else S <$> py_index x l'
  end.

(** Normalisation of a slice bound against the length of the sequence. *)
Definition py_slice_bound (len i : Z) : Z :=
  let i := if i <? 0 then i + len else i in
  if i <? 0 then 0 else if len <? i then len else i.

(** [l[a:b]] *)
Definition py_slice {A} (l : list A) (a b : Z) : list A :=
  let len := Z.of_nat (length l) in
  let a := py_slice_bound len a in
  let b := py_slice_bound len b in
  take (Z.to_nat (b - a)) (drop (Z.to_nat a) l).

(** [range(n)] *)
Definition py_range1 (n : Z) : list Z := Z.of_nat <$> seq 0 (Z.to_nat n).

(** [range(a, b, step)]; a zero step is a [ValueError]. *)
Definition py_range (a b step : Z) : result (list Z) :=
  if step =? 0 then Raise ValueError
  else
    let n := if 0 <? step then (b - a + step - 1) / step
             else (a - b - step - 1) / (- step) in
    Ok ((λ i, a + i * step) <$> py_range1 n).

(** ** Data model ([cvat.apps.engine.models], taken as given) *)

Inductive FrameQuality := COMPRESSED | ORIGINAL.
Inductive SegmentType := RANGE | SPECIFIC_FRAMES.
Inductive StorageMethodChoice := CACHE | FILE_SYSTEM.
Inductive DataChoice := VIDEO | IMAGESET.
Inductive DimensionType := DIM_2D | DIM_3D.

#[global] Instance FrameQuality_eq_dec : EqDecision FrameQuality.
Proof. solve_decision. Defined.
#[global] Instance SegmentType_eq_dec : EqDecision SegmentType.
Proof. solve_decision. Defined.
#[global] Instance StorageMethodChoice_eq_dec : EqDecision StorageMethodChoice.
Proof. solve_decision. Defined.
#[global] Instance DataChoice_eq_dec : EqDecision DataChoice.
Proof. solve_decision. Defined.
#[global] Instance DimensionType_eq_dec : EqDecision DimensionType.
Proof. solve_decision. Defined.

Record Video := mkVideo {
  video_path : string;
  video_width : Z;
  video_height : Z
}.

(** [models.Data]; [frame_step] is the value of [get_frame_step()] and
    [video] is [None] when [hasattr(db_data, "video")] is false. *)
Record Data := mkData {
  data_id : Z;
  start_frame : Z;
  stop_frame : Z;
  frame_step : Z;
  chunk_size : Z;
  size : Z;
  image_quality : Z;
  storage_method : StorageMethodChoice;
  compressed_chunk_type : DataChoice;
  original_chunk_type : DataChoice;
  video : option Video
}.

(** [models.Segment]; [frame_set] is the ordered collection of frame ids of
    the segment, [seg_start_frame] its [start_frame]. *)
Record Segment := mkSegment {
  seg_id : Z;
  seg_type : SegmentType;
  seg_start_frame : Z;
  frame_count : Z;
  frame_set : list Z
}.

(** [models.Task]; [segment_set] is [db_task.segment_set.all()]. *)
Record Task := mkTask {
  task_id : Z;
  data : Data;
  dimension : DimensionType;
  segment_set : list Segment
}.

(** ** Frame and chunk addressing *)

Module Addressing.

(** [SegmentFrameProvider.validate_frame_number] *)
Definition segment_validate_frame_number
    (db_task : Task) (db_segment : Segment) (frame_number : Z)
  : result (Z * Z * Z) :=
  let frame_sequence := frame_set db_segment in
  if negb (py_in frame_number frame_sequence) then Raise ValidationError
  else
    match py_index frame_number frame_sequence with
    | None => Raise ValueError
    | Some i =>
        rbind (py_divmod (Z.of_nat i) (chunk_size (data db_task)))
          (λ '(chunk_number, frame_position),
             Ok (frame_number, chunk_number, frame_position))
    end.

(** [TaskFrameProvider.get_chunk_number]; [int(frame_number)] is the
    frame number itself. *)
Definition task_get_chunk_number (db_task : Task) (frame_number : Z)
  : result Z :=
  py_floordiv frame_number (chunk_size (data db_task)).

(** [SegmentFrameProvider.get_chunk_number]; [db_task] is
    [self._db_segment.task]. *)
Definition segment_get_chunk_number
    (db_task : Task) (db_segment : Segment) (frame_number : Z) : result Z :=
  py_floordiv frame_number (chunk_size (data db_task)).

(** [TaskFrameProvider.validate_chunk_number] *)
Definition task_validate_chunk_number (db_task : Task) (chunk_number : Z)
  : result Z :=
  let start_chunk := 0 in
  rbind (py_ceil_div (size (data db_task)) (chunk_size (data db_task)))
    (λ stop_chunk,
       if negb ((start_chunk <=? chunk_number) && (chunk_number <=? stop_chunk))
       then Raise ValidationError
       else Ok chunk_number).

(** [SegmentFrameProvider.validate_chunk_number] *)
Definition segment_validate_chunk_number
    (db_task : Task) (db_segment : Segment) (chunk_number : Z) : result Z :=
  let segment_size := frame_count db_segment in
  let start_chunk := 0 in
  rbind (py_ceil_div segment_size (chunk_size (data db_task)))
    (λ stop_chunk,
       if negb ((start_chunk <=? chunk_number) && (chunk_number <=? stop_chunk))
       then Raise ValidationError
       else Ok chunk_number).

(** [TaskFrameProvider.validate_frame_number] *)
Definition task_validate_frame_number (db_task : Task) (frame_number : Z)
  : result Z :=
  let start := start_frame (data db_task) in
  let stop := stop_frame (data db_task) in
  rbind (py_range start (stop + 1) (frame_step (data db_task)))
    (λ r, if negb (py_in frame_number r) then Raise ValidationError
          else Ok frame_number).

End Addressing.

(** ** Media values *)

(** A decoded [av.VideoFrame]: where it comes from and its native size. *)
Record AvFrame := mkAvFrame {
  av_source : string;
  av_index : Z;
  av_width : Z;
  av_height : Z
}.

(** A [PIL.Image.Image], as the term of the PIL calls that built it. *)
Inductive PilImage :=
| Image_new (mode : string) (w h : Z)
| Image_open_buffer (b : bytes)
| Image_open_path (p : string)
| to_image (f : AvFrame)
| resize (i : PilImage) (w h : Z)
| exif_transpose (i : PilImage)
| thumbnail (i : PilImage) (w h : Z)
| convert (i : PilImage) (mode : string).

(** A [numpy.ndarray], as the term of the calls that built it. *)
Inductive NdArray :=
| to_ndarray_bgr24 (f : AvFrame)
| np_array_rgb_to_bgr (i : PilImage).

(** The objects that travel as "frames". *)
Inductive Frame :=
| FVideo (f : AvFrame)        (* av.VideoFrame *)
| FPath (p : string)          (* an image file of the task *)
| FBuffer (b : bytes)         (* io.BytesIO *)
| FImage (i : PilImage)       (* PIL.Image.Image *)
| FArray (a : NdArray).       (* numpy.ndarray *)

Inductive ReaderClass := ZipReader | VideoReader.

Inductive WriterClass :=
| Mpeg4ChunkWriter
| Mpeg4CompressedChunkWriter
| ZipChunkWriter
| ZipCompressedChunkWriter.

#[global] Instance ReaderClass_eq_dec : EqDecision ReaderClass.
Proof. solve_decision. Defined.
#[global] Instance WriterClass_eq_dec : EqDecision WriterClass.
Proof. solve_decision. Defined.

(** Keyword arguments of [save_as_chunk]. *)
Record SaveOptions := mkSaveOptions {
  compress_frames : option bool;
  zip_compress_level : option Z
}.

(** What the first component of a [DataWithMime] can be at run time:
    [None], an [io.BytesIO] or a [bytes] object. *)
Inductive PyData :=
| PNone
| PBytesIO (b : bytes)
| PBytes (b : bytes).

(** Truth value: [None] and the empty [bytes] are false; [io.BytesIO]
    defines neither [__bool__] nor [__len__], so every buffer is true. *)
Definition truthy (d : PyData) : bool :=
  match d with
  | PNone => false
  | PBytesIO _ => true
  | PBytes b => negb (bool_decide (b = []))
  end.

Definition DataWithMime : Type := PyData * option string.

(** What a [create_callback] returns: a pair, or [None]. *)
Inductive ProducerRet :=
| RetNone
| RetPair (d : PyData) (m : option string).

(** [frame_provider.DataWithMeta] *)
Record DataWithMeta (T : Type) := mkDataWithMeta {
  dwm_data : T;
  dwm_mime : option string;
  dwm_checksum : option Z
}.
Arguments mkDataWithMeta {T} _ _ _.
Arguments dwm_data {T} _.
Arguments dwm_mime {T} _.
Arguments dwm_checksum {T} _.

(** ** Collaborators outside the two modules

    The chunk readers and writers of [media_extractors], the raw media of a
    task, the file system, the MIME table and the iteration order of a
    Python [set] are taken as given. *)
Class Collaborators := {
(** [writer_class(image_quality, **kwargs).save_as_chunk(frames, buffer,
    **options)]: the bytes left in [buffer]. *)
save_as_chunk :
  WriterClass → Z → option DimensionType → list Frame → SaveOptions →
  result bytes;
(** [RandomAccessIterator(reader_class([chunk]))[i]] *)
reader_getitem : ReaderClass → PyData → Z → result (Frame * string);
(** [ZipCompressedChunkWriter.IMAGE_EXT] *)
IMAGE_EXT : string;
(** [image.save(buffer, format)]: the bytes left in [buffer]. *)
pil_save : PilImage → string → bytes;
(** [cv2.imencode(".PNG", frame.to_ndarray(format="bgr24"))]; [None] when
    the encoder reports no success. *)
imencode_png : AvFrame → option bytes;
(** The tuples the video reader or [_read_raw_images] yields for the
    requested frame ids. *)
raw_media : Task → list Z → result (list (Frame * string));
(** [mimetypes.guess_type(name)[0]] *)
guess_type : string → option string;
(** [open(path, "rb").read()] *)
read_file : string → result bytes;
(** [db_data.get_compressed_segment_chunk_path(chunk, segment=id)] and
    [db_data.get_original_segment_chunk_path(chunk, segment=id)] *)
get_segment_chunk_path : Data → FrameQuality → Z → Z → string;
(** How [f"{quality}"] prints a [FrameQuality]. *)
format_quality : FrameQuality → string;
(** The order in which [for x in set(l)] visits the elements of
    [set(l)]. *)
set_iter : list Z → list Z;
(** [models.Image.objects.get(data_id=.., frame=..).related_files.all()]
    as paths; [None] when the image record does not exist. *)
related_files : Data → Z → option (list string);
(** The archive [prepare_context_images] builds from the related files. *)
zip_related_files : list string → result bytes
}.

(** ** CRC-32 ([zlib.crc32]) *)

Definition crc32_step (c : Z) : Z :=
  if Z.testbit c 0 then Z.lxor (Z.shiftr c 1) 0xEDB88320 else Z.shiftr c 1.

Definition crc32_byte (c : Z) (b : byte) : Z :=
  Nat.iter 8 crc32_step (Z.lxor c (Z.of_N (Byte.to_N b))).

Definition crc32 (value : bytes) : Z :=
  Z.lxor (fold_left crc32_byte value 0xFFFFFFFF) 0xFFFFFFFF.

(** ** The world: cache backend, logger, chunk readers *)

(** A value held by the cache backend: the tuples this module writes have
    three components; a two-component tuple has no checksum. *)
Inductive CacheItem :=
| Item3 (d : PyData) (m : option string) (c : option Z)
| Item2 (d : PyData) (m : option string).

Definition item_data (it : CacheItem) : PyData :=
  match it with Item3 d _ _ | Item2 d _ => d end.
Definition item_mime (it : CacheItem) : option string :=
  match it with Item3 _ m _ | Item2 _ m => m end.

(** A stored entry: a value, or bytes that fail to unpickle. *)
Inductive Stored :=
| Pickled (it : CacheItem)
| Unpicklable.

Inductive LogLine :=
| StartPrepare (key : string)     (* "Starting to prepare chunk: key .." *)
| EndPrepare (key : string)       (* "Ending to prepare chunk: key .." *)
| StartGet (key : string)         (* "Starting to get chunk from cache .." *)
| EndGet (key : string) (is_cached : bool)
| ErrorGet (key : string)         (* "Unable to get item from cache .." *)
| Recreating (key : string)       (* ".. due to checksum mismatch" *)
| Removed (key : string).         (* "Removed chunk from the cache .." *)

(** An opened chunk reader. *)
Record Reader := mkReader {
  reader_handle : nat;
  reader_cls : ReaderClass;
  reader_chunk : PyData
}.

Inductive ReaderEvent :=
| Opened (h : nat) (chunk_id : Z)
| Closed (h : nat).

Record world := mkWorld {
  cache : gmap string Stored;       (* caches["media"] *)
  slog : list LogLine;              (* slogger.glob *)
  readers : list ReaderEvent        (* readers opened and closed so far *)
}.

(** State and exception passing. *)
Definition M (S A : Type) : Type := S → result A * S.

Definition ret {S A} (a : A) : M S A := λ s, (Ok a, s).
Definition raise {S A} (e : exn) : M S A := λ s, (Raise e, s).
Definition bind {S A B} (c : M S A) (k : A → M S B) : M S B :=
  λ s, match c s with
       | (Ok a, s') => k a s'
       | (Raise e, s') => (Raise e, s')
       end.
Definition lift_result {S A} (r : result A) : M S A := λ s, (r, s).

Declare Scope m_scope.
Delimit Scope m_scope with M.
Notation "x <- c ;; k" := (bind c (λ x, k))
  (at level 100, c at next level, right associativity) : m_scope.
Notation "c ;;; k" := (bind c (λ _, k))
  (at level 100, right associativity) : m_scope.
Local Open Scope m_scope.

(** The world after the logger wrote [lines]. *)
Definition logged (w : world) (lines : list LogLine) : world :=
  mkWorld (cache w) (slog w ++ lines) (readers w).

(** [slogger.glob.info(..)] and [slogger.glob.error(..)] *)
Definition info (l : LogLine) : M world unit :=
  λ w, (Ok tt, logged w [l]).

(** [self._cache.get(key)] *)
Definition cache_get (key : string) : M world (option CacheItem) :=
  λ w, match cache w !! key with
       | None => (Ok None, w)
       | Some (Pickled it) => (Ok (Some it), w)
       | Some Unpicklable => (Raise UnpicklingError, w)
       end.

(** [self._cache.set(key, item)] *)
Definition cache_set (key : string) (item : CacheItem) : M world unit :=
  λ w, (Ok tt, mkWorld (<[key := Pickled item]> (cache w)) (slog w) (readers w)).

(** [self._cache.delete(key)] *)
Definition cache_delete (key : string) : M world unit :=
  λ w, (Ok tt, mkWorld (delete key (cache w)) (slog w) (readers w)).

(** [try: .. except pickle.UnpicklingError: ..] *)
Definition except_unpickling {A} (c : M world A) (h : M world A) : M world A :=
  λ w, match c w with
       | (Raise UnpicklingError, w') => h w'
       | r => r
       end.

(** ** [cache.py] *)

Module MediaCache.
Section with_collaborators.
Context `{Collaborators}.

(** [MediaCache.get_checksum] *)
Definition get_checksum (value : bytes) : Z := crc32 value.

(** [create_item], the closure of [_get_or_set_cache_item].
    [item_data[0]] on a callback that returned [None] is a [TypeError];
    [getbuffer()] exists on [io.BytesIO] only. *)
Definition create_item (key : string) (create_callback : M world ProducerRet)
  : M world CacheItem :=
  info (StartPrepare key) ;;;
  item_data <- create_callback ;;
  info (EndPrepare key) ;;;
  match item_data with
  | RetNone => raise TypeError
  | RetPair d m =>
      if truthy d then
        match d with
        | PBytesIO b =>
            let item := Item3 d m (Some (get_checksum b)) in
            cache_set key item ;;;
            ret item
        | _ => raise AttributeError
        end
      else ret (Item3 d m None)
  end.

(** [MediaCache._get_or_set_cache_item] *)
Definition _get_or_set_cache_item
    (key : string) (create_callback : M world ProducerRet)
  : M world DataWithMime :=
  info (StartGet key) ;;;
  item <- except_unpickling (cache_get key)
            (info (ErrorGet key) ;;; ret None) ;;
  info (EndGet key (bool_decide (item ≠ None))) ;;;
  item <- match item with
          | None => create_item key create_callback
          | Some item =>
              (* compare checksum *)
              item_bytes <- match item_data item with
                            | PBytesIO b => ret b
                            | PBytes b => ret b
                            | PNone => raise TypeError
                            end ;;
              let item_checksum :=
                match item with Item3 _ _ c => c | Item2 _ _ => None end in
              if bool_decide (item_checksum ≠ Some (get_checksum item_bytes))
              then info (Recreating key) ;;; create_item key create_callback
              else ret item
          end ;;
  ret (item_data item, item_mime item).

(** [MediaCache._delete_cache_item] *)
Definition _delete_cache_item (key : string) : M world unit :=
  cache_delete key ;;; info (Removed key).

(** [MediaCache._get] *)
Definition _get (key : string) : M world (option CacheItem) :=
  info (StartGet key) ;;;
  item <- except_unpickling (cache_get key)
            (info (ErrorGet key) ;;; ret None) ;;
  info (EndGet key (bool_decide (item ≠ None))) ;;;
  ret item.

Definition _make_task_chunk_key
    (db_task : Task) (chunk_number : Z) (quality : FrameQuality) : string :=
  "task_" +:+ pretty (task_id db_task) +:+ "_" +:+ pretty chunk_number
    +:+ "_" +:+ format_quality quality.

Definition _make_segment_chunk_key
    (db_segment : Segment) (chunk_number : Z) (quality : FrameQuality)
  : string :=
  "segment_" +:+ pretty (seg_id db_segment) +:+ "_" +:+ pretty chunk_number
    +:+ "_" +:+ format_quality quality.

Definition _make_cloud_storage_preview_key (storage_id : Z) : string :=
  "cloudstorage_preview_" +:+ pretty storage_id.

(** [get_chunk_mime_type_for_writer]: the compressed writers are
    subclasses of the original ones. *)
Definition get_chunk_mime_type_for_writer (writer_class : WriterClass)
  : string :=
  match writer_class with
  | ZipChunkWriter | ZipCompressedChunkWriter => "application/zip"
  | Mpeg4ChunkWriter | Mpeg4CompressedChunkWriter => "video/mp4"
  end.

(** [for prev_frame, cur_frame in pairwise(frame_ids): assert prev <= cur] *)
Fixpoint pairwise_sorted (frame_ids : list Z) : bool :=
  match frame_ids with
  | prev_frame :: ((cur_frame :: _) as rest) =>
      (prev_frame <=? cur_frame) && pairwise_sorted rest
  | _ => true
  end.

(** [MediaCache._read_raw_frames], forced: the assertion on the order of
    the ids, then the tuples of the backend. The generator runs nothing
    before its first [next]. *)
Definition _read_raw_frames (db_task : Task) (frame_ids : list Z)
  : result (list (Frame * string)) :=
  if negb (pairwise_sorted frame_ids) then Raise AssertionError
  else raw_media db_task frame_ids.

(** [writer_classes[quality]] of [prepare_chunk] and of
    [TaskFrameProvider.get_chunk] *)
Definition writer_classes (db_data : Data) (quality : FrameQuality)
  : WriterClass :=
  match quality with
  | COMPRESSED =>
      if decide (compressed_chunk_type db_data = VIDEO)
      then Mpeg4CompressedChunkWriter else ZipCompressedChunkWriter
  | ORIGINAL =>
      if decide (original_chunk_type db_data = VIDEO)
      then Mpeg4ChunkWriter else ZipChunkWriter
  end.

(** The [dimension] keyword passed to a writer for a 3D task. *)
Definition dimension_kwargs (db_task : Task) : option DimensionType :=
  if decide (dimension db_task = DIM_3D) then Some DIM_3D else None.

(** [prepare_chunk] with [dump_unchanged] left at its default *)
Definition prepare_chunk
    (task_chunk_frames : result (list (Frame * string)))
    (quality : FrameQuality) (db_task : Task) : result DataWithMime :=
  let db_data := data db_task in
  let writer_class := writer_classes db_data quality in
  let image_quality :=
    if decide (quality = ORIGINAL) then 100 else image_quality db_data in
  rbind task_chunk_frames (λ frames,
  rbind (save_as_chunk writer_class image_quality (dimension_kwargs db_task)
           (fst <$> frames) (mkSaveOptions None None))
    (λ buffer,
       Ok (PBytesIO buffer,
           Some (get_chunk_mime_type_for_writer writer_class)))).

(** [chunk_frame_ids] of both segment-chunk producers *)
Definition chunk_frame_ids
    (db_task : Task) (db_segment : Segment) (chunk_number : Z) : list Z :=
  let chunk_size := chunk_size (data db_task) in
  py_slice (frame_set db_segment)
    (chunk_size * chunk_number) (chunk_size * (chunk_number + 1)).

(** [MediaCache.prepare_range_segment_chunk] *)
Definition prepare_range_segment_chunk
    (db_task : Task) (db_segment : Segment) (chunk_number : Z)
    (quality : FrameQuality) : result DataWithMime :=
  prepare_chunk
    (_read_raw_frames db_task (chunk_frame_ids db_task db_segment chunk_number))
    quality db_task.

(** The placeholder of the masked-range producer:
    [PIL.Image.new("RGB", (1, 1)).save(dummy_frame, writer.IMAGE_EXT)] *)
Definition dummy_frame : bytes := pil_save (Image_new "RGB" 1 1) IMAGE_EXT.

(** The slot id computed at iteration [frame_idx] of [get_frames]. *)
Definition slot_id (db_data : Data) (chunk_number frame_idx : Z) : Z :=
  start_frame db_data
  + chunk_number * chunk_size db_data
  + frame_idx * frame_step db_data.

(** The slot id of the specification: chunk [chunk_number] starts
    [chunk_number * chunk_size] frame steps after [start_frame]. *)
Definition spec_slot_id (db_data : Data) (chunk_number frame_idx : Z) : Z :=
  start_frame db_data
  + chunk_number * chunk_size db_data * frame_step db_data
  + frame_idx * frame_step db_data.

(** The body of the loop of [get_frames] over the remaining iterations;
    [read_frame_iter] is what is left of the raw-frame generator, forced
    at the first [next]. A [StopIteration] inside a generator surfaces as
    a [RuntimeError]. *)
Fixpoint get_frames_loop
    (db_data : Data) (chunk_number : Z) (chunk_frame_ids : list Z)
    (iterations : list Z) (read_frame_iter : result (list (Frame * string)))
  : result (list Frame) :=
  match iterations with
  | [] => Ok []
  | frame_idx :: iterations' =>
      let frame_idx := slot_id db_data chunk_number frame_idx in
      if stop_frame db_data <? frame_idx then Ok []
      else if py_in frame_idx chunk_frame_ids then
        match read_frame_iter with
        | Raise e => Raise e
        | Ok [] => Raise RuntimeError
        | Ok ((frame, _) :: rest) =>
            rbind
              (match video db_data with
               | Some v =>
                   (* Decoded video frames can have different size,
                      restore the original one *)
                   match frame with
                   | FVideo f =>
                       let frame := to_image f in
                       if bool_decide ((av_width f, av_height f)
                                       ≠ (video_width v, video_height v))
                       then Ok (FImage (resize frame (video_width v)
                                          (video_height v)))
                       else Ok (FImage frame)
                   | _ => Raise AttributeError
                   end
               | None => Ok frame
               end)
              (λ frame,
                 rbind (get_frames_loop db_data chunk_number chunk_frame_ids
                          iterations' (Ok rest))
                   (λ frames, Ok (frame :: frames)))
        end
      else
        (* Populate skipped frames with placeholder data *)
        rbind (get_frames_loop db_data chunk_number chunk_frame_ids
                 iterations' read_frame_iter)
          (λ frames, Ok (FBuffer dummy_frame :: frames))
  end.

(** The slots [get_frames] visits: those of the iterations before the
    first slot past [stop_frame]. *)
Fixpoint visited_slots (db_data : Data) (chunk_number : Z)
    (iterations : list Z) : list Z :=
  match iterations with
  | [] => []
  | frame_idx :: iterations' =>
      let slot := slot_id db_data chunk_number frame_idx in
      if stop_frame db_data <? slot then []
      else slot :: visited_slots db_data chunk_number iterations'
  end.

(** [get_frames], the generator of
    [prepare_masked_range_segment_chunk], collected *)
Definition get_frames
    (db_task : Task) (db_segment : Segment) (chunk_number : Z)
  : result (list Frame) :=
  let db_data := data db_task in
  let ids := chunk_frame_ids db_task db_segment chunk_number in
  get_frames_loop db_data chunk_number ids
    (py_range1 (chunk_size db_data)) (_read_raw_frames db_task ids).

(** [MediaCache.prepare_masked_range_segment_chunk] *)
Definition prepare_masked_range_segment_chunk
    (db_task : Task) (db_segment : Segment) (chunk_number : Z)
    (quality : FrameQuality) : result DataWithMime :=
  let db_data := data db_task in
  rbind (get_frames db_task db_segment chunk_number) (λ frames,
  rbind (save_as_chunk ZipCompressedChunkWriter (image_quality db_data)
           (Some (dimension db_task)) frames (mkSaveOptions None (Some 1)))
    (λ buff,
       Ok (PBytesIO buff,
           Some (get_chunk_mime_type_for_writer ZipCompressedChunkWriter)))).

(** [MediaCache.prepare_segment_chunk] *)
Definition prepare_segment_chunk
    (db_task : Task) (db_segment : Segment) (chunk_number : Z)
    (quality : FrameQuality) : result DataWithMime :=
  match seg_type db_segment with
  | RANGE =>
      prepare_range_segment_chunk db_task db_segment chunk_number quality
  | SPECIFIC_FRAMES =>
      prepare_masked_range_segment_chunk db_task db_segment chunk_number
        quality
  end.

(** A producer that does not touch the world, as a callback. *)
Definition callback_of (r : result DataWithMime) : M world ProducerRet :=
  lift_result (rbind r (λ '(d, m), Ok (RetPair d m))).

(** [MediaCache.get_segment_chunk] *)
Definition get_segment_chunk
    (db_task : Task) (db_segment : Segment) (chunk_number : Z)
    (quality : FrameQuality) : M world DataWithMime :=
  _get_or_set_cache_item
    (_make_segment_chunk_key db_segment chunk_number quality)
    (callback_of (prepare_segment_chunk db_task db_segment chunk_number quality)).

(** [MediaCache.get_task_chunk] *)
Definition get_task_chunk
    (db_task : Task) (chunk_number : Z) (quality : FrameQuality)
  : M world (option CacheItem) :=
  _get (_make_task_chunk_key db_task chunk_number quality).

(** [MediaCache.get_or_set_task_chunk] *)
Definition get_or_set_task_chunk
    (db_task : Task) (chunk_number : Z) (quality : FrameQuality)
    (set_callback : M world ProducerRet) : M world DataWithMime :=
  _get_or_set_cache_item
    (_make_task_chunk_key db_task chunk_number quality) set_callback.

(** [MediaCache.get_selective_job_chunk]; [db_segment] is
    [db_job.segment]. *)
Definition get_selective_job_chunk
    (job_id : Z) (db_task : Task) (db_segment : Segment) (chunk_number : Z)
    (quality : FrameQuality) : M world DataWithMime :=
  _get_or_set_cache_item
    ("job_" +:+ pretty job_id +:+ "_" +:+ pretty chunk_number
       +:+ "_" +:+ format_quality quality)
    (callback_of
       (prepare_masked_range_segment_chunk db_task db_segment chunk_number
          quality)).

(** [MediaCache.remove_segment_chunk] *)
Definition remove_segment_chunk
    (db_segment : Segment) (chunk_number : Z) (quality : FrameQuality)
  : M world unit :=
  _delete_cache_item (_make_segment_chunk_key db_segment chunk_number quality).

(** [MediaCache.prepare_context_images] *)
Definition prepare_context_images (db_data : Data) (frame_number : Z)
  : result ProducerRet :=
  match related_files db_data frame_number with
  | None => Ok RetNone
  | Some files =>
      if bool_decide (files = []) then Ok (RetPair PNone None)
      else rbind (zip_related_files files)
             (λ zip_buffer,
                Ok (RetPair (PBytesIO zip_buffer) (Some "application/zip")))
  end.

(** [MediaCache.get_frame_context_images] *)
Definition get_frame_context_images (db_data : Data) (frame_number : Z)
  : M world DataWithMime :=
  _get_or_set_cache_item
    ("context_image_" +:+ pretty (data_id db_data) +:+ "_"
       +:+ pretty frame_number)
    (lift_result (prepare_context_images db_data frame_number)).

(** [prepare_preview_image] *)
Definition prepare_preview_image (image : PilImage) : DataWithMime :=
  let PREVIEW_MIME := "image/jpeg" in
  let image := exif_transpose image in
  let image := thumbnail image 256 256 in
  let output_buf := pil_save (convert image "RGB") "JPEG" in
  (PBytesIO output_buf, Some PREVIEW_MIME).

End with_collaborators.
End MediaCache.

(** ** [frame_provider.py]: chunk loaders *)

Module ChunkLoader.

(** A [_ChunkLoader]; [read_chunk] is the method the two subclasses
    define. *)
Record t := mk {
  chunk_id : option Z;
  chunk_reader : option Reader;
  reader_class : ReaderClass;
  read_chunk : Z → M world DataWithMime
}.

(** [_ChunkLoader.__init__] *)
Definition init (reader_class : ReaderClass)
    (read_chunk : Z → M world DataWithMime) : t :=
  mk None None reader_class read_chunk.

(** [RandomAccessIterator(self.reader_class([chunk]))] *)
Definition open_reader (cls : ReaderClass) (chunk : PyData) (chunk_id : Z)
  : M world Reader :=
  λ w, let r := mkReader (length (readers w)) cls chunk in
       (Ok r, mkWorld (cache w) (slog w)
                (readers w ++ [Opened (reader_handle r) chunk_id])).

(** [self.chunk_reader.close()] *)
Definition close_reader (r : Reader) : M world unit :=
  λ w, (Ok tt, mkWorld (cache w) (slog w)
                 (readers w ++ [Closed (reader_handle r)])).

(** [_ChunkLoader.unload] *)
Definition unload : M (t * world) unit :=
  λ '(self, w),
    let self := mk None (chunk_reader self) (reader_class self)
                  (read_chunk self) in
    match chunk_reader self with
    | Some r =>
        let '(_, w) := close_reader r w in
        (Ok tt, (mk (chunk_id self) None (reader_class self)
                   (read_chunk self), w))
    | None => (Ok tt, (self, w))
    end.

(** [_ChunkLoader.load] *)
Definition load (chunk_id' : Z) : M (t * world) (option Reader) :=
  λ '(self, w),
    if bool_decide (chunk_id self ≠ Some chunk_id') then
      let '(_, (self, w)) := unload (self, w) in
      let self := mk (Some chunk_id') (chunk_reader self)
                    (reader_class self) (read_chunk self) in
      match read_chunk self chunk_id' w with
      | (Raise e, w) => (Raise e, (self, w))
      | (Ok (chunk, _), w) =>
          match open_reader (reader_class self) chunk chunk_id' w with
          | (Raise e, w) => (Raise e, (self, w))
          | (Ok r, w) =>
              let self := mk (chunk_id self) (Some r) (reader_class self)
                            (read_chunk self) in
              (Ok (chunk_reader self), (self, w))
          end
      end
    else (Ok (chunk_reader self), (self, w)).

Section with_collaborators.
Context `{Collaborators}.

(** [_FileChunkLoader.read_chunk] *)
Definition file_read_chunk (get_chunk_path : Z → string) (chunk_id : Z)
  : M world DataWithMime :=
  let chunk_path := get_chunk_path chunk_id in
  lift_result
    (rbind (read_file chunk_path)
       (λ content, Ok (PBytesIO content, guess_type chunk_path))).

(** [_FileChunkLoader(reader_class, get_chunk_path_callback)] *)
Definition _FileChunkLoader (reader_class : ReaderClass)
    (get_chunk_path_callback : Z → string) : t :=
  init reader_class (file_read_chunk get_chunk_path_callback).

(** [_BufferChunkLoader(reader_class, get_chunk_callback)] *)
Definition _BufferChunkLoader (reader_class : ReaderClass)
    (get_chunk_callback : Z → M world DataWithMime) : t :=
  init reader_class get_chunk_callback.

End with_collaborators.
End ChunkLoader.

(** The handles of the readers that a trace of reader events leaves open,
    starting from the open handles [opened]. *)
Fixpoint open_after (events : list ReaderEvent) (opened : list nat)
  : list nat :=
  match events with
  | [] => opened
  | Opened h _ :: events' => open_after events' (opened ++ [h])
  | Closed h :: events' => open_after events' (filter (λ h', h' ≠ h) opened)
  end.

Definition open_readers (events : list ReaderEvent) : list nat :=
  open_after events [].

(** The handle of the reader a loader holds, if it holds one. *)
Definition held (self : ChunkLoader.t) : list nat :=
  match ChunkLoader.chunk_reader self with
  | Some r => [reader_handle r]
  | None => []
  end.

(** The world after the reader events [events]. *)
Definition with_events (w : world) (events : list ReaderEvent) : world :=
  mkWorld (cache w) (slog w) (readers w ++ events).

(** A caller's use of a loader: a sequence of [load] and [unload] calls.
    An exception of [load] reaches the caller; the loader and the world
    stay as the call left them. *)
Inductive LoaderCall :=
| Load (chunk_id : Z)
| Unload.

Definition call (c : LoaderCall) (s : ChunkLoader.t * world)
  : ChunkLoader.t * world :=
  match c with
  | Load chunk_id => snd (ChunkLoader.load chunk_id s)
  | Unload => snd (ChunkLoader.unload s)
  end.

Definition calls (history : list LoaderCall) (s : ChunkLoader.t * world)
  : ChunkLoader.t * world :=
  fold_left (λ s c, call c s) history s.

(** A loader is single-resident since the world [w0] when the reader
    events since [w0] never leave more than one reader open and the reader
    they leave open at the end is the one the loader holds. *)
Definition single_resident (w0 : world) (s : ChunkLoader.t * world) : Prop :=
  ∃ events,
    readers (snd s) = readers w0 ++ events
    ∧ (∀ p, p `prefix_of` events → (length (open_readers p) ≤ 1)%nat)
    ∧ open_readers events = held (fst s).

(** ** [frame_provider.py]: frame providers *)

Inductive FrameOutputType := BUFFER | PIL | NUMPY_ARRAY.

Module SegmentFrameProvider.
Section with_collaborators.
Context `{Collaborators}.

(** A [SegmentFrameProvider]: its segment, the task of the segment and
    the loader of each quality. *)
Record t := mk {
  _db_segment : Segment;
  _db_task : Task;
  loader_compressed : ChunkLoader.t;
  loader_original : ChunkLoader.t
}.

Definition _loaders (self : t) (quality : FrameQuality) : ChunkLoader.t :=
  match quality with
  | COMPRESSED => loader_compressed self
  | ORIGINAL => loader_original self
  end.

Definition set_loader (self : t) (quality : FrameQuality)
    (l : ChunkLoader.t) : t :=
  match quality with
  | COMPRESSED => mk (_db_segment self) (_db_task self) l (loader_original self)
  | ORIGINAL => mk (_db_segment self) (_db_task self) (loader_compressed self) l
  end.

(** The [reader_class] dictionary of [__init__] *)
Definition reader_class_of (c : DataChoice) : ReaderClass :=
  match c with
  | IMAGESET => ZipReader
  | VIDEO => VideoReader
  end.

(** [SegmentFrameProvider.__init__] *)
Definition init (db_task : Task) (db_segment : Segment) : t :=
  let db_data := data db_task in
  match storage_method db_data with
  | CACHE =>
      mk db_segment db_task
        (ChunkLoader._BufferChunkLoader
           (reader_class_of (compressed_chunk_type db_data))
           (λ chunk_idx,
              MediaCache.get_segment_chunk db_task db_segment chunk_idx
                COMPRESSED))
        (ChunkLoader._BufferChunkLoader
           (reader_class_of (original_chunk_type db_data))
           (λ chunk_idx,
              MediaCache.get_segment_chunk db_task db_segment chunk_idx
                ORIGINAL))
  | FILE_SYSTEM =>
      mk db_segment db_task
        (ChunkLoader._FileChunkLoader
           (reader_class_of (compressed_chunk_type db_data))
           (λ chunk_idx,
              get_segment_chunk_path db_data COMPRESSED chunk_idx
                (seg_id db_segment)))
        (ChunkLoader._FileChunkLoader
           (reader_class_of (original_chunk_type db_data))
           (λ chunk_idx,
              get_segment_chunk_path db_data ORIGINAL chunk_idx
                (seg_id db_segment)))
  end.

(** Run a method of the loader of [quality] inside the provider. *)
Definition with_loader {A} (quality : FrameQuality)
    (c : M (ChunkLoader.t * world) A) : M (t * world) A :=
  λ '(self, w),
    let '(r, (l, w)) := c (_loaders self quality, w) in
    (r, (set_loader self quality l, w)).

(** [SegmentFrameProvider.unload] *)
Definition unload : M (t * world) unit :=
  bind (with_loader COMPRESSED ChunkLoader.unload)
    (λ _, with_loader ORIGINAL ChunkLoader.unload).

Definition validate_frame_number (self : t) (frame_number : Z)
  : result (Z * Z * Z) :=
  Addressing.segment_validate_frame_number
    (_db_task self) (_db_segment self) frame_number.

Definition get_chunk_number (self : t) (frame_number : Z) : result Z :=
  Addressing.segment_get_chunk_number
    (_db_task self) (_db_segment self) frame_number.

Definition validate_chunk_number (self : t) (chunk_number : Z) : result Z :=
  Addressing.segment_validate_chunk_number
    (_db_task self) (_db_segment self) chunk_number.

(** [IFrameProvider._av_frame_to_png_bytes] *)
Definition _av_frame_to_png_bytes (av_frame : AvFrame) : result bytes :=
  match imencode_png av_frame with
  | Some result => Ok result
  | None => Raise RuntimeError
  end.

(** [IFrameProvider._convert_frame]; a frame of a video reader is an
    [av.VideoFrame], a frame of a zip reader is a buffer. *)
Definition _convert_frame (frame : Frame) (reader_class : ReaderClass)
    (out_type : FrameOutputType) : result Frame :=
  match out_type, reader_class, frame with
  | BUFFER, VideoReader, FVideo f =>
      rbind (_av_frame_to_png_bytes f) (λ b, Ok (FBuffer b))
  | BUFFER, VideoReader, _ => Raise AttributeError
  | BUFFER, ZipReader, _ => Ok frame
  | PIL, VideoReader, FVideo f => Ok (FImage (to_image f))
  | PIL, VideoReader, _ => Raise AttributeError
  | PIL, ZipReader, FBuffer b => Ok (FImage (Image_open_buffer b))
  | PIL, ZipReader, FPath p => Ok (FImage (Image_open_path p))
  | PIL, ZipReader, _ => Raise AttributeError
  | NUMPY_ARRAY, VideoReader, FVideo f => Ok (FArray (to_ndarray_bgr24 f))
  | NUMPY_ARRAY, VideoReader, _ => Raise AttributeError
  | NUMPY_ARRAY, ZipReader, FBuffer b =>
      Ok (FArray (np_array_rgb_to_bgr (Image_open_buffer b)))
  | NUMPY_ARRAY, ZipReader, FPath p =>
      Ok (FArray (np_array_rgb_to_bgr (Image_open_path p)))
  | NUMPY_ARRAY, ZipReader, _ => Raise AttributeError
  end.

Definition VIDEO_FRAME_MIME : string := "image/png".

(** [SegmentFrameProvider.get_chunk] *)
Definition get_chunk (chunk_number : Z) (quality : FrameQuality)
  : M (t * world) (DataWithMeta PyData) :=
  λ '(self, w),
    match validate_chunk_number self chunk_number with
    | Raise e => (Raise e, (self, w))
    | Ok chunk_number =>
        match ChunkLoader.read_chunk (_loaders self quality) chunk_number w with
        | (Raise e, w) => (Raise e, (self, w))
        | (Ok (chunk_data, mime), w) =>
            (Ok (mkDataWithMeta chunk_data mime None), (self, w))
        end
    end.

(** [chunk_reader[frame_offset]]; subscripting [None] is a [TypeError]. *)
Definition reader_subscript (chunk_reader : option Reader) (frame_offset : Z)
  : result (Frame * string) :=
  match chunk_reader with
  | None => Raise TypeError
  | Some r => reader_getitem (reader_cls r) (reader_chunk r) frame_offset
  end.

(** [SegmentFrameProvider.get_frame] *)
Definition get_frame (frame_number : Z) (quality : FrameQuality)
    (out_type : FrameOutputType) : M (t * world) (DataWithMeta Frame) :=
  λ '(self, w),
    match validate_frame_number self frame_number with
    | Raise e => (Raise e, (self, w))
    | Ok (_, chunk_number, frame_offset) =>
        match with_loader quality (ChunkLoader.load chunk_number) (self, w) with
        | (Raise e, sw) => (Raise e, sw)
        | (Ok chunk_reader, (self, w)) =>
            let reader_class :=
              ChunkLoader.reader_class (_loaders self quality) in
            (rbind (reader_subscript chunk_reader frame_offset)
               (λ '(frame, frame_name),
                  rbind (_convert_frame frame reader_class out_type)
                    (λ frame,
                       if decide (reader_class = VideoReader)
                       then Ok (mkDataWithMeta frame (Some VIDEO_FRAME_MIME) None)
                       else Ok (mkDataWithMeta frame (guess_type frame_name) None))),
             (self, w))
        end
    end.

(** [SegmentFrameProvider.get_frame_context_images]; unpacking a [None]
    into [data, mime] is a [TypeError]. *)
Definition get_frame_context_images (self : t) (frame_number : Z)
  : M world (option (DataWithMeta PyData)) :=
  let db_data := data (_db_task self) in
  bind
    (match storage_method db_data with
     | CACHE => MediaCache.get_frame_context_images db_data frame_number
     | FILE_SYSTEM =>
         lift_result
           (rbind (MediaCache.prepare_context_images db_data frame_number)
              (λ r, match r with
                    | RetNone => Raise TypeError
                    | RetPair d m => Ok (d, m)
                    end))
     end)
    (λ '(d, mime),
       if negb (truthy d) then ret None
       else ret (Some (mkDataWithMeta d mime None))).

End with_collaborators.
End SegmentFrameProvider.

(** ** [os.path] on POSIX *)

Definition sep : ascii := "/"%char.

Fixpoint drop_while {A} (p : A → bool) (l : list A) : list A :=
  match l with
  | [] => []
  | x :: l' => if p x then drop_while p l' else l
  end.

(** [s.rstrip("/")] on the characters of [s] *)
Definition rstrip_sep (l : list ascii) : list ascii :=
  reverse (drop_while (Ascii.eqb sep) (reverse l)).

(** [os.path.dirname] *)
Definition dirname (p : string) : string :=
  let l := String.list_ascii_of_string p in
  (* head = p[:p.rfind("/") + 1] *)
  let head := reverse (drop_while (λ c, negb (Ascii.eqb sep c)) (reverse l)) in
  let head :=
    if bool_decide (head ≠ [] ∧ head ≠ replicate (length head) sep)
    then rstrip_sep head else head in
  String.string_of_list_ascii head.

(** [os.path.join(a, b)] *)
Definition path_join (a b : string) : string :=
  if bool_decide (head (String.list_ascii_of_string b) = Some sep) then b
  else if bool_decide (a = "" ∨ last (String.list_ascii_of_string a) = Some sep)
       then a +:+ b
       else a +:+ "/" +:+ b.

(** ** [cache.py]: previews *)

(** A cloud storage binding: [manifests] holds the [filename] of each
    manifest of [db_storage.manifests.all()], [storage_dirname] is
    [db_storage.get_storage_dirname()]. *)
Record CloudStorage := mkCloudStorage {
  storage_id : Z;
  manifests : list string;
  storage_dirname : string
}.

(** An entry of an image manifest. *)
Record ManifestEntry := mkManifestEntry {
  entry_name : string;
  entry_extension : string
}.

(** The blob store and the manifest files of a cloud storage binding. *)
Class CloudCollaborators := {
(** Modification time and entries of the local copy of a manifest at a
    path; [None] when [os.path.exists] is false. *)
local_manifest : string → option (Z * list ManifestEntry);
(** [storage.get_file_last_modified(filename)] and the entries of the
    remote manifest, which [storage.download_file] copies. *)
remote_manifest : CloudStorage → string → Z * list ManifestEntry;
(** [storage.download_fileobj(path)] *)
download_fileobj : CloudStorage → string → result bytes
}.

(** The names a [TaskFrameProvider] instance answers to: the attributes its
    class and [IFrameProvider] define, and the one [__init__] sets. *)
Definition TaskFrameProvider_attributes : list string :=
  [ "_db_task";
    "validate_frame_number"; "validate_chunk_number"; "get_chunk_number";
    "get_preview"; "get_chunk"; "get_frame"; "get_frame_context_images";
    "iterate_frames"; "_get_segment"; "_get_segment_frame_provider";
    "VIDEO_FRAME_EXT"; "VIDEO_FRAME_MIME"; "unload";
    "_av_frame_to_png_bytes"; "_convert_frame" ].

(** The methods of [TaskFrameProvider] that take one frame or chunk number
    and return a number. *)
Definition TaskFrameProvider_int_methods
  : list (string * (Task → Z → result Z)) :=
  [ ("validate_frame_number", Addressing.task_validate_frame_number);
    ("validate_chunk_number", Addressing.task_validate_chunk_number);
    ("get_chunk_number", Addressing.task_get_chunk_number) ].

(** [task_frame_provider.<name>] as a callable from a number to a number:
    a name the instance does not answer to is an [AttributeError]. The other
    attributes are not of that shape; the one call site names
    [get_rel_frame_number], and the model ends a call of another attribute
    with a [TypeError]. *)
Definition TaskFrameProvider_getattr (name : string)
  : result (Task → Z → result Z) :=
  if bool_decide (name ∈ TaskFrameProvider_attributes) then
    match list_find (λ m, fst m = name) TaskFrameProvider_int_methods with
    | Some (_, (_, f)) => Ok f
    | None => Ok (λ _ _, Raise TypeError)
    end
  else Raise AttributeError.

(** [min(l)]; the empty sequence is a [ValueError]. *)
Definition py_min (l : list Z) : result Z :=
  match l with
  | [] => Raise ValueError
  | x :: l' => Ok (fold_left Z.min l' x)
  end.

Module Previews.
Section with_collaborators.
Context `{Collaborators} `{CloudCollaborators}.

(** [MediaCache._prepare_segment_preview]; [db_task] is
    [db_segment.task]. The callee [task_frame_provider.get_rel_frame_number]
    is looked up before its argument is evaluated. *)
Definition _prepare_segment_preview (db_task : Task) (db_segment : Segment)
  : M world ProducerRet :=
  preview <-
    match dimension db_task with
    | DIM_3D => ret (Image_open_path "assets/3d_preview.jpeg")
    | DIM_2D =>
        let segment_frame_provider :=
          SegmentFrameProvider.init db_task db_segment in
        get_rel_frame_number <-
          lift_result (TaskFrameProvider_getattr "get_rel_frame_number") ;;
        lowest <- lift_result (py_min (frame_set db_segment)) ;;
        frame_number <- lift_result (get_rel_frame_number db_task lowest) ;;
        (λ w,
           match SegmentFrameProvider.get_frame frame_number COMPRESSED PIL
                   (segment_frame_provider, w) with
           | (Ok preview, (_, w)) =>
               match dwm_data preview with
               | FImage image => (Ok image, w)
               | _ => (Raise AttributeError, w)
               end
           | (Raise e, (_, w)) => (Raise e, w)
           end)
    end ;;
  let '(d, m) := MediaCache.prepare_preview_image preview in
  ret (RetPair d m).

(** [MediaCache.get_or_set_segment_preview] *)
Definition get_or_set_segment_preview (db_task : Task) (db_segment : Segment)
  : M world DataWithMime :=
  MediaCache._get_or_set_cache_item
    ("segment_preview_" +:+ pretty (seg_id db_segment))
    (_prepare_segment_preview db_task db_segment).

(** [SegmentFrameProvider.get_preview] *)
Definition segment_get_preview (self : SegmentFrameProvider.t)
  : M world (DataWithMeta PyData) :=
  x <- get_or_set_segment_preview
         (SegmentFrameProvider._db_task self)
         (SegmentFrameProvider._db_segment self) ;;
  ret (mkDataWithMeta (fst x) (snd x) None).

(** The entries [ImageManifestManager] indexes for a manifest of the
    storage, after the local copy was refreshed when it was missing or
    older than the remote one. *)
Definition manifest_entries (db_storage : CloudStorage) (filename : string)
  : list ManifestEntry :=
  let full_manifest_path := path_join (storage_dirname db_storage) filename in
  let '(last_modified, remote_entries) := remote_manifest db_storage filename in
  match local_manifest full_manifest_path with
  | None => remote_entries
  | Some (mtime, local_entries) =>
      if mtime <? last_modified then remote_entries else local_entries
  end.

(** The loop of [_prepare_cloud_preview] over the manifests: the value
    of [preview_path] when the loop ends. *)
Fixpoint find_preview_path (db_storage : CloudStorage)
    (manifest_models : list string) : option string :=
  match manifest_models with
  | [] => None
  | filename :: rest =>
      let manifest_prefix := dirname filename in
      match manifest_entries db_storage filename with
      | [] => find_preview_path db_storage rest      (* continue *)
      | preview_info :: _ =>
          let preview_filename :=
            entry_name preview_info +:+ entry_extension preview_info in
          Some (path_join manifest_prefix preview_filename)   (* break *)
      end
  end.

(** [MediaCache._prepare_cloud_preview] *)
Definition _prepare_cloud_preview (db_storage : CloudStorage)
  : result DataWithMime :=
  if bool_decide (length (manifests db_storage) = 0%nat)
  then Raise ValidationError
  else
    match find_preview_path db_storage (manifests db_storage) with
    | None | Some "" => Raise NotFound
    | Some preview_path =>
        rbind (download_fileobj db_storage preview_path)
          (λ buff, Ok (PBytesIO buff, guess_type preview_path))
    end.

(** [MediaCache.get_cloud_preview] *)
Definition get_cloud_preview (db_storage : CloudStorage)
  : M world (option CacheItem) :=
  MediaCache._get
    (MediaCache._make_cloud_storage_preview_key (storage_id db_storage)).

(** [MediaCache.get_or_set_cloud_preview] *)
Definition get_or_set_cloud_preview (db_storage : CloudStorage)
  : M world DataWithMime :=
  MediaCache._get_or_set_cache_item
    (MediaCache._make_cloud_storage_preview_key (storage_id db_storage))
    (MediaCache.callback_of (_prepare_cloud_preview db_storage)).

End with_collaborators.
End Previews.


Module TaskFrameProvider.
Section with_collaborators.
Context `{Collaborators} `{CloudCollaborators}.

Definition validate_frame_number := Addressing.task_validate_frame_number.
Definition validate_chunk_number := Addressing.task_validate_chunk_number.
Definition get_chunk_number := Addressing.task_get_chunk_number.

(** [TaskFrameProvider._get_segment]; [next] on an exhausted generator
    expression is a [StopIteration]. *)
Definition _get_segment (db_task : Task) (validated_frame_number : Z)
  : result Segment :=
  match
    filter (λ s, seg_type s = RANGE ∧ validated_frame_number ∈ frame_set s)
      (segment_set db_task)
  with
  | s :: _ => Ok s
  | [] => Raise StopIteration
  end.

(** [TaskFrameProvider._get_segment_frame_provider] *)
Definition _get_segment_frame_provider (db_task : Task) (frame_number : Z)
  : result SegmentFrameProvider.t :=
  rbind (validate_frame_number db_task frame_number) (λ validated,
  rbind (_get_segment db_task validated) (λ db_segment,
  Ok (SegmentFrameProvider.init db_task db_segment))).

(** Run a method of a provider built for one call and dropped after it. *)
Definition on_fresh {A} (provider : SegmentFrameProvider.t)
    (c : M (SegmentFrameProvider.t * world) A) : M world A :=
  λ w, let '(r, (_, w)) := c (provider, w) in (r, w).

(** [TaskFrameProvider.get_preview] *)
Definition get_preview (db_task : Task) : M world (DataWithMeta PyData) :=
  provider <- lift_result
                (_get_segment_frame_provider db_task
                   (start_frame (data db_task))) ;;
  Previews.segment_get_preview provider.

(** [TaskFrameProvider.get_frame] *)
Definition get_frame (db_task : Task) (frame_number : Z)
    (quality : FrameQuality) (out_type : FrameOutputType)
  : M world (DataWithMeta Frame) :=
  provider <- lift_result (_get_segment_frame_provider db_task frame_number) ;;
  on_fresh provider (SegmentFrameProvider.get_frame frame_number quality out_type).

(** [task_chunk_frame_set] of [get_chunk], as the range it is built from *)
Definition task_chunk_frame_range (db_data : Data) (chunk_number : Z)
  : result (list Z) :=
  let step := frame_step db_data in
  let task_chunk_start_frame := chunk_number * chunk_size db_data in
  let task_chunk_stop_frame := (chunk_number + 1) * chunk_size db_data - 1 in
  py_range
    (start_frame db_data + task_chunk_start_frame * step)
    (Z.min (start_frame db_data + task_chunk_stop_frame * step)
       (stop_frame db_data) + step)
    step.

(** [a.isdisjoint(b)] *)
Definition isdisjoint (a b : list Z) : bool :=
  forallb (λ x, negb (py_in x b)) a.

(** [sorted(l, key=lambda s: s.start_frame)]: a stable sort *)
Fixpoint insert_by_start_frame (s : Segment) (l : list Segment)
  : list Segment :=
  match l with
  | [] => [s]
  | s' :: l' =>
      if seg_start_frame s <=? seg_start_frame s' then s :: l
      else s' :: insert_by_start_frame s l'
  end.

Definition sorted_by_start_frame (l : list Segment) : list Segment :=
  foldr insert_by_start_frame [] l.

(** [matching_segments] of [get_chunk] *)
Definition matching_segments (db_task : Task) (task_chunk_frame_set : list Z)
  : list Segment :=
  sorted_by_start_frame
    (filter
       (λ s, seg_type s = RANGE
             ∧ isdisjoint task_chunk_frame_set (frame_set s) = false)
       (segment_set db_task)).

(** The inner loop of the joined chunk: the frames of one segment *)
Fixpoint join_segment_frames (ids : list Z) (segment_frame_set : list Z)
    (quality : FrameQuality) : M (SegmentFrameProvider.t * world) (list Frame) :=
  match ids with
  | [] => ret []
  | task_chunk_frame_id :: ids' =>
      if negb (py_in task_chunk_frame_id segment_frame_set)
      then join_segment_frames ids' segment_frame_set quality   (* continue *)
      else
        frame <- SegmentFrameProvider.get_frame task_chunk_frame_id quality
                   BUFFER ;;
        frames <- join_segment_frames ids' segment_frame_set quality ;;
        ret (dwm_data frame :: frames)
  end.

(** The outer loop of the joined chunk: [task_chunk_frames] *)
Fixpoint join_segments (db_task : Task) (segments : list Segment)
    (task_chunk_frame_set : list Z) (quality : FrameQuality)
  : M world (list Frame) :=
  match segments with
  | [] => ret []
  | db_segment :: segments' =>
      let segment_frame_provider :=
        SegmentFrameProvider.init db_task db_segment in
      frames <- on_fresh segment_frame_provider
                  (join_segment_frames (set_iter task_chunk_frame_set)
                     (frame_set db_segment) quality) ;;
      frames' <- join_segments db_task segments' task_chunk_frame_set quality ;;
      ret (frames ++ frames')
  end.

(** [TaskFrameProvider.get_chunk] *)
Definition get_chunk (db_task : Task) (chunk_number : Z)
    (quality : FrameQuality) : M world (DataWithMeta PyData) :=
  chunk_number <- lift_result (validate_chunk_number db_task chunk_number) ;;
  let db_data := data db_task in
  let task_chunk_start_frame := chunk_number * chunk_size db_data in
  task_chunk_frame_set <-
    lift_result (task_chunk_frame_range db_data chunk_number) ;;
  let matching_segments := matching_segments db_task task_chunk_frame_set in
  match matching_segments with
  | [] => raise AssertionError            (* assert matching_segments *)
  | [db_segment] =>
      let segment_frame_provider :=
        SegmentFrameProvider.init db_task db_segment in
      segment_chunk_number <-
        lift_result
          (SegmentFrameProvider.get_chunk_number segment_frame_provider
             task_chunk_start_frame) ;;
      on_fresh segment_frame_provider
        (SegmentFrameProvider.get_chunk segment_chunk_number quality)
  | _ =>
      (* Create and return a joined chunk *)
      task_chunk_frames <-
        join_segments db_task matching_segments task_chunk_frame_set quality ;;
      let writer_class := MediaCache.writer_classes db_data quality in
      let image_quality :=
        if bool_decide (writer_class ∈ [Mpeg4ChunkWriter; ZipChunkWriter])
        then 100 else image_quality db_data in
      let mime_type :=
        if bool_decide
             (writer_class ∈ [Mpeg4ChunkWriter; Mpeg4CompressedChunkWriter])
        then "video/mp4" else "application/zip" in
      buffer <-
        lift_result
          (save_as_chunk writer_class image_quality
             (MediaCache.dimension_kwargs db_task) task_chunk_frames
             (mkSaveOptions (Some false) (Some 1))) ;;
      ret (mkDataWithMeta (PBytesIO buffer) (Some mime_type) None)
  end.

End with_collaborators.
End TaskFrameProvider.

(** ** A small concrete media library for the examples

    A raw frame is a one-byte buffer holding its frame id, a writer
    concatenates the buffers it is given, a reader splits a chunk back into
    one-byte frames. *)

Definition demo_byte (n : Z) : byte :=
  default x00 (Byte.of_N (Z.to_N (n mod 256))).

Definition demo_frame_bytes (f : Frame) : bytes :=
  match f with
  | FBuffer b => b
  | _ => []
  end.

#[local] Instance demo_collaborators (order : list Z → list Z) : Collaborators := {|
  save_as_chunk _ _ _ frames _ := Ok (concat (demo_frame_bytes <$> frames));
  reader_getitem _ chunk i :=
    match chunk with
    | PBytesIO bs | PBytes bs =>
        match bs !! Z.to_nat i with
        | Some b => if 0 <=? i then Ok (FBuffer [b], "frame.jpg") else Raise StopIteration
        | None => Raise StopIteration
        end
    | PNone => Raise TypeError
    end;
  IMAGE_EXT := "JPEG";
  pil_save _ _ := [x01];
  imencode_png _ := None;
  raw_media _ ids := Ok ((λ i, (FBuffer [demo_byte i], "frame.jpg")) <$> ids);
  guess_type _ := Some "image/jpeg";
  read_file _ := Raise (ExternalError "FileNotFoundError");
  get_segment_chunk_path _ _ _ _ := "chunk.zip";
  format_quality q := match q with COMPRESSED => "0" | ORIGINAL => "100" end;
  set_iter := order;
  related_files _ _ := Some [];
  zip_related_files _ := Ok []
|}.

(** A blob store with two manifests: [data/manifest.jsonl] lists two
    images, [empty/manifest.jsonl] lists one object of zero bytes; any other
    manifest is empty. *)
#[local] Instance demo_cloud : CloudCollaborators := {|
  local_manifest _ := None;
  remote_manifest _ filename :=
    if bool_decide (filename = "data/manifest.jsonl")
    then (1, [mkManifestEntry "img_001" ".jpg"; mkManifestEntry "img_002" ".jpg"])
    else if bool_decide (filename = "empty/manifest.jsonl")
    then (1, [mkManifestEntry "blank" ".jpg"])
    else (1, []);
  download_fileobj _ path :=
    if bool_decide (path = "empty/blank.jpg") then Ok [] else Ok [xff; xd8]
|}.

Definition empty_world : world := mkWorld ∅ [] [].

(** ** Example data *)

(** A cloud storage binding whose only manifest lists one object of zero
    bytes. *)
Definition storage_with_blank_object : CloudStorage :=
  mkCloudStorage 7 ["empty/manifest.jsonl"] "/data/storage/7".

(** A cloud storage binding with an empty manifest followed by one with
    two images. *)
Definition storage_with_images : CloudStorage :=
  mkCloudStorage 8 ["other/manifest.jsonl"; "data/manifest.jsonl"]
    "/data/storage/8".

(** A cloud storage binding without manifests. *)
Definition storage_without_manifests : CloudStorage :=
  mkCloudStorage 9 [] "/data/storage/9".

(** A world whose cache holds, under a segment chunk key, bytes that were
    changed after their checksum was stored. *)
Definition world_with_corrupt_entry : world :=
  mkWorld
    {[ "segment_1_0_100" :=
         Pickled (Item3 (PBytesIO [x02; x02]) (Some "application/zip")
                    (Some (crc32 [x01; x02]))) ]}
    [] [].

(** A task of five frames [0, 2, 4, 6, 8] (frame step 2) in chunks of two,
    and a [SPECIFIC_FRAMES] segment that owns the first four of them. *)
Definition stepped_data : Data :=
  mkData 1 0 8 2 2 5 70 CACHE IMAGESET IMAGESET None.

Definition masked_segment : Segment :=
  mkSegment 5 SPECIFIC_FRAMES 0 4 [0; 2; 4; 6].

Definition stepped_task : Task :=
  mkTask 1 stepped_data DIM_2D
    [mkSegment 4 RANGE 0 5 [0; 2; 4; 6; 8]; masked_segment].

(** A 2D task of four frames in chunks of four, cut into two [RANGE]
    segments, with chunks served from the cache. *)
Definition two_segment_data : Data :=
  mkData 2 0 3 1 4 4 70 CACHE IMAGESET IMAGESET None.

Definition first_segment : Segment := mkSegment 1 RANGE 0 2 [0; 1].
Definition second_segment : Segment := mkSegment 2 RANGE 2 2 [2; 3].

Definition two_segment_task : Task :=
  mkTask 2 two_segment_data DIM_2D [first_segment; second_segment].

(** A buffer loader over a callback that hands out one-byte chunks, and a
    caller that loads chunk 0, then chunk 1 twice, then unloads. *)
Definition one_byte_loader : ChunkLoader.t :=
  ChunkLoader.init ZipReader (λ chunk_id, ret (PBytesIO [demo_byte chunk_id], None)).

Definition loader_history : list LoaderCall :=
  [Load 0; Load 1; Load 1; Unload].

(** ** The joined task chunk, described without the cache and the loaders *)

(** [c in s] for a character and a string *)
Fixpoint has_char (c : ascii) (s : string) : bool :=
  match s with
  | EmptyString => false
  | String c' s' => Ascii.eqb c c' || has_char c s'
  end.

(** Run [f] over [l] in order and stop at the first exception. *)
Fixpoint collect {A B} (f : A → result B) (l : list A) : result (list B) :=
  match l with
  | [] => Ok []
  | x :: l' =>
      rbind (f x) (λ y, rbind (collect f l') (λ ys, Ok (y :: ys)))
  end.

(** The bytes a cache item carries, if it carries bytes. *)
Definition item_bytes (it : CacheItem) : option bytes :=
  match item_data it with
  | PBytesIO b | PBytes b => Some b
  | PNone => None
  end.

Definition item_checksum (it : CacheItem) : option Z :=
  match it with Item3 _ _ c => c | Item2 _ _ => None end.

(** An item whose checksum is the CRC-32 of its bytes. *)
Definition valid_item (it : CacheItem) : Prop :=
  ∃ b, item_bytes it = Some b ∧ item_checksum it = Some (crc32 b).

Module JoinedChunk.
Section with_collaborators.
Context `{Collaborators}.

Definition chunk_type_of (db_data : Data) (quality : FrameQuality)
  : DataChoice :=
  match quality with
  | COMPRESSED => compressed_chunk_type db_data
  | ORIGINAL => original_chunk_type db_data
  end.

(** The [read_chunk] of the loader a fresh provider of the segment has for
    a quality. *)
Definition segment_read_chunk (db_task : Task) (db_segment : Segment)
    (quality : FrameQuality) : Z → M world DataWithMime :=
  ChunkLoader.read_chunk
    (SegmentFrameProvider._loaders
       (SegmentFrameProvider.init db_task db_segment) quality).

(** The chunk of a segment at its source: what the producer makes for it
    when chunks are served from the cache, the chunk file otherwise. *)
Definition chunk_source (db_task : Task) (db_segment : Segment)
    (chunk_number : Z) (quality : FrameQuality) : result DataWithMime :=
  match storage_method (data db_task) with
  | CACHE =>
      MediaCache.prepare_segment_chunk db_task db_segment chunk_number quality
  | FILE_SYSTEM =>
      let chunk_path :=
        get_segment_chunk_path (data db_task) quality chunk_number
          (seg_id db_segment) in
      rbind (read_file chunk_path)
        (λ content, Ok (PBytesIO content, guess_type chunk_path))
  end.

(** The frame a segment serves for a frame number as a buffer: the frame
    at the position of the frame number in the chunk at its source. *)
Definition served_frame (db_task : Task) (quality : FrameQuality)
    (request : Segment * Z) : result Frame :=
  let '(db_segment, frame_number) := request in
  let reader_class :=
    SegmentFrameProvider.reader_class_of
      (chunk_type_of (data db_task) quality) in
  rbind
    (Addressing.segment_validate_frame_number db_task db_segment frame_number)
    (λ '(_, chunk_number, frame_offset),
  rbind (chunk_source db_task db_segment chunk_number quality)
    (λ '(chunk, _),
  rbind (reader_getitem reader_class chunk frame_offset)
    (λ '(frame, frame_name),
  SegmentFrameProvider._convert_frame frame reader_class BUFFER))).

(** The frames requested for a joined chunk, in the order of the
    requests: for each segment in turn, the frame ids of the chunk that
    belong to it, in the iteration order of the set. *)
Definition joined_requests (segments : list Segment)
    (task_chunk_frame_set : list Z) : list (Segment * Z) :=
  s ← segments;
  (λ f, (s, f)) <$>
    filter (λ f, f ∈ frame_set s) (set_iter task_chunk_frame_set).

(** The joined chunk of the given segments. *)
Definition joined_chunk (db_task : Task) (quality : FrameQuality)
    (segments : list Segment) (task_chunk_frame_set : list Z)
  : result (DataWithMeta PyData) :=
  let db_data := data db_task in
  let writer_class := MediaCache.writer_classes db_data quality in
  rbind
    (collect (served_frame db_task quality)
       (joined_requests segments task_chunk_frame_set))
    (λ task_chunk_frames,
  rbind
    (save_as_chunk writer_class
       (if bool_decide (writer_class ∈ [Mpeg4ChunkWriter; ZipChunkWriter])
        then 100 else image_quality db_data)
       (MediaCache.dimension_kwargs db_task) task_chunk_frames
       (mkSaveOptions (Some false) (Some 1)))
    (λ buffer,
       Ok (mkDataWithMeta (PBytesIO buffer)
             (Some (if bool_decide
                         (writer_class
                          ∈ [Mpeg4ChunkWriter; Mpeg4CompressedChunkWriter])
                    then "video/mp4" else "application/zip"))
             None))).

(** The cache is coherent for the chunks of [segments] when an entry under
    one of their chunk keys carries bytes and, if its checksum is the
    CRC-32 of its bytes, is what the producer makes for that chunk. *)
Definition coherent (db_task : Task) (quality : FrameQuality)
    (segments : list Segment) (w : world) : Prop :=
  ∀ s k it,
    s ∈ segments →
    cache w !! MediaCache._make_segment_chunk_key s k quality
    = Some (Pickled it) →
    item_data it ≠ PNone
    ∧ (valid_item it →
       MediaCache.prepare_segment_chunk db_task s k quality
       = Ok (item_data it, item_mime it)).

(** From [w] to [w'] the cache changed under chunk keys of [segments]
    only. *)
Definition only_segment_chunks_written (quality : FrameQuality)
    (segments : list Segment) (w w' : world) : Prop :=
  ∀ key,
    (∀ s k, s ∈ segments →
            key ≠ MediaCache._make_segment_chunk_key s k quality) →
    cache w' !! key = cache w !! key.

(** A loader of the segment that is at a chunk holds a reader of that
    chunk at its source. *)
Definition loader_serves (db_task : Task) (db_segment : Segment)
    (quality : FrameQuality) (l : ChunkLoader.t) : Prop :=
  ChunkLoader.read_chunk l = segment_read_chunk db_task db_segment quality
  ∧ ChunkLoader.reader_class l
    = SegmentFrameProvider.reader_class_of
        (chunk_type_of (data db_task) quality)
  ∧ ∀ k, ChunkLoader.chunk_id l = Some k →
         ∃ r chunk mime,
           ChunkLoader.chunk_reader l = Some r
           ∧ chunk_source db_task db_segment k quality = Ok (chunk, mime)
           ∧ reader_cls r = ChunkLoader.reader_class l
           ∧ reader_chunk r = chunk.

End with_collaborators.
End JoinedChunk.

(** The iteration order of a CPython [set] built from a few small
    non-negative ints: an int hashes to itself and sits in slot [x mod 8]
    of a table of eight slots, which iteration walks from slot 0. This is
    the order for up to four ints that differ modulo 8 (no collision, no
    resize of the table). *)
Fixpoint insert_by_slot (x : Z) (l : list Z) : list Z :=
  match l with
  | [] => [x]
  | y :: l' =>
      if x mod 8 <=? y mod 8 then x :: l else y :: insert_by_slot x l'
  end.

Definition small_set_order (l : list Z) : list Z :=
  foldr insert_by_slot [] l.

(** A 2D task of nine frames in chunks of three, cut into the [RANGE]
    segments [0..6] and [7..8], with chunks served from the cache. *)
Definition nine_frame_data : Data :=
  mkData 3 0 8 1 3 9 70 CACHE IMAGESET IMAGESET None.

Definition nine_frame_task : Task :=
  mkTask 3 nine_frame_data DIM_2D
    [mkSegment 11 RANGE 0 7 [0; 1; 2; 3; 4; 5; 6];
     mkSegment 12 RANGE 7 2 [7; 8]].

(** A [read_chunk] that leaves the cache and the log as they are. *)
Definition quiet (read_chunk : Z → M world DataWithMime) : Prop :=
  ∀ k w, cache (snd (read_chunk k w)) = cache w
         ∧ slog (snd (read_chunk k w)) = slog w.

(** ** [iterate_frames] *)

(** [range(start_frame, (stop_frame + 1) if stop_frame else None)]: a
    [stop_frame] that is [None] or 0 is false, and [range] refuses a [None]
    bound with a [TypeError]. *)
Definition iteration_range (start_frame stop_frame : option Z)
  : result (list Z) :=
  let stop :=
    match stop_frame with
    | Some stop_frame =>
        if bool_decide (stop_frame ≠ 0) then Some (stop_frame + 1) else None
    | None => None
    end in
  match start_frame, stop with
  | Some start, Some stop => py_range start stop 1
  | _, _ => Raise TypeError
  end.

(** What a consumer gets out of a generator that yields [get_frame(idx)]
    for each [idx]: the frames yielded, and the exception that ended the
    generator, if one did. *)
Fixpoint yield_frames {S A} (get_frame : Z → M S A) (ids : list Z)
  : S → (list A * option exn) * S :=
  match ids with
  | [] => λ s, (([], None), s)
  | idx :: ids' =>
      λ s, match get_frame idx s with
           | (Ok frame, s') =>
               let '((frames, e), s'') := yield_frames get_frame ids' s' in
               ((frame :: frames, e), s'')
           | (Raise e, s') => (([], Some e), s')
           end
  end.

Module IterateFrames.
Section with_collaborators.
Context `{Collaborators}.

(** [TaskFrameProvider.iterate_frames], consumed to its end *)
Definition task_iterate_frames (db_task : Task)
    (start_frame stop_frame : option Z) (quality : FrameQuality)
    (out_type : FrameOutputType)
  : world → (list (DataWithMeta Frame) * option exn) * world :=
  λ w, match iteration_range start_frame stop_frame with
       | Raise e => (([], Some e), w)
       | Ok ids =>
           yield_frames
             (λ idx, TaskFrameProvider.get_frame db_task idx quality out_type)
             ids w
       end.

(** [SegmentFrameProvider.iterate_frames], consumed to its end *)
Definition segment_iterate_frames (start_frame stop_frame : option Z)
    (quality : FrameQuality) (out_type : FrameOutputType)
  : SegmentFrameProvider.t * world →
    (list (DataWithMeta Frame) * option exn) * (SegmentFrameProvider.t * world) :=
  λ s, match iteration_range start_frame stop_frame with
       | Raise e => (([], Some e), s)
       | Ok ids =>
           yield_frames
             (λ idx, SegmentFrameProvider.get_frame idx quality out_type)
             ids s
       end.

End with_collaborators.
End IterateFrames.

(** ** Example data for context images and chunk files *)

(** The collaborators above over image records that exist for the frames
    from 0 on, where frame 1 has one related file, and over chunk files of
    two bytes. *)
#[local] Instance demo_with_related_files : Collaborators := {|
  save_as_chunk := @save_as_chunk (demo_collaborators id);
  reader_getitem := @reader_getitem (demo_collaborators id);
  IMAGE_EXT := @IMAGE_EXT (demo_collaborators id);
  pil_save := @pil_save (demo_collaborators id);
  imencode_png := @imencode_png (demo_collaborators id);
  raw_media := @raw_media (demo_collaborators id);
  guess_type := @guess_type (demo_collaborators id);
  read_file _ := Ok [x00; x01];
  get_segment_chunk_path := @get_segment_chunk_path (demo_collaborators id);
  format_quality := @format_quality (demo_collaborators id);
  set_iter := id;
  related_files _ frame :=
    if frame <? 0 then None
    else if frame =? 1 then Some ["related/context.jpg"]
    else Some [];
  zip_related_files _ := Ok [x50; x4b]
|}.

(** A 2D task of four frames in one [RANGE] segment, with chunks served
    from chunk files. *)
Definition file_system_data : Data :=
  mkData 4 0 3 1 4 4 70 FILE_SYSTEM IMAGESET IMAGESET None.

Definition file_system_segment : Segment :=
  mkSegment 21 RANGE 0 4 [0; 1; 2; 3].

Definition file_system_task : Task :=
  mkTask 4 file_system_data DIM_2D [file_system_segment].

(** A world whose cache holds, under a segment chunk key, an entry that
    fails to unpickle. *)
Definition world_with_unpicklable_entry : world :=
  mkWorld {[ "segment_1_0_100" := Unpicklable ]} [] [].
(** ** Properties of the Python preliminaries *)

Lemma py_in_spec (x : Z) (l : list Z) : py_in x l = true ↔ x ∈ l.
Proof.
  unfold py_in. rewrite existsb_exists. split.
  - intros (y & Hy & Heq). apply Z.eqb_eq in Heq. subst.
    by apply list_elem_of_In.
  - intros Hx. exists x. split; [by apply list_elem_of_In | apply Z.eqb_refl].
Qed.

Lemma py_in_false (x : Z) (l : list Z) : py_in x l = false ↔ x ∉ l.
Proof.
  rewrite <- py_in_spec. destruct (py_in x l); split; congruence.
Qed.

Lemma py_index_first (x : Z) (l : list Z) (i : nat) :
  py_index x l = Some i →
  l !! i = Some x ∧ ∀ j : nat, (j < i)%nat → l !! j ≠ Some x.
Proof.
  revert i. induction l as [|y l IH]; intros i; simpl; [done|].
  destruct (Z.eqb_spec x y) as [->|Hne].
  - intros [= <-]. split; [done|]. intros j Hj. lia.
  - destruct (py_index x l) as [i'|] eqn:Hi; simpl; [|done].
    intros [= <-]. destruct (IH i' eq_refl) as [Hl Hfirst].
    split; [done|]. intros [|j] Hj; simpl.
    + congruence.
    + apply Hfirst. lia.
Qed.

Lemma py_index_elem (x : Z) (l : list Z) :
  x ∈ l → ∃ i, py_index x l = Some i.
Proof.
  induction l as [|y l IH]; [by intros ?%elem_of_nil|].
  intros Hx. simpl. destruct (Z.eqb_spec x y) as [->|Hne]; [by eexists|].
  apply elem_of_cons in Hx as [?|Hx]; [done|].
  destruct (IH Hx) as [i ->]. by eexists.
Qed.

Lemma py_floordiv_floor (a b q : Z) :
  0 < b → py_floordiv a b = Ok q → b * q ≤ a < b * (q + 1).
Proof.
  intros Hb. unfold py_floordiv. destruct (Z.eqb_spec b 0); [lia|].
  intros [= <-]. pose proof (Z.mul_div_le a b Hb).
  pose proof (Z.mul_succ_div_gt a b Hb). lia.
Qed.

(** ** Addressing *)

(** C4. For a segment with a positive chunk size, a frame number [f] of the
    frame set is validated to [(f, k, o)] where [k * chunk_size + o] is the
    position of the first occurrence of [f] in the frame set and
    [0 <= o < chunk_size]; a frame number outside the frame set is refused
    with a [ValidationError]. *)
Theorem validate_frame_number_addressing
    (self : SegmentFrameProvider.t) (f : Z) :
  let chunk_size := chunk_size (data (SegmentFrameProvider._db_task self)) in
  let frame_set := frame_set (SegmentFrameProvider._db_segment self) in
  0 < chunk_size →
  (f ∈ frame_set →
   ∃ (i : nat) (k o : Z),
     SegmentFrameProvider.validate_frame_number self f = Ok (f, k, o)
     ∧ frame_set !! i = Some f
     ∧ (∀ j : nat, (j < i)%nat → frame_set !! j ≠ Some f)
     ∧ k * chunk_size + o = Z.of_nat i
     ∧ 0 ≤ o < chunk_size)
  ∧ (f ∉ frame_set →
     SegmentFrameProvider.validate_frame_number self f = Raise ValidationError).
Proof.
  intros cs fs Hcs. unfold SegmentFrameProvider.validate_frame_number,
    Addressing.segment_validate_frame_number. fold fs. fold cs. split.
  - intros Hin. destruct (py_index_elem f fs Hin) as [i Hi].
    apply py_in_spec in Hin as ->. simpl. rewrite Hi.
    destruct (py_index_first f fs i Hi) as [Hl Hfirst].
    exists i, (Z.of_nat i / cs), (Z.of_nat i mod cs).
    unfold py_divmod. destruct (Z.eqb_spec cs 0); [lia|]. simpl.
    repeat split; try done.
    + pose proof (Z.div_mod (Z.of_nat i) cs). lia.
    + apply Z.mod_pos_bound; lia.
    + apply Z.mod_pos_bound; lia.
  - intros Hnotin. apply py_in_false in Hnotin as ->. done.
Qed.

(** C5. With a non-zero chunk size, the task provider and the segment
    provider both map a frame number [f] to [f // chunk_size]; the result is
    the same for any two tasks of the same chunk size, whatever their
    [start_frame] and frame step. *)
Theorem get_chunk_number_is_floor_division
    (db_task : Task) (self : SegmentFrameProvider.t) (f : Z) :
  chunk_size (data db_task) ≠ 0 →
  chunk_size (data (SegmentFrameProvider._db_task self)) ≠ 0 →
  TaskFrameProvider.get_chunk_number db_task f
    = Ok (f / chunk_size (data db_task))
  ∧ SegmentFrameProvider.get_chunk_number self f
    = Ok (f / chunk_size (data (SegmentFrameProvider._db_task self)))
  ∧ (∀ db_task' : Task,
       chunk_size (data db_task') = chunk_size (data db_task) →
       TaskFrameProvider.get_chunk_number db_task' f
       = TaskFrameProvider.get_chunk_number db_task f).
Proof.
  intros Ht Hs.
  unfold TaskFrameProvider.get_chunk_number,
    SegmentFrameProvider.get_chunk_number,
    Addressing.task_get_chunk_number, Addressing.segment_get_chunk_number,
    py_floordiv.
  destruct (Z.eqb_spec (chunk_size (data db_task)) 0); [done|].
  destruct (Z.eqb_spec
              (chunk_size (data (SegmentFrameProvider._db_task self))) 0);
    [done|].
  repeat split. intros db_task' ->.
  destruct (Z.eqb_spec (chunk_size (data db_task)) 0); done.
Qed.

(** ** The cache *)

Lemma logged_logged (w : world) (a b : list LogLine) :
  logged (logged w a) b = logged w (a ++ b).
Proof. unfold logged. simpl. by rewrite <- app_assoc. Qed.

Section cache_facts.
Context `{Collaborators}.

(** [create_item] when the producer hands back a buffer: the triple is
    stored under the key. *)
Lemma create_item_buffer (key : string) (cb : M world ProducerRet)
    (w w1 : world) (b : bytes) (m : option string) :
  cb (logged w [StartPrepare key]) = (Ok (RetPair (PBytesIO b) m), w1) →
  MediaCache.create_item key cb w
  = (Ok (Item3 (PBytesIO b) m (Some (crc32 b))),
     mkWorld (<[key := Pickled (Item3 (PBytesIO b) m (Some (crc32 b)))]> (cache w1))
       (slog w1 ++ [EndPrepare key]) (readers w1)).
Proof.
  intros Hcb. unfold MediaCache.create_item, bind, info. rewrite Hcb. done.
Qed.

(** [create_item] when the producer hands back a false value: nothing is
    stored. *)
Lemma create_item_falsy (key : string) (cb : M world ProducerRet)
    (w w1 : world) (d : PyData) (m : option string) :
  cb (logged w [StartPrepare key]) = (Ok (RetPair d m), w1) →
  truthy d = false →
  MediaCache.create_item key cb w
  = (Ok (Item3 d m None), logged w1 [EndPrepare key]).
Proof.
  intros Hcb Hd. unfold MediaCache.create_item, bind, info. rewrite Hcb.
  by rewrite Hd.
Qed.

(** [create_item] when the producer raises: the exception passes through
    and nothing is stored. *)
Lemma create_item_raise (key : string) (cb : M world ProducerRet)
    (w w1 : world) (e : exn) :
  cb (logged w [StartPrepare key]) = (Raise e, w1) →
  MediaCache.create_item key cb w = (Raise e, w1).
Proof.
  intros Hcb. unfold MediaCache.create_item, bind, info. by rewrite Hcb.
Qed.

(** A miss runs [create_item]. *)
Lemma get_or_set_miss (key : string) (cb : M world ProducerRet) (w : world) :
  cache w !! key = None →
  MediaCache._get_or_set_cache_item key cb w
  = match MediaCache.create_item key cb
            (logged w [StartGet key; EndGet key false]) with
    | (Ok item, w') => (Ok (item_data item, item_mime item), w')
    | (Raise e, w') => (Raise e, w')
    end.
Proof.
  intros Hk.
  unfold MediaCache._get_or_set_cache_item, bind, info, except_unpickling,
    cache_get, ret.
  simpl. rewrite Hk. simpl. rewrite !logged_logged. simpl.
  by destruct (MediaCache.create_item _ _ _) as [[]].
Qed.

(** An entry that fails to unpickle is logged and handled as a miss. *)
Lemma get_or_set_unpicklable (key : string) (cb : M world ProducerRet)
    (w : world) :
  cache w !! key = Some Unpicklable →
  MediaCache._get_or_set_cache_item key cb w
  = match MediaCache.create_item key cb
            (logged w [StartGet key; ErrorGet key; EndGet key false]) with
    | (Ok item, w') => (Ok (item_data item, item_mime item), w')
    | (Raise e, w') => (Raise e, w')
    end.
Proof.
  intros Hk.
  unfold MediaCache._get_or_set_cache_item, bind, info, except_unpickling,
    cache_get, ret.
  simpl. rewrite Hk. simpl. rewrite !logged_logged. simpl.
  by destruct (MediaCache.create_item _ _ _) as [[]].
Qed.

(** A hit whose stored checksum is the CRC-32 of the stored bytes is
    answered from the cache. *)
Lemma get_or_set_hit (key : string) (cb : M world ProducerRet) (w : world)
    (stored_bytes : bytes) (d : PyData) (m : option string) :
  cache w !! key = Some (Pickled (Item3 d m (Some (crc32 stored_bytes)))) →
  d = PBytesIO stored_bytes ∨ d = PBytes stored_bytes →
  MediaCache._get_or_set_cache_item key cb w
  = (Ok (d, m), logged w [StartGet key; EndGet key true]).
Proof.
  intros Hk Hd.
  unfold MediaCache._get_or_set_cache_item, bind, info, except_unpickling,
    cache_get, ret, MediaCache.get_checksum.
  simpl. rewrite Hk. simpl. rewrite logged_logged. simpl.
  destruct Hd as [-> | ->]; simpl;
    (rewrite bool_decide_eq_false_2; [done | by intros []]).
Qed.

(** A hit whose stored checksum is not the CRC-32 of the stored bytes runs
    [create_item]. *)
Lemma get_or_set_mismatch (key : string) (cb : M world ProducerRet) (w : world)
    (stored : CacheItem) (stored_bytes : bytes) :
  cache w !! key = Some (Pickled stored) →
  item_data stored = PBytesIO stored_bytes
  ∨ item_data stored = PBytes stored_bytes →
  match stored with Item3 _ _ c => c | Item2 _ _ => None end
    ≠ Some (crc32 stored_bytes) →
  MediaCache._get_or_set_cache_item key cb w
  = match MediaCache.create_item key cb
            (logged w [StartGet key; EndGet key true; Recreating key]) with
    | (Ok item, w') => (Ok (item_data item, item_mime item), w')
    | (Raise e, w') => (Raise e, w')
    end.
Proof.
  intros Hk Hd Hc.
  unfold MediaCache._get_or_set_cache_item, bind, info, except_unpickling,
    cache_get, ret, MediaCache.get_checksum.
  simpl. rewrite Hk. simpl. rewrite logged_logged. simpl.
  assert (∀ X (a b : M world X),
            (if bool_decide
                  (match stored with Item3 _ _ c => c | Item2 _ _ => None end
                   ≠ Some (crc32 stored_bytes)) then a else b) = a) as Hif.
  { intros. by rewrite bool_decide_eq_true_2. }
  destruct Hd as [Hd | Hd]; rewrite Hd; simpl; rewrite Hif, logged_logged;
    simpl; by destruct (MediaCache.create_item _ _ _) as [[]].
Qed.

(** C2. Get-or-set on a hit compares the stored checksum with the CRC-32
    of the stored bytes. When they agree the stored pair is returned and
    the only change to the world is the two log lines of the lookup,
    whatever the producer is: the producer is not run. When they differ
    (or the entry carries no checksum) the hit is handled as a miss: a
    producer that deterministically yields the buffer [fresh] is run once,
    the triple [(fresh, mime, crc32(fresh))] is stored under the key and
    [fresh] is returned. *)
Theorem get_or_set_verifies_checksum
    (key : string) (create_callback : M world ProducerRet) (w : world)
    (stored : CacheItem) (stored_bytes fresh : bytes) (mime : option string) :
  cache w !! key = Some (Pickled stored) →
  item_data stored = PBytesIO stored_bytes
  ∨ item_data stored = PBytes stored_bytes →
  (∀ w0, fst (create_callback w0) = Ok (RetPair (PBytesIO fresh) mime)) →
  let stored_checksum :=
    match stored with Item3 _ _ c => c | Item2 _ _ => None end in
  let result := MediaCache._get_or_set_cache_item key create_callback w in
  (stored_checksum = Some (crc32 stored_bytes) →
   result = (Ok (item_data stored, item_mime stored),
             logged w [StartGet key; EndGet key true]))
  ∧ (stored_checksum ≠ Some (crc32 stored_bytes) →
     let w1 :=
       snd (create_callback
              (logged w [StartGet key; EndGet key true; Recreating key;
                         StartPrepare key])) in
     result
     = (Ok (PBytesIO fresh, mime),
        mkWorld
          (<[key := Pickled (Item3 (PBytesIO fresh) mime (Some (crc32 fresh)))]>
             (cache w1))
          (slog w1 ++ [EndPrepare key]) (readers w1))
     ∧ cache (snd result) !! key
       = Some (Pickled (Item3 (PBytesIO fresh) mime (Some (crc32 fresh))))).
Proof.
  intros Hk Hd Hcb stored_checksum result. subst result. split.
  - intros Hc. destruct stored as [d m c | d m]; simpl in *; [|done].
    unfold stored_checksum in Hc. subst c.
    by apply get_or_set_hit with (stored_bytes := stored_bytes).
  - intros Hc w1.
    rewrite (get_or_set_mismatch key create_callback w stored stored_bytes)
      by done.
    specialize (Hcb (logged w [StartGet key; EndGet key true; Recreating key;
                              StartPrepare key])) as Hcb0.
    rewrite (create_item_buffer _ _ _ w1 fresh mime).
    + simpl. split; [done|]. by rewrite lookup_insert_eq.
    + rewrite logged_logged. simpl. subst w1.
      destruct (create_callback _) as [r w']. simpl in *. by subst r.
Qed.

(** C9, as amended. On a miss, a producer that returns a pair whose first
    component is [None] (or an empty [bytes] object) has the pair returned
    and nothing written to the cache; a producer that returns an
    [io.BytesIO] buffer, empty or not, has the pair returned and the triple
    [(buffer, mime, crc32(buffer))] stored under the key. *)
Theorem get_or_set_stores_buffers_only
    (key : string) (create_callback : M world ProducerRet) (w w1 : world)
    (d : PyData) (m : option string) :
  cache w !! key = None →
  create_callback (logged w [StartGet key; EndGet key false; StartPrepare key])
  = (Ok (RetPair d m), w1) →
  (∀ b, d = PBytes b → b = []) →
  let result := MediaCache._get_or_set_cache_item key create_callback w in
  fst result = Ok (d, m)
  ∧ slog (snd result) = slog w1 ++ [EndPrepare key]
  ∧ match d with
    | PBytesIO b =>
        cache (snd result)
        = <[key := Pickled (Item3 d m (Some (crc32 b)))]> (cache w1)
    | PNone | PBytes _ => cache (snd result) = cache w1
    end.
Proof.
  intros Hk Hcb Hd result. subst result.
  rewrite get_or_set_miss by done.
  destruct d as [ | b | b].
  - rewrite (create_item_falsy _ _ _ w1 PNone m); [done | | done].
    by rewrite logged_logged.
  - rewrite (create_item_buffer _ _ _ w1 b m); [done|].
    by rewrite logged_logged.
  - rewrite (Hd b eq_refl) in *.
    rewrite (create_item_falsy _ _ _ w1 (PBytes []) m); [done | | done].
    by rewrite logged_logged.
Qed.

End cache_facts.

Lemma get_or_set_verifies_checksum_witness :
  cache world_with_corrupt_entry !! "segment_1_0_100"
  = Some (Pickled (Item3 (PBytesIO [x02; x02]) (Some "application/zip")
                     (Some (crc32 [x01; x02]))))
  ∧ fst (MediaCache._get_or_set_cache_item "segment_1_0_100"
           (MediaCache.callback_of
              (Ok (PBytesIO [x01; x02], Some "application/zip")))
           world_with_corrupt_entry)
    = Ok (PBytesIO [x01; x02], Some "application/zip")
  ∧ cache
      (snd (MediaCache._get_or_set_cache_item "segment_1_0_100"
              (MediaCache.callback_of
                 (Ok (PBytesIO [x01; x02], Some "application/zip")))
              world_with_corrupt_entry))
      !! "segment_1_0_100"
    = Some (Pickled (Item3 (PBytesIO [x01; x02]) (Some "application/zip")
                       (Some (crc32 [x01; x02])))).
Proof.
  split; [reflexivity|].
  destruct (get_or_set_verifies_checksum "segment_1_0_100"
              (MediaCache.callback_of
                 (Ok (PBytesIO [x01; x02], Some "application/zip")))
              world_with_corrupt_entry
              (Item3 (PBytesIO [x02; x02]) (Some "application/zip")
                 (Some (crc32 [x01; x02])))
              [x02; x02] [x01; x02] (Some "application/zip"))
    as [_ Hmismatch].
  - reflexivity.
  - left. reflexivity.
  - intros w0. reflexivity.
  - destruct Hmismatch as [Hresult Hstored].
    + vm_compute. discriminate.
    + split; [|exact Hstored]. rewrite Hresult. reflexivity.
Defined.

Lemma get_or_set_stores_buffers_only_witness :
  fst (MediaCache._get_or_set_cache_item "context_image_1_0"
         (MediaCache.callback_of (Ok (PNone, None))) empty_world)
  = Ok (PNone, None)
  ∧ cache
      (snd (MediaCache._get_or_set_cache_item "context_image_1_0"
              (MediaCache.callback_of (Ok (PNone, None))) empty_world))
    = ∅.
Proof.
  destruct (get_or_set_stores_buffers_only "context_image_1_0"
              (MediaCache.callback_of (Ok (PNone, None))) empty_world
              (logged empty_world
                 [StartGet "context_image_1_0";
                  EndGet "context_image_1_0" false;
                  StartPrepare "context_image_1_0"])
              PNone None) as (Hresult & _ & Hcache).
  - reflexivity.
  - reflexivity.
  - intros b Hb. discriminate Hb.
  - split; [exact Hresult | exact Hcache].
Defined.

(** C9, as stated, fails for an empty buffer: the preview of a cloud
    storage whose first object has zero bytes is an empty [io.BytesIO];
    get-or-set returns it and stores it, with checksum [crc32(b"") = 0]. *)
Lemma empty_buffer_is_stored :
  Previews._prepare_cloud_preview (H := demo_collaborators id)
    storage_with_blank_object
  = Ok (PBytesIO [], Some "image/jpeg")
  ∧ cache empty_world !! "cloudstorage_preview_7" = None
  ∧ fst (Previews.get_or_set_cloud_preview (H := demo_collaborators id)
           storage_with_blank_object empty_world)
    = Ok (PBytesIO [], Some "image/jpeg")
  ∧ cache
      (snd (Previews.get_or_set_cloud_preview (H := demo_collaborators id)
              storage_with_blank_object empty_world))
      !! "cloudstorage_preview_7"
    = Some (Pickled (Item3 (PBytesIO []) (Some "image/jpeg") (Some 0))).
Proof. vm_compute. done. Qed.

(** ** Cloud storage preview *)

Section cloud_preview_facts.
Context `{Collaborators} `{CloudCollaborators}.

(** On a miss, a producer that does not touch the world and raises or
    returns a buffer is passed through by get-or-set. *)
Lemma get_or_set_miss_pure (key : string) (r : result DataWithMime) (w : world) :
  cache w !! key = None →
  (∀ d m, r = Ok (d, m) → ∃ b, d = PBytesIO b) →
  fst (MediaCache._get_or_set_cache_item key (MediaCache.callback_of r) w) = r.
Proof.
  intros Hk Hr. rewrite get_or_set_miss by done.
  destruct r as [[d m] | e].
  - destruct (Hr d m eq_refl) as [b ->].
    by erewrite create_item_buffer.
  - by erewrite create_item_raise.
Qed.

Lemma find_preview_path_all_empty (db_storage : CloudStorage)
    (filenames : list string) :
  Forall (λ filename, Previews.manifest_entries db_storage filename = [])
    filenames →
  Previews.find_preview_path db_storage filenames = None.
Proof.
  induction 1 as [|filename rest Hempty _ IH]; simpl; [done|].
  by rewrite Hempty.
Qed.

Lemma find_preview_path_first_entry (db_storage : CloudStorage)
    (empty_ones : list string) (filename : string) (rest : list string)
    (entry : ManifestEntry) (entries : list ManifestEntry) :
  Forall (λ filename, Previews.manifest_entries db_storage filename = [])
    empty_ones →
  Previews.manifest_entries db_storage filename = entry :: entries →
  Previews.find_preview_path db_storage (empty_ones ++ filename :: rest)
  = Some (path_join (dirname filename)
            (entry_name entry +:+ entry_extension entry)).
Proof.
  intros Hempty Hentry.
  induction Hempty as [|filename' rest' Hf _ IH]; simpl.
  - by rewrite Hentry.
  - by rewrite Hf.
Qed.

(** C7, as amended. On a cache miss, the cloud preview fails with a
    [ValidationError] when the binding has no manifest file and with
    [NotFound] when it has manifests and all of them are empty; otherwise
    the first entry of the first non-empty manifest (its name joined to the
    directory of the manifest, a non-empty path) is downloaded and returned
    with the MIME type guessed from that path. *)
Theorem cloud_preview_outcomes (db_storage : CloudStorage) (w : world) :
  cache w !! MediaCache._make_cloud_storage_preview_key (storage_id db_storage)
  = None →
  (manifests db_storage = [] →
   Previews._prepare_cloud_preview db_storage = Raise ValidationError
   ∧ fst (Previews.get_or_set_cloud_preview db_storage w)
     = Raise ValidationError)
  ∧ (manifests db_storage ≠ [] →
     Forall (λ filename, Previews.manifest_entries db_storage filename = [])
       (manifests db_storage) →
     Previews._prepare_cloud_preview db_storage = Raise NotFound
     ∧ fst (Previews.get_or_set_cloud_preview db_storage w) = Raise NotFound)
  ∧ (∀ empty_ones filename rest entry entries,
       manifests db_storage = empty_ones ++ filename :: rest →
       Forall (λ filename, Previews.manifest_entries db_storage filename = [])
         empty_ones →
       Previews.manifest_entries db_storage filename = entry :: entries →
       let preview_path :=
         path_join (dirname filename)
           (entry_name entry +:+ entry_extension entry) in
       preview_path ≠ "" →
       fst (Previews.get_or_set_cloud_preview db_storage w)
       = rbind (download_fileobj db_storage preview_path)
           (λ buff, Ok (PBytesIO buff, guess_type preview_path))).
Proof.
  intros Hmiss.
  assert (∀ r, (∀ d m, r = Ok (d, m) → ∃ b, d = PBytesIO b) →
               Previews._prepare_cloud_preview db_storage = r →
               fst (Previews.get_or_set_cloud_preview db_storage w) = r)
    as Hlift.
  { intros r Hr Hp. unfold Previews.get_or_set_cloud_preview. rewrite Hp.
    by apply get_or_set_miss_pure. }
  split; [|split].
  - intros Hnone.
    assert (Previews._prepare_cloud_preview db_storage = Raise ValidationError)
      as Hp.
    { unfold Previews._prepare_cloud_preview. by rewrite Hnone. }
    split; [done|]. by apply Hlift.
  - intros Hsome Hempty.
    assert (Previews._prepare_cloud_preview db_storage = Raise NotFound) as Hp.
    { unfold Previews._prepare_cloud_preview.
      rewrite bool_decide_eq_false_2
        by (destruct (manifests db_storage); simpl; [done | lia]).
      by rewrite find_preview_path_all_empty. }
    split; [done|]. by apply Hlift.
  - intros empty_ones filename rest entry entries Hm Hempty Hentry path Hpath.
    apply Hlift.
    + intros d m Hr. destruct (download_fileobj db_storage path); simpl in Hr;
        [|done]. injection Hr as <- _. by eexists.
    + unfold Previews._prepare_cloud_preview.
      rewrite bool_decide_eq_false_2
        by (rewrite Hm, length_app; simpl; lia).
      rewrite Hm, (find_preview_path_first_entry _ _ _ _ entry entries) by done.
      fold path. by destruct path.
Qed.

End cloud_preview_facts.

Lemma cloud_preview_outcomes_witness :
  cache empty_world !! "cloudstorage_preview_8" = None
  ∧ fst (Previews.get_or_set_cloud_preview (H := demo_collaborators id)
           storage_with_images empty_world)
    = Ok (PBytesIO [xff; xd8], Some "image/jpeg").
Proof.
  split; [reflexivity|].
  destruct (cloud_preview_outcomes (H := demo_collaborators id)
              storage_with_images empty_world) as (_ & _ & Hfirst).
  - reflexivity.
  - rewrite (Hfirst ["other/manifest.jsonl"] "data/manifest.jsonl" []
               (mkManifestEntry "img_001" ".jpg")
               [mkManifestEntry "img_002" ".jpg"]).
    + reflexivity.
    + reflexivity.
    + repeat constructor.
    + reflexivity.
    + discriminate.
Defined.

(** C7, as stated, fails for a binding without manifest files: the error
    is a [ValidationError], not [NotFound]. *)
Lemma cloud_preview_without_manifests :
  manifests storage_without_manifests = []
  ∧ fst (Previews.get_or_set_cloud_preview (H := demo_collaborators id)
           storage_without_manifests empty_world)
    = Raise ValidationError
  ∧ fst (Previews.get_or_set_cloud_preview (H := demo_collaborators id)
           storage_without_manifests empty_world)
    ≠ Raise NotFound.
Proof. vm_compute. repeat split; discriminate. Qed.

(** ** The masked-range chunk producer *)

(** The slot ids of the code are those of the specification when the frame
    step is 1 and for the first chunk. *)
Lemma slot_id_agrees (db_data : Data) (chunk_number frame_idx : Z) :
  frame_step db_data = 1 ∨ chunk_number = 0 →
  MediaCache.slot_id db_data chunk_number frame_idx
  = MediaCache.spec_slot_id db_data chunk_number frame_idx.
Proof.
  unfold MediaCache.slot_id, MediaCache.spec_slot_id. intros [-> | ->]; lia.
Qed.

(** With a frame step above 1 the slot ids of a later chunk fall short of
    those of the specification by
    [chunk_number * chunk_size * (frame_step - 1)]. *)
Lemma slot_id_shortfall (db_data : Data) (chunk_number frame_idx : Z) :
  MediaCache.spec_slot_id db_data chunk_number frame_idx
  - MediaCache.slot_id db_data chunk_number frame_idx
  = chunk_number * chunk_size db_data * (frame_step db_data - 1).
Proof. unfold MediaCache.slot_id, MediaCache.spec_slot_id. lia. Qed.

(** When [get_frames] completes, it has one frame for each visited slot,
    and the frame of a slot outside the frame ids of the chunk is the
    placeholder. *)
Lemma get_frames_loop_shape `{Collaborators}
    (db_data : Data) (chunk_number : Z) (ids iterations : list Z)
    (read_frame_iter : result (list (Frame * string))) (frames : list Frame) :
  MediaCache.get_frames_loop db_data chunk_number ids iterations read_frame_iter
  = Ok frames →
  length frames
  = length (MediaCache.visited_slots db_data chunk_number iterations)
  ∧ ∀ (i : nat) (slot : Z),
      MediaCache.visited_slots db_data chunk_number iterations !! i = Some slot →
      py_in slot ids = false →
      frames !! i = Some (FBuffer MediaCache.dummy_frame).
Proof.
  revert read_frame_iter frames.
  induction iterations as [|frame_idx iterations IH];
    intros read_frame_iter frames; simpl.
  - intros [= <-]. done.
  - destruct (stop_frame db_data <? _); [by intros [= <-]|].
    destruct (py_in _ ids) eqn:Hin.
    + destruct read_frame_iter as [[|[frame name] rest] | e]; try done.
      destruct (match video db_data with Some _ => _ | None => _ end)
        as [frame' | e]; simpl; [|done].
      destruct (MediaCache.get_frames_loop _ _ _ iterations (Ok rest))
        as [frames' | e] eqn:Hrest; simpl; [|done].
      intros [= <-]. destruct (IH _ _ Hrest) as [Hlen Hplace].
      split; [simpl; by rewrite Hlen|].
      intros [|i] slot; simpl; [|by apply Hplace].
      intros [= <-]. congruence.
    + destruct (MediaCache.get_frames_loop _ _ _ iterations read_frame_iter)
        as [frames' | e] eqn:Hrest; simpl; [|done].
      intros [= <-]. destruct (IH _ _ Hrest) as [Hlen Hplace].
      split; [simpl; by rewrite Hlen|].
      intros [|i] slot; simpl; [done | by apply Hplace].
Qed.

(** C1. The masked-range producer at chunk 1 of a task with frame step 2
    and chunk size 2: the chunk owns frames 4 and 6 and its slots should be
    4 and 6; the code computes the slots 2 and 4 (it adds
    [chunk_number * chunk_size] without the frame step), so the chunk holds
    a placeholder followed by frame 4, and frame 6 is left out. *)
Theorem masked_chunk_slots_ignore_frame_step :
  MediaCache.chunk_frame_ids stepped_task masked_segment 1 = [4; 6]
  ∧ MediaCache.spec_slot_id stepped_data 1 <$> py_range1 (chunk_size stepped_data)
    = [4; 6]
  ∧ MediaCache.slot_id stepped_data 1 <$> py_range1 (chunk_size stepped_data)
    = [2; 4]
  ∧ MediaCache.get_frames (H := demo_collaborators id)
      stepped_task masked_segment 1
    = Ok [FBuffer (MediaCache.dummy_frame (H := demo_collaborators id));
          FBuffer [demo_byte 4]].
Proof. vm_compute. done. Qed.

(** ** The segment preview *)

Lemma get_rel_frame_number_undefined :
  TaskFrameProvider_getattr "get_rel_frame_number" = Raise AttributeError.
Proof. reflexivity. Qed.

(** For every 2D task the segment-preview producer stops at the lookup of
    [get_rel_frame_number], before any frame is read. *)
Lemma segment_preview_2d_raises `{Collaborators}
    (db_task : Task) (db_segment : Segment) (w : world) :
  dimension db_task = DIM_2D →
  Previews._prepare_segment_preview db_task db_segment w
  = (Raise AttributeError, w).
Proof.
  intros Hdim. unfold Previews._prepare_segment_preview. rewrite Hdim.
  reflexivity.
Qed.

(** For a 3D task the producer returns the bundled image, transposed,
    thumbnailed to 256x256 and saved as JPEG. *)
Lemma segment_preview_3d `{Collaborators}
    (db_task : Task) (db_segment : Segment) (w : world) :
  dimension db_task = DIM_3D →
  Previews._prepare_segment_preview db_task db_segment w
  = (Ok (RetPair
           (PBytesIO
              (pil_save
                 (convert
                    (thumbnail
                       (exif_transpose (Image_open_path "assets/3d_preview.jpeg"))
                       256 256) "RGB") "JPEG"))
           (Some "image/jpeg")), w).
Proof.
  intros Hdim. unfold Previews._prepare_segment_preview. rewrite Hdim.
  reflexivity.
Qed.

(** C8. The segment-preview producer on a segment of a 2D task: the call
    [task_frame_provider.get_rel_frame_number(..)] names a method that
    [TaskFrameProvider] does not define, so the producer raises an
    [AttributeError] and get-or-set of the preview stores nothing. *)
Theorem segment_preview_2d_attribute_error :
  dimension two_segment_task = DIM_2D
  ∧ Previews._prepare_segment_preview (H := demo_collaborators id)
      two_segment_task first_segment empty_world
    = (Raise AttributeError, empty_world)
  ∧ fst (Previews.get_or_set_segment_preview (H := demo_collaborators id)
           two_segment_task first_segment empty_world)
    = Raise AttributeError
  ∧ cache
      (snd (Previews.get_or_set_segment_preview (H := demo_collaborators id)
              two_segment_task first_segment empty_world))
    = ∅.
Proof. vm_compute. done. Qed.

(** ** Task chunks *)

Lemma py_ceil_div_ceiling (a b : Z) :
  0 < b →
  ∃ c, py_ceil_div a b = Ok c ∧ b * (c - 1) < a ≤ b * c.
Proof.
  intros Hb. unfold py_ceil_div. destruct (Z.eqb_spec b 0); [lia|].
  eexists. split; [done|].
  pose proof (Z.mul_div_le (- a) b Hb).
  pose proof (Z.mul_succ_div_gt (- a) b Hb). lia.
Qed.

Lemma py_range1_bounds (n i : Z) : i ∈ py_range1 n → 0 ≤ i < n.
Proof.
  unfold py_range1. intros (j & -> & Hj)%list_elem_of_fmap.
  apply elem_of_seq in Hj. lia.
Qed.

(** The elements of [range(a, b, step)] for a positive step. *)
Lemma py_range_elem (a b step : Z) (l : list Z) (x : Z) :
  0 < step → py_range a b step = Ok l →
  x ∈ l ↔ ∃ i, 0 ≤ i ∧ x = a + i * step ∧ x < b.
Proof.
  intros Hstep. unfold py_range.
  destruct (Z.eqb_spec step 0); [lia|].
  destruct (Z.ltb_spec 0 step); [|lia]. intros [= <-].
  rewrite list_elem_of_fmap. split.
  - intros (i & -> & Hi). apply py_range1_bounds in Hi.
    exists i. split; [lia|]. split; [done|].
    assert (i * step ≤ ((b - a + step - 1) / step - 1) * step) by nia.
    pose proof (Z.mul_div_le (b - a + step - 1) step Hstep). lia.
  - intros (i & Hi & -> & Hlt). exists i. split; [done|].
    unfold py_range1. apply list_elem_of_fmap. exists (Z.to_nat i).
    split; [lia|]. apply elem_of_seq.
    assert (i + 1 ≤ (b - a + step - 1) / step); [|lia].
    apply Z.div_le_lower_bound; lia.
Qed.

Lemma isdisjoint_true (a b : list Z) :
  TaskFrameProvider.isdisjoint a b = true ↔ ∀ x, x ∈ a → x ∉ b.
Proof.
  unfold TaskFrameProvider.isdisjoint. rewrite forallb_forall. split.
  - intros Hall x Hx. apply py_in_false.
    apply negb_true_iff. apply Hall. by apply list_elem_of_In.
  - intros Hall x Hx. apply negb_true_iff, py_in_false, Hall.
    by apply list_elem_of_In.
Qed.

Section task_chunk_facts.
Context `{Collaborators}.

(** Without a [RANGE] segment that meets the frames of the chunk, the
    bare assertion of [get_chunk] fails. *)
Lemma get_chunk_without_matching_segment
    (db_task : Task) (k : Z) (quality : FrameQuality) (w : world)
    (window : list Z) :
  TaskFrameProvider.validate_chunk_number db_task k = Ok k →
  TaskFrameProvider.task_chunk_frame_range (data db_task) k = Ok window →
  (∀ s, s ∈ segment_set db_task → seg_type s = RANGE →
        TaskFrameProvider.isdisjoint window (frame_set s) = true) →
  TaskFrameProvider.get_chunk db_task k quality w = (Raise AssertionError, w).
Proof.
  intros Hvalid Hwindow Hdisjoint.
  unfold TaskFrameProvider.get_chunk, bind, lift_result.
  rewrite Hvalid, Hwindow.
  assert (TaskFrameProvider.matching_segments db_task window = []) as ->; [|done].
  unfold TaskFrameProvider.matching_segments.
  assert (filter
            (λ s, seg_type s = RANGE
                  ∧ TaskFrameProvider.isdisjoint window (frame_set s) = false)
            (segment_set db_task) = []) as ->; [|done].
  destruct (filter _ (segment_set db_task)) as [|s l] eqn:Hfilter; [done|].
  assert (s ∈ filter
            (λ s, seg_type s = RANGE
                  ∧ TaskFrameProvider.isdisjoint window (frame_set s) = false)
            (segment_set db_task)) as Hs by (rewrite Hfilter; left).
  apply list_elem_of_filter in Hs as [[Hrange Hmeet] Hs].
  rewrite (Hdisjoint s Hs Hrange) in Hmeet. done.
Qed.

(** C10. For a task with a positive chunk size and frame step and a
    non-negative size, [validate_chunk_number] accepts the chunk number
    [ceil(size / chunk_size)], one past the last populated chunk; a
    validated chunk number whose frame window meets no [RANGE] segment makes
    [get_chunk] fail with an [AssertionError], not a [ValidationError]; and
    when every frame of every [RANGE] segment is one of the [size] frames of
    the task, the boundary chunk number is such a number. *)
Theorem boundary_chunk_is_validated_but_not_served
    (db_task : Task) (quality : FrameQuality) (w : world) :
  let db_data := data db_task in
  0 < chunk_size db_data →
  0 < frame_step db_data →
  0 ≤ size db_data →
  ∃ boundary,
    py_ceil_div (size db_data) (chunk_size db_data) = Ok boundary
    ∧ chunk_size db_data * (boundary - 1) < size db_data
        ≤ chunk_size db_data * boundary
    ∧ TaskFrameProvider.validate_chunk_number db_task boundary = Ok boundary
    ∧ (∀ k window,
         TaskFrameProvider.validate_chunk_number db_task k = Ok k →
         TaskFrameProvider.task_chunk_frame_range db_data k = Ok window →
         (∀ s, s ∈ segment_set db_task → seg_type s = RANGE →
               TaskFrameProvider.isdisjoint window (frame_set s) = true) →
         TaskFrameProvider.get_chunk db_task k quality w
         = (Raise AssertionError, w))
    ∧ ((∀ s f, s ∈ segment_set db_task → seg_type s = RANGE →
               f ∈ frame_set s →
               f < start_frame db_data + size db_data * frame_step db_data) →
       TaskFrameProvider.get_chunk db_task boundary quality w
       = (Raise AssertionError, w)).
Proof.
  intros db_data Hcs Hstep Hsize.
  destruct (py_ceil_div_ceiling (size db_data) (chunk_size db_data) Hcs)
    as (boundary & Hceil & Hbound).
  assert (0 ≤ boundary) as Hnonneg by nia.
  assert (TaskFrameProvider.validate_chunk_number db_task boundary = Ok boundary)
    as Hvalid.
  { unfold TaskFrameProvider.validate_chunk_number,
      Addressing.task_validate_chunk_number. fold db_data. rewrite Hceil. simpl.
    destruct (Z.leb_spec 0 boundary); [|lia].
    destruct (Z.leb_spec boundary boundary); [done|lia]. }
  exists boundary. repeat split; try done; try lia.
  - intros k window. apply get_chunk_without_matching_segment.
  - intros Hframes.
    destruct (TaskFrameProvider.task_chunk_frame_range db_data boundary)
      as [window|e] eqn:Hwindow.
    2:{ unfold TaskFrameProvider.task_chunk_frame_range, py_range in Hwindow.
        destruct (Z.eqb_spec (frame_step db_data) 0); [lia|done]. }
    apply get_chunk_without_matching_segment with (window := window);
      [done | done |].
    intros s Hs Hrange. apply isdisjoint_true. intros x Hx Hxs.
    specialize (Hframes s x Hs Hrange Hxs).
    unfold TaskFrameProvider.task_chunk_frame_range in Hwindow.
    apply (py_range_elem _ _ _ _ x Hstep) in Hwindow.
    apply Hwindow in Hx as (i & Hi & -> & _). nia.
Qed.

End task_chunk_facts.

Lemma boundary_chunk_is_validated_but_not_served_witness :
  TaskFrameProvider.validate_chunk_number two_segment_task 1 = Ok 1
  ∧ TaskFrameProvider.get_chunk (H := demo_collaborators id)
      two_segment_task 1 ORIGINAL empty_world
    = (Raise AssertionError, empty_world).
Proof.
  destruct (boundary_chunk_is_validated_but_not_served
              (H := demo_collaborators id) two_segment_task ORIGINAL
              empty_world) as (boundary & Hceil & _ & Hvalid & _ & Hfail).
  - reflexivity.
  - reflexivity.
  - discriminate.
  - injection Hceil as <-. split; [exact Hvalid|]. apply Hfail.
    intros s f Hs _ Hf. simpl.
    repeat (apply elem_of_cons in Hs as [-> | Hs];
            [repeat (apply elem_of_cons in Hf as [-> | Hf]; [lia|]);
             by apply elem_of_nil in Hf|]).
    by apply elem_of_nil in Hs.
Defined.

Lemma validate_frame_number_addressing_witness :
  (∃ (i : nat) (k o : Z),
     SegmentFrameProvider.validate_frame_number
       (SegmentFrameProvider.init (H := demo_collaborators id)
          stepped_task masked_segment) 6
     = Ok (6, k, o)
     ∧ frame_set masked_segment !! i = Some 6
     ∧ k * 2 + o = Z.of_nat i
     ∧ 0 ≤ o < 2)
  ∧ SegmentFrameProvider.validate_frame_number
      (SegmentFrameProvider.init (H := demo_collaborators id)
         stepped_task masked_segment) 5
    = Raise ValidationError.
Proof.
  destruct (validate_frame_number_addressing
              (SegmentFrameProvider.init (H := demo_collaborators id)
                 stepped_task masked_segment) 6) as [Hmember _].
  { simpl. lia. }
  destruct (validate_frame_number_addressing
              (SegmentFrameProvider.init (H := demo_collaborators id)
                 stepped_task masked_segment) 5) as [_ Hother].
  { simpl. lia. }
  split.
  - destruct Hmember as (i & k & o & Hvalid & Hlookup & _ & Hsum & Hoffset).
    + simpl. apply list_elem_of_In. simpl. tauto.
    + exists i, k, o. repeat split; assumption || apply Hoffset.
  - apply Hother. simpl. intros Hin. apply list_elem_of_In in Hin.
    simpl in Hin. lia.
Defined.

Lemma get_chunk_number_is_floor_division_witness :
  TaskFrameProvider.get_chunk_number stepped_task 7 = Ok 3
  ∧ SegmentFrameProvider.get_chunk_number
      (SegmentFrameProvider.init (H := demo_collaborators id)
         stepped_task masked_segment) 7
    = Ok 3.
Proof.
  destruct (get_chunk_number_is_floor_division stepped_task
              (SegmentFrameProvider.init (H := demo_collaborators id)
                 stepped_task masked_segment) 7)
    as (Htask & Hsegment & _).
  - simpl. lia.
  - simpl. lia.
  - split; [exact Htask | exact Hsegment].
Defined.

(** ** Chunk loaders *)

Lemma open_after_app (a b : list ReaderEvent) (opened : list nat) :
  open_after (a ++ b) opened = open_after b (open_after a opened).
Proof.
  revert opened. induction a as [|[h c|h] a IH]; intros opened; simpl; auto.
Qed.

Lemma open_readers_closed (events : list ReaderEvent) (h : nat) :
  open_readers (events ++ [Closed h])
  = filter (λ h', h' ≠ h) (open_readers events).
Proof. unfold open_readers. by rewrite open_after_app. Qed.

Lemma open_readers_opened (events : list ReaderEvent) (h : nat) (c : Z) :
  open_readers (events ++ [Opened h c]) = open_readers events ++ [h].
Proof. unfold open_readers. by rewrite open_after_app. Qed.

Lemma prefix_snoc_cases {A} (p l : list A) (x : A) :
  p `prefix_of` l ++ [x] → p `prefix_of` l ∨ p = l ++ [x].
Proof.
  intros [k Hk]. destruct k as [|y k _] using rev_ind.
  - right. by rewrite app_nil_r in Hk.
  - left. rewrite app_assoc in Hk. apply app_inj_tail in Hk as [-> _].
    by exists k.
Qed.

Lemma with_events_nil (w : world) : with_events w [] = w.
Proof. destruct w. unfold with_events. simpl. by rewrite app_nil_r. Qed.

(** [unload] forgets the chunk id and closes the reader it holds. *)
Lemma unload_spec (self : ChunkLoader.t) (w : world) :
  ChunkLoader.unload (self, w)
  = (Ok tt,
     (ChunkLoader.mk None None (ChunkLoader.reader_class self)
        (ChunkLoader.read_chunk self),
      with_events w
        match ChunkLoader.chunk_reader self with
        | Some r => [Closed (reader_handle r)]
        | None => []
        end)).
Proof.
  unfold ChunkLoader.unload. simpl.
  destruct (ChunkLoader.chunk_reader self); simpl; [done|].
  by rewrite with_events_nil.
Qed.

(** [load] of the chunk the loader is at changes nothing. *)
Lemma load_same (self : ChunkLoader.t) (w : world) (b : Z) :
  ChunkLoader.chunk_id self = Some b →
  ChunkLoader.load b (self, w)
  = (Ok (ChunkLoader.chunk_reader self), (self, w)).
Proof.
  intros Hb. unfold ChunkLoader.load.
  by rewrite bool_decide_eq_false_2 by (rewrite Hb; by intros []).
Qed.

(** [load] of another chunk unloads, reads the chunk and opens a reader. *)
Lemma load_other (self : ChunkLoader.t) (w : world) (b : Z) :
  ChunkLoader.chunk_id self ≠ Some b →
  let cls := ChunkLoader.reader_class self in
  let read := ChunkLoader.read_chunk self in
  let w1 :=
    with_events w
      match ChunkLoader.chunk_reader self with
      | Some r => [Closed (reader_handle r)]
      | None => []
      end in
  ChunkLoader.load b (self, w)
  = match read b w1 with
    | (Raise e, w2) => (Raise e, (ChunkLoader.mk (Some b) None cls read, w2))
    | (Ok (chunk, _), w2) =>
        let r := mkReader (length (readers w2)) cls chunk in
        (Ok (Some r),
         (ChunkLoader.mk (Some b) (Some r) cls read,
          with_events w2 [Opened (reader_handle r) b]))
    end.
Proof.
  intros Hb cls read w1. unfold ChunkLoader.load.
  rewrite bool_decide_eq_true_2 by done. rewrite unload_spec. simpl.
  fold w1. fold read. by destruct (read b w1) as [[[chunk mime]|e] w2].
Qed.

Section loader_facts.
Variable read_chunk : Z → M world DataWithMime.
Hypothesis read_chunk_opens_no_reader :
  ∀ chunk_id w, readers (snd (read_chunk chunk_id w)) = readers w.

Lemma call_keeps_read_chunk (c : LoaderCall) (s : ChunkLoader.t * world) :
  ChunkLoader.read_chunk (fst (call c s)) = ChunkLoader.read_chunk (fst s).
Proof.
  destruct s as [self w]. destruct c as [b|]; unfold call.
  - destruct (decide (ChunkLoader.chunk_id self = Some b)) as [Hb|Hb].
    + by rewrite load_same.
    + rewrite load_other by done.
      by destruct (ChunkLoader.read_chunk self b _) as [[[chunk mime]|e] w2].
  - by rewrite unload_spec.
Qed.

Lemma single_resident_start (reader_class : ReaderClass) (w0 : world) :
  single_resident w0 (ChunkLoader.init reader_class read_chunk, w0).
Proof.
  exists []. simpl. rewrite app_nil_r. split; [done|]. split; [|done].
  intros p Hp. apply prefix_nil_inv in Hp as ->. simpl. lia.
Qed.

(** Closing what the loader holds leaves no reader open. *)
Lemma single_resident_unloaded (w0 : world) (self : ChunkLoader.t) (w : world)
    (chunk_id : option Z) :
  single_resident w0 (self, w) →
  single_resident w0
    (ChunkLoader.mk chunk_id None (ChunkLoader.reader_class self)
       (ChunkLoader.read_chunk self),
     with_events w
       match ChunkLoader.chunk_reader self with
       | Some r => [Closed (reader_handle r)]
       | None => []
       end).
Proof.
  intros (events & Hevents & Hprefix & Hopen). simpl in *.
  unfold held in Hopen.
  destruct (ChunkLoader.chunk_reader self) as [r|].
  - exists (events ++ [Closed (reader_handle r)]). simpl.
    assert (open_readers (events ++ [Closed (reader_handle r)]) = []) as Hnone.
    { rewrite open_readers_closed, Hopen.
      rewrite filter_cons_False; [done|]. intros Hne. by apply Hne. }
    rewrite Hevents, <- app_assoc. split; [done|]. split; [|done].
    intros p [Hp | ->]%prefix_snoc_cases; [by apply Hprefix|].
    rewrite Hnone. simpl. lia.
  - exists events. simpl. rewrite app_nil_r. done.
Qed.

Lemma call_keeps_single_resident (w0 : world) (c : LoaderCall)
    (s : ChunkLoader.t * world) :
  ChunkLoader.read_chunk (fst s) = read_chunk →
  single_resident w0 s → single_resident w0 (call c s).
Proof.
  destruct s as [self w]. simpl. intros Hread Hinv.
  destruct c as [b|]; unfold call.
  - destruct (decide (ChunkLoader.chunk_id self = Some b)) as [Hb|Hb].
    + by rewrite load_same.
    + rewrite load_other by done. rewrite Hread.
      pose proof (single_resident_unloaded w0 self w (Some b) Hinv) as Hun.
      set (w1 := with_events w _) in *.
      pose proof (read_chunk_opens_no_reader b w1) as Hsame.
      destruct (read_chunk b w1) as [[[chunk mime]|e] w2]; simpl in *.
      * destruct Hun as (events & Hevents & Hprefix & Hopen). simpl in *.
        exists (events ++ [Opened (length (readers w2)) b]). simpl.
        assert (open_readers (events ++ [Opened (length (readers w2)) b])
                = [length (readers w2)]) as Hone.
        { by rewrite open_readers_opened, Hopen. }
        rewrite Hsame, Hevents, <- app_assoc. split; [done|].
        split; [|by rewrite <- Hevents, <- Hsame].
        intros p [Hp | ->]%prefix_snoc_cases; [by apply Hprefix|].
        rewrite <- Hevents, <- Hsame, Hone. simpl. lia.
      * destruct Hun as (events & Hevents & Hprefix & Hopen). simpl in *.
        exists events. simpl. by rewrite Hsame.
  - rewrite unload_spec. by apply single_resident_unloaded.
Qed.

Lemma calls_keep_single_resident (reader_class : ReaderClass) (w0 : world)
    (history : list LoaderCall) :
  ChunkLoader.read_chunk
    (fst (calls history (ChunkLoader.init reader_class read_chunk, w0)))
  = read_chunk
  ∧ single_resident w0
      (calls history (ChunkLoader.init reader_class read_chunk, w0)).
Proof.
  induction history as [|c history [IHread IHinv]] using rev_ind.
  - split; [done | apply single_resident_start].
  - unfold calls in *. rewrite fold_left_app. simpl. split.
    + by rewrite call_keeps_read_chunk.
    + by apply call_keeps_single_resident.
Qed.

End loader_facts.

(** C6. A loader whose [read_chunk] opens no reader of its own, after any
    sequence of [load] and [unload] calls: (a) at no point since its
    creation has it left more than one reader open, and the open reader is
    the one it holds; (b) [load(b)] at another chunk id first closes the
    held reader, then opens at most the reader of [b], which it then holds;
    (c) [load(b)] at the chunk id it is at returns the held reader and
    changes nothing; (d) [unload] closes the held reader and clears the
    chunk id and the reader. *)
Theorem loader_holds_at_most_one_reader
    (reader_class : ReaderClass) (read_chunk : Z → M world DataWithMime)
    (w0 : world) (history : list LoaderCall) :
  (∀ chunk_id w, readers (snd (read_chunk chunk_id w)) = readers w) →
  let s := calls history (ChunkLoader.init reader_class read_chunk, w0) in
  single_resident w0 s
  ∧ (∀ b, ChunkLoader.chunk_id (fst s) ≠ Some b →
       let s' := call (Load b) s in
       readers (snd s')
       = readers (snd s) ++ (Closed <$> held (fst s))
           ++ ((λ h, Opened h b) <$> held (fst s'))
       ∧ ChunkLoader.chunk_id (fst s') = Some b
       ∧ ∀ r, fst (ChunkLoader.load b s) = Ok r →
              ChunkLoader.chunk_reader (fst s') = r)
  ∧ (∀ b, ChunkLoader.chunk_id (fst s) = Some b →
       ChunkLoader.load b s = (Ok (ChunkLoader.chunk_reader (fst s)), s))
  ∧ (let s' := call Unload s in
     ChunkLoader.chunk_id (fst s') = None
     ∧ ChunkLoader.chunk_reader (fst s') = None
     ∧ readers (snd s') = readers (snd s) ++ (Closed <$> held (fst s))).
Proof.
  intros Hread s.
  destruct (calls_keep_single_resident read_chunk Hread reader_class w0 history)
    as [Hrc Hinv].
  fold s in Hrc, Hinv. destruct s as [self w]. cbn [fst snd] in *.
  assert (match ChunkLoader.chunk_reader self with
          | Some r => [Closed (reader_handle r)]
          | None => []
          end = Closed <$> held self) as Hclosed.
  { unfold held. by destruct (ChunkLoader.chunk_reader self). }
  split; [done|]. split; [|split].
  - intros b Hb. unfold call. rewrite load_other by done.
    rewrite Hrc, Hclosed.
    pose proof (Hread b (with_events w (Closed <$> held self))) as Hsame.
    destruct (read_chunk b _) as [[[chunk mime]|e] w2]; cbn [fst snd] in *.
    + unfold with_events at 1. cbn [readers]. rewrite Hsame.
      unfold held, with_events. simpl. rewrite <- app_assoc.
      split; [done|]. split; [done|]. by intros r [= <-].
    + rewrite Hsame. unfold held, with_events. simpl.
      rewrite app_nil_r. done.
  - intros b Hb. by apply load_same.
  - unfold call. rewrite unload_spec. cbn [fst snd]. by rewrite Hclosed.
Qed.

Lemma loader_holds_at_most_one_reader_witness :
  single_resident empty_world (calls loader_history (one_byte_loader, empty_world))
  ∧ readers (snd (calls loader_history (one_byte_loader, empty_world)))
    = [Opened 0 0; Closed 0; Opened 2 1; Closed 2].
Proof.
  split; [|reflexivity].
  apply (loader_holds_at_most_one_reader ZipReader
           (λ chunk_id, ret (PBytesIO [demo_byte chunk_id], None))
           empty_world loader_history).
  intros chunk_id w. reflexivity.
Defined.

(** ** Cache keys *)

Lemma has_char_app (c : ascii) (s t : string) :
  has_char c (s +:+ t) = has_char c s || has_char c t.
Proof.
  induction s as [|c' s IH]; simpl; [done|]. rewrite IH.
  by rewrite orb_assoc.
Qed.

Lemma pretty_N_go_no_underscore (x : N) (s : string) :
  has_char "_" s = false → has_char "_" (pretty_N_go x s) = false.
Proof.
  revert s. induction (N.lt_wf_0 x) as [x _ IH]; intros s Hs.
  assert (x = 0 ∨ 0 < x)%N as [-> | Hpos] by lia.
  - by rewrite pretty_N_go_0.
  - rewrite pretty_N_go_step by done. apply IH.
    + by apply N.div_lt.
    + simpl. rewrite Hs. unfold pretty_N_char. by repeat case_match.
Qed.

Lemma pretty_Z_no_underscore (x : Z) : has_char "_" (pretty x) = false.
Proof.
  assert (∀ n : N, has_char "_" (pretty n) = false) as HN.
  { intros n. unfold pretty, pretty_N. case_decide; [done|].
    by apply pretty_N_go_no_underscore. }
  destruct x as [|p|p]; [done | apply HN |].
  unfold pretty, pretty_Z. rewrite has_char_app. simpl. apply HN.
Qed.

(** Two strings cut at their first underscore agree part by part. *)
Lemma split_at_underscore (u u' r r' : string) :
  has_char "_" u = false → has_char "_" u' = false →
  u +:+ String "_" r = u' +:+ String "_" r' → u = u' ∧ r = r'.
Proof.
  revert u'. induction u as [|c u IH]; intros [|c' u']; simpl.
  - by intros _ _ [= ->].
  - intros _ Hu' [= <- _]. done.
  - intros Hu _ [= -> _]. done.
  - intros Hu Hu' [= -> Heq].
    apply orb_false_iff in Hu as [_ Hu]. apply orb_false_iff in Hu' as [_ Hu'].
    destruct (IH u' Hu Hu' Heq) as [-> ->]. done.
Qed.

Section key_facts.
Context `{Collaborators}.

(** A segment chunk key determines the segment id and the chunk number. *)
Lemma segment_chunk_key_inj (s s' : Segment) (k k' : Z) (quality : FrameQuality) :
  MediaCache._make_segment_chunk_key s k quality
  = MediaCache._make_segment_chunk_key s' k' quality →
  seg_id s = seg_id s' ∧ k = k'.
Proof.
  unfold MediaCache._make_segment_chunk_key. simpl. intros [= Heq].
  apply split_at_underscore in Heq as [Hid Heq];
    [|apply pretty_Z_no_underscore..].
  apply split_at_underscore in Heq as [Hk _];
    [|apply pretty_Z_no_underscore..].
  split; by apply (inj pretty).
Qed.

(** No task chunk key is a segment chunk key. *)
Lemma task_chunk_key_not_segment_chunk_key
    (db_task : Task) (s : Segment) (k k' : Z) (quality quality' : FrameQuality) :
  MediaCache._make_task_chunk_key db_task k quality
  ≠ MediaCache._make_segment_chunk_key s k' quality'.
Proof.
  unfold MediaCache._make_task_chunk_key, MediaCache._make_segment_chunk_key.
  simpl. discriminate.
Qed.

End key_facts.

(** ** The joined task chunk *)

Section joined_chunk_facts.
Context `{Collaborators}.

(** What [create_item] does with a producer that does not touch the world
    and raises or returns a buffer. *)
Lemma create_item_pure (key : string) (r : result DataWithMime) (w : world) :
  (∀ d m, r = Ok (d, m) → ∃ b, d = PBytesIO b) →
  ∃ w',
    match MediaCache.create_item key (MediaCache.callback_of r) w with
    | (Ok item, w') => (Ok (item_data item, item_mime item), w')
    | (Raise e, w') => (Raise e, w')
    end = (r, w')
    ∧ readers w' = readers w
    ∧ (cache w' = cache w
       ∨ ∃ b m, r = Ok (PBytesIO b, m)
                ∧ cache w'
                  = <[key := Pickled (Item3 (PBytesIO b) m (Some (crc32 b)))]>
                      (cache w)).
Proof.
  intros Hr. destruct r as [[d m] | e].
  - destruct (Hr d m eq_refl) as [b ->].
    erewrite create_item_buffer by reflexivity. simpl.
    eexists. split; [done|]. split; [done|]. right. by exists b, m.
  - erewrite create_item_raise by reflexivity.
    eexists. split; [done|]. split; [done|]. by left.
Qed.

(** Get-or-set with such a producer, on a cache whose entry under the key,
    if it is valid, is what the producer makes: the result is what the
    producer makes, and the cache is left alone or gets that under the
    key. *)
Lemma get_or_set_coherent (key : string) (r : result DataWithMime) (w : world) :
  (∀ it, cache w !! key = Some (Pickled it) →
         item_data it ≠ PNone
         ∧ (valid_item it → r = Ok (item_data it, item_mime it))) →
  (∀ d m, r = Ok (d, m) → ∃ b, d = PBytesIO b) →
  ∃ w',
    MediaCache._get_or_set_cache_item key (MediaCache.callback_of r) w = (r, w')
    ∧ readers w' = readers w
    ∧ (cache w' = cache w
       ∨ ∃ b m, r = Ok (PBytesIO b, m)
                ∧ cache w'
                  = <[key := Pickled (Item3 (PBytesIO b) m (Some (crc32 b)))]>
                      (cache w)).
Proof.
  intros Hcoh Hr. destruct (cache w !! key) as [[it|]|] eqn:Hk.
  - destruct (Hcoh it eq_refl) as [Hdata Hvalid].
    assert (∃ b, item_bytes it = Some b
                 ∧ (item_data it = PBytesIO b ∨ item_data it = PBytes b))
      as (b & Hbytes & Hd).
    { unfold item_bytes. destruct (item_data it); [done|..];
        eexists; split; eauto. }
    destruct (decide (item_checksum it = Some (crc32 b))) as [Hc|Hc].
    + rewrite Hvalid by (by exists b).
      destruct it as [d m c | d m]; simpl in *; [|done]. subst c.
      rewrite (get_or_set_hit key _ w b d m) by done.
      eexists. split; [done|]. split; [done|]. by left.
    + rewrite (get_or_set_mismatch key _ w it b) by done.
      apply (create_item_pure key r
               (logged w [StartGet key; EndGet key true; Recreating key]) Hr).
  - rewrite get_or_set_unpicklable by done.
    apply (create_item_pure key r
             (logged w [StartGet key; ErrorGet key; EndGet key false]) Hr).
  - rewrite get_or_set_miss by done.
    apply (create_item_pure key r
             (logged w [StartGet key; EndGet key false]) Hr).
Qed.

(** The segment-chunk producers return buffers. *)
Lemma prepare_segment_chunk_buffer (db_task : Task) (s : Segment) (k : Z)
    (quality : FrameQuality) (d : PyData) (m : option string) :
  MediaCache.prepare_segment_chunk db_task s k quality = Ok (d, m) →
  ∃ b, d = PBytesIO b.
Proof.
  unfold MediaCache.prepare_segment_chunk,
    MediaCache.prepare_range_segment_chunk, MediaCache.prepare_chunk,
    MediaCache.prepare_masked_range_segment_chunk.
  destruct (seg_type s).
  - destruct (MediaCache._read_raw_frames _ _); simpl; [|done].
    destruct (save_as_chunk _ _ _ _ _); simpl; [|done].
    intros [= <- _]. by eexists.
  - destruct (MediaCache.get_frames _ _ _); simpl; [|done].
    destruct (save_as_chunk _ _ _ _ _); simpl; [|done].
    intros [= <- _]. by eexists.
Qed.

End joined_chunk_facts.

Section joined_chunk_steps.
Context `{Collaborators}.
Variable db_task : Task.
Variable quality : FrameQuality.
Variable segments : list Segment.
Hypothesis segment_ids_identify :
  ∀ s s', s ∈ segments → s' ∈ segments → seg_id s = seg_id s' → s = s'.

Local Abbreviation coherent :=
  (JoinedChunk.coherent db_task quality segments).
Local Abbreviation only_written :=
  (JoinedChunk.only_segment_chunks_written quality segments).

Lemma coherent_cache_eq (w w' : world) :
  cache w' = cache w → coherent w → coherent w'.
Proof. intros Hc Hcoh s k it Hs. rewrite Hc. by apply Hcoh. Qed.

Lemma only_written_refl (w : world) : only_written w w.
Proof. by intros key _. Qed.

Lemma only_written_trans (w1 w2 w3 : world) :
  only_written w1 w2 → only_written w2 w3 → only_written w1 w3.
Proof. intros H12 H23 key Hkey. by rewrite H23, H12. Qed.

Lemma only_written_cache_eq (w1 w2 w2' : world) :
  cache w2' = cache w2 → only_written w1 w2 → only_written w1 w2'.
Proof. intros Hc H12 key Hkey. rewrite Hc. by apply H12. Qed.

Lemma only_written_cache_eq_l (w1 w1' w2 : world) :
  cache w1' = cache w1 → only_written w1 w2 → only_written w1' w2.
Proof. intros Hc H12 key Hkey. rewrite Hc. by apply H12. Qed.

(** Reading a chunk of a segment through the loader of a fresh provider
    yields the chunk at its source, keeps the cache coherent and writes
    under the key of that chunk at most. *)
Lemma segment_read_chunk_spec (s : Segment) (k : Z) (w : world) :
  s ∈ segments → coherent w →
  ∃ w',
    JoinedChunk.segment_read_chunk db_task s quality k w
    = (JoinedChunk.chunk_source db_task s k quality, w')
    ∧ readers w' = readers w
    ∧ coherent w'
    ∧ only_written w w'.
Proof.
  intros Hs Hcoh.
  unfold JoinedChunk.segment_read_chunk, JoinedChunk.chunk_source,
    SegmentFrameProvider.init.
  destruct (storage_method (data db_task)).
  - assert (ChunkLoader.read_chunk
              (SegmentFrameProvider._loaders
                 (SegmentFrameProvider.mk s db_task
                    (ChunkLoader._BufferChunkLoader
                       (SegmentFrameProvider.reader_class_of
                          (compressed_chunk_type (data db_task)))
                       (λ chunk_idx,
                          MediaCache.get_segment_chunk db_task s chunk_idx
                            COMPRESSED))
                    (ChunkLoader._BufferChunkLoader
                       (SegmentFrameProvider.reader_class_of
                          (original_chunk_type (data db_task)))
                       (λ chunk_idx,
                          MediaCache.get_segment_chunk db_task s chunk_idx
                            ORIGINAL)))
                 quality) k w
            = MediaCache.get_segment_chunk db_task s k quality w) as ->.
    { by destruct quality. }
    unfold MediaCache.get_segment_chunk.
    destruct (get_or_set_coherent
                (MediaCache._make_segment_chunk_key s k quality)
                (MediaCache.prepare_segment_chunk db_task s k quality) w)
      as (w' & Hrun & Hreaders & Hcache).
    { intros it Hit. by apply (Hcoh s k it). }
    { apply prepare_segment_chunk_buffer. }
    exists w'. split; [done|]. split; [done|].
    destruct Hcache as [Hsame | (b & m & Hr & Hins)].
    + split; [by apply (coherent_cache_eq w) |].
      apply (only_written_cache_eq w w); [done | apply only_written_refl].
    + split.
      * intros s' k' it Hs' Hit. rewrite Hins in Hit.
        destruct (decide (MediaCache._make_segment_chunk_key s k quality
                          = MediaCache._make_segment_chunk_key s' k' quality))
          as [Heq | Hne].
        -- rewrite Heq, lookup_insert_eq in Hit. injection Hit as <-.
           apply segment_chunk_key_inj in Heq as [Hid <-].
           rewrite <- (segment_ids_identify s s' Hs Hs' Hid).
           split; [done|]. intros _. by rewrite Hr.
        -- rewrite lookup_insert_ne in Hit by done. by apply (Hcoh s' k' it).
      * intros key Hkey. rewrite Hins.
        rewrite lookup_insert_ne; [done|]. intros Heq.
        by apply (Hkey s k Hs).
  - assert (ChunkLoader.read_chunk
              (SegmentFrameProvider._loaders
                 (SegmentFrameProvider.mk s db_task
                    (ChunkLoader._FileChunkLoader
                       (SegmentFrameProvider.reader_class_of
                          (compressed_chunk_type (data db_task)))
                       (λ chunk_idx,
                          get_segment_chunk_path (data db_task) COMPRESSED
                            chunk_idx (seg_id s)))
                    (ChunkLoader._FileChunkLoader
                       (SegmentFrameProvider.reader_class_of
                          (original_chunk_type (data db_task)))
                       (λ chunk_idx,
                          get_segment_chunk_path (data db_task) ORIGINAL
                            chunk_idx (seg_id s))))
                 quality) k w
            = ChunkLoader.file_read_chunk
                (λ chunk_idx,
                   get_segment_chunk_path (data db_task) quality chunk_idx
                     (seg_id s)) k w) as ->.
    { by destruct quality. }
    exists w. split; [done|]. split; [done|]. split; [done|].
    apply only_written_refl.
Qed.

(** [load] on a loader of the segment: the reader of the chunk at its
    source, or the exception of the source. *)
Lemma load_serves (s : Segment) (l : ChunkLoader.t) (k : Z) (w : world) :
  s ∈ segments → coherent w →
  JoinedChunk.loader_serves db_task s quality l →
  ∃ R l' w',
    ChunkLoader.load k (l, w) = (R, (l', w'))
    ∧ coherent w'
    ∧ only_written w w'
    ∧ match JoinedChunk.chunk_source db_task s k quality with
      | Ok (chunk, _) =>
          ∃ r, R = Ok (Some r)
               ∧ reader_cls r
                 = SegmentFrameProvider.reader_class_of
                     (JoinedChunk.chunk_type_of (data db_task) quality)
               ∧ reader_chunk r = chunk
               ∧ JoinedChunk.loader_serves db_task s quality l'
      | Raise e => R = Raise e
      end.
Proof.
  intros Hs Hcoh (Hread & Hcls & Hheld).
  destruct (decide (ChunkLoader.chunk_id l = Some k)) as [Hk | Hk].
  - rewrite load_same by done.
    destruct (Hheld k Hk) as (r & chunk & mime & Hr & Hsrc & Hrcls & Hrchunk).
    exists (Ok (ChunkLoader.chunk_reader l)), l, w.
    split; [done|]. split; [done|]. split; [apply only_written_refl|].
    rewrite Hsrc. exists r. rewrite Hr, Hrcls, Hcls. done.
  - rewrite load_other by done. rewrite Hread.
    set (w1 := with_events w _).
    destruct (segment_read_chunk_spec s k w1 Hs) as (w2 & Hrun & _ & Hcoh2 & Hw2).
    { by apply (coherent_cache_eq w). }
    rewrite Hrun.
    destruct (JoinedChunk.chunk_source db_task s k quality)
      as [[chunk mime] | e] eqn:Hsrc.
    + eexists _, _, _. split; [done|].
      split; [by apply (coherent_cache_eq w2)|].
      split.
      { apply (only_written_cache_eq w w2); [done|].
        by apply (only_written_cache_eq_l w w1). }
      eexists. split; [done|]. simpl. rewrite Hcls. split; [done|].
      split; [done|]. split; [done|]. split; [done|].
      intros k0 [= <-]. simpl. eexists _, chunk, mime. done.
    + eexists _, _, _. split; [done|]. split; [done|]. split; [|done].
      by apply (only_written_cache_eq_l w w1).
Qed.

Lemma loaders_set_loader (p : SegmentFrameProvider.t) (l : ChunkLoader.t) :
  SegmentFrameProvider._loaders (SegmentFrameProvider.set_loader p quality l)
    quality = l.
Proof. by destruct quality. Qed.

(** [get_frame] on a provider of the segment whose loader serves: the
    frame the segment serves for the frame number. *)
Lemma get_frame_served (s : Segment) (p : SegmentFrameProvider.t) (f : Z)
    (w : world) :
  SegmentFrameProvider._db_task p = db_task →
  SegmentFrameProvider._db_segment p = s →
  s ∈ segments → coherent w →
  JoinedChunk.loader_serves db_task s quality
    (SegmentFrameProvider._loaders p quality) →
  ∃ R p' w',
    SegmentFrameProvider.get_frame f quality BUFFER (p, w) = (R, (p', w'))
    ∧ rbind R (λ d, Ok (dwm_data d))
      = JoinedChunk.served_frame db_task quality (s, f)
    ∧ coherent w'
    ∧ only_written w w'
    ∧ SegmentFrameProvider._db_task p' = db_task
    ∧ SegmentFrameProvider._db_segment p' = s
    ∧ (∀ d, R = Ok d →
            JoinedChunk.loader_serves db_task s quality
              (SegmentFrameProvider._loaders p' quality)).
Proof.
  intros Htask Hseg Hs Hcoh Hserves.
  unfold SegmentFrameProvider.get_frame, JoinedChunk.served_frame,
    SegmentFrameProvider.validate_frame_number.
  rewrite Htask, Hseg.
  destruct (Addressing.segment_validate_frame_number db_task s f)
    as [[[f' k] o] | e]; cbn [rbind].
  2:{ eexists _, _, _. split; [done|]. split; [done|]. split; [done|].
      split; [apply only_written_refl|]. done. }
  unfold SegmentFrameProvider.with_loader.
  destruct (load_serves s (SegmentFrameProvider._loaders p quality) k w
              Hs Hcoh Hserves) as (R0 & l' & w' & Hload & Hcoh' & Hw' & Hsrc).
  rewrite Hload.
  assert (SegmentFrameProvider._db_task
            (SegmentFrameProvider.set_loader p quality l') = db_task
          ∧ SegmentFrameProvider._db_segment
              (SegmentFrameProvider.set_loader p quality l') = s)
    as [Htask' Hseg'].
  { by destruct quality. }
  destruct (JoinedChunk.chunk_source db_task s k quality)
    as [[chunk mime] | e]; cbn [rbind].
  - destruct Hsrc as (r & -> & Hrcls & Hrchunk & Hserves').
    rewrite loaders_set_loader.
    destruct Hserves' as (Hread' & Hcls' & Hheld').
    eexists _, _, _. split; [done|].
    split.
    { unfold SegmentFrameProvider.reader_subscript.
      rewrite Hrcls, Hrchunk, Hcls'.
      set (cls := SegmentFrameProvider.reader_class_of
                    (JoinedChunk.chunk_type_of (data db_task) quality)).
      destruct (reader_getitem cls chunk o) as [[frame name] | e];
        cbn [rbind]; [|done].
      destruct (SegmentFrameProvider._convert_frame frame cls BUFFER);
        cbn [rbind]; [|done].
      by case_decide. }
    split; [done|]. split; [done|]. split; [done|]. split; [done|].
    intros _ _. by rewrite loaders_set_loader.
  - subst R0. eexists _, _, _. split; [done|]. split; [done|].
    split; [done|]. split; [done|]. done.
Qed.

Lemma collect_app {A B} (f : A → result B) (l1 l2 : list A) :
  collect f (l1 ++ l2)
  = rbind (collect f l1)
      (λ ys1, rbind (collect f l2) (λ ys2, Ok (ys1 ++ ys2))).
Proof.
  induction l1 as [|x l1 IH]; simpl.
  - by destruct (collect f l2).
  - destruct (f x); simpl; [|done]. rewrite IH.
    destruct (collect f l1); simpl; [|done]. by destruct (collect f l2).
Qed.

(** A fresh provider of a segment serves. *)
Lemma init_serves (s : Segment) :
  SegmentFrameProvider._db_task (SegmentFrameProvider.init db_task s) = db_task
  ∧ SegmentFrameProvider._db_segment (SegmentFrameProvider.init db_task s) = s
  ∧ JoinedChunk.loader_serves db_task s quality
      (SegmentFrameProvider._loaders (SegmentFrameProvider.init db_task s)
         quality).
Proof.
  unfold JoinedChunk.loader_serves, JoinedChunk.segment_read_chunk,
    JoinedChunk.chunk_type_of, SegmentFrameProvider.init.
  destruct (storage_method (data db_task)), quality; simpl; done.
Qed.

(** The inner loop of the joined chunk yields, for the frame ids of the
    chunk that the segment owns, the frames the segment serves. *)
Lemma join_segment_frames_served (s : Segment) (ids : list Z)
    (p : SegmentFrameProvider.t) (w : world) :
  SegmentFrameProvider._db_task p = db_task →
  SegmentFrameProvider._db_segment p = s →
  s ∈ segments → coherent w →
  JoinedChunk.loader_serves db_task s quality
    (SegmentFrameProvider._loaders p quality) →
  ∃ p' w',
    TaskFrameProvider.join_segment_frames ids (frame_set s) quality (p, w)
    = (collect (JoinedChunk.served_frame db_task quality)
         ((λ f, (s, f)) <$> filter (λ f, f ∈ frame_set s) ids),
       (p', w'))
    ∧ coherent w'
    ∧ only_written w w'.
Proof.
  intros Htask Hseg Hs. revert p w Htask Hseg.
  induction ids as [|f ids IH]; intros p w Htask Hseg Hcoh Hserves.
  - exists p, w. split; [done|]. split; [done | apply only_written_refl].
  - cbn [TaskFrameProvider.join_segment_frames].
    destruct (py_in f (frame_set s)) eqn:Hin; cbn [negb].
    + apply py_in_spec in Hin. rewrite filter_cons_True by done.
      cbn [fmap list_fmap collect]. unfold bind at 1.
      destruct (get_frame_served s p f w Htask Hseg Hs Hcoh Hserves)
        as (R & p1 & w1 & Hrun & Hserved & Hcoh1 & Hw1 & Htask1 & Hseg1 & Hserves1).
      rewrite Hrun, <- Hserved.
      destruct R as [d | e]; cbn [rbind].
      * destruct (IH p1 w1 Htask1 Hseg1 Hcoh1 (Hserves1 d eq_refl))
          as (p2 & w2 & Hrest & Hcoh2 & Hw2).
        unfold bind. rewrite Hrest.
        exists p2, w2. split.
        { by destruct (collect _ _). }
        split; [done|]. by apply (only_written_trans w w1 w2).
      * exists p1, w1. done.
    + apply py_in_false in Hin. rewrite filter_cons_False by done.
      by apply IH.
Qed.

(** The outer loop of the joined chunk yields the frames served for the
    requests of the joined chunk. *)
Lemma join_segments_served (segs : list Segment) (window : list Z) (w : world) :
  (∀ s, s ∈ segs → s ∈ segments) → coherent w →
  ∃ w',
    TaskFrameProvider.join_segments db_task segs window quality w
    = (collect (JoinedChunk.served_frame db_task quality)
         (JoinedChunk.joined_requests segs window), w')
    ∧ coherent w'
    ∧ only_written w w'.
Proof.
  revert w. induction segs as [|s segs IH]; intros w Hsub Hcoh.
  - exists w. split; [done|]. split; [done | apply only_written_refl].
  - cbn [TaskFrameProvider.join_segments].
    destruct (init_serves s) as (Htask & Hseg & Hserves).
    destruct (join_segment_frames_served s (set_iter window)
                (SegmentFrameProvider.init db_task s) w Htask Hseg
                (Hsub s ltac:(left)) Hcoh Hserves)
      as (p1 & w1 & Hrun & Hcoh1 & Hw1).
    unfold bind at 1, TaskFrameProvider.on_fresh. rewrite Hrun.
    unfold JoinedChunk.joined_requests. cbn [mbind list_bind].
    fold (JoinedChunk.joined_requests segs window).
    rewrite collect_app.
    destruct (collect _ ((λ f, (s, f)) <$> _)) as [frames | e]; cbn [rbind].
    + destruct (IH w1) as (w2 & Hrest & Hcoh2 & Hw2);
        [by intros s' Hs'; apply Hsub; right | done |].
      unfold bind. rewrite Hrest. exists w2. split.
      { by destruct (collect _ _). }
      split; [done|]. by apply (only_written_trans w w1 w2).
    + exists w1. done.
Qed.

End joined_chunk_steps.

(** [sorted(.., key=start_frame)] rearranges its argument in ascending
    order of [start_frame]. *)
Lemma insert_by_start_frame_perm (s : Segment) (l : list Segment) :
  TaskFrameProvider.insert_by_start_frame s l ≡ₚ s :: l.
Proof.
  induction l as [|s' l IH]; simpl; [done|].
  case_match; [done|]. rewrite IH. apply Permutation_swap.
Qed.

Lemma sorted_by_start_frame_perm (l : list Segment) :
  TaskFrameProvider.sorted_by_start_frame l ≡ₚ l.
Proof.
  induction l as [|s l IH]; simpl; [done|].
  by rewrite insert_by_start_frame_perm, IH.
Qed.

Lemma insert_by_start_frame_sorted (s : Segment) (l : list Segment) :
  StronglySorted (λ a b, seg_start_frame a ≤ seg_start_frame b) l →
  StronglySorted (λ a b, seg_start_frame a ≤ seg_start_frame b)
    (TaskFrameProvider.insert_by_start_frame s l).
Proof.
  induction 1 as [|s' l Hsorted IH Hall]; simpl.
  - repeat constructor.
  - destruct (Z.leb_spec (seg_start_frame s) (seg_start_frame s')).
    + constructor; [by constructor|]. constructor; [done|].
      eapply Forall_impl; [exact Hall|]. simpl. intros. lia.
    + constructor; [done|]. rewrite insert_by_start_frame_perm.
      constructor; [lia | done].
Qed.

Lemma sorted_by_start_frame_sorted (l : list Segment) :
  StronglySorted (λ a b, seg_start_frame a ≤ seg_start_frame b)
    (TaskFrameProvider.sorted_by_start_frame l).
Proof.
  induction l as [|s l IH]; simpl; [constructor|].
  by apply insert_by_start_frame_sorted.
Qed.

Lemma forallb_false_elem {A} (p : A → bool) (l : list A) :
  forallb p l = false ↔ ∃ x, x ∈ l ∧ p x = false.
Proof.
  induction l as [|y l IH]; simpl.
  - split; [done|]. by intros (x & Hx%elem_of_nil & _).
  - rewrite andb_false_iff, IH. split.
    + intros [Hy | (x & Hx & Hp)]; [exists y | exists x];
        (split; [|done]); [left | by right].
    + intros (x & [-> | Hx]%elem_of_cons & Hp); [by left|].
      right. by exists x.
Qed.

(** The matching segments are [RANGE] segments of the task that meet the
    frames of the chunk. *)
Lemma matching_segments_elem `{Collaborators}
    (db_task : Task) (window : list Z) (s : Segment) :
  s ∈ TaskFrameProvider.matching_segments db_task window ↔
  s ∈ segment_set db_task ∧ seg_type s = RANGE
  ∧ ∃ f, f ∈ window ∧ f ∈ frame_set s.
Proof.
  unfold TaskFrameProvider.matching_segments.
  rewrite sorted_by_start_frame_perm, list_elem_of_filter.
  assert (TaskFrameProvider.isdisjoint window (frame_set s) = false
          ↔ ∃ f, f ∈ window ∧ f ∈ frame_set s) as ->; [|tauto].
  unfold TaskFrameProvider.isdisjoint. rewrite forallb_false_elem.
  split; intros (f & Hf & Hfs); exists f; (split; [done|]).
  - by apply negb_false_iff, py_in_spec in Hfs.
  - by apply negb_false_iff, py_in_spec.
Qed.

(** Two filters that no element of the list passes together. *)
Lemma filter_app_disjoint {A} (P Q : A → Prop)
    `{∀ x, Decision (P x)} `{∀ x, Decision (Q x)} (l : list A) :
  (∀ x, x ∈ l → P x → Q x → False) →
  filter P l ++ filter Q l ≡ₚ filter (λ x, P x ∨ Q x) l.
Proof.
  induction l as [|x l IH]; intros Hdisj; [done|].
  rewrite !filter_cons.
  assert (filter P l ++ filter Q l ≡ₚ filter (λ x, P x ∨ Q x) l) as IH'.
  { apply IH. intros y Hy. apply Hdisj. by right. }
  destruct (decide (P x)) as [HP|HP], (decide (Q x)) as [HQ|HQ].
  - destruct (Hdisj x ltac:(left) HP HQ).
  - rewrite decide_True by tauto. simpl. by rewrite IH'.
  - rewrite decide_True by tauto. rewrite <- Permutation_middle. by rewrite IH'.
  - rewrite decide_False by tauto. done.
Qed.

Lemma filter_all {A} (P : A → Prop) `{∀ x, Decision (P x)} (l : list A) :
  (∀ x, x ∈ l → P x) → filter P l = l.
Proof.
  induction l as [|x l IH]; intros Hall; [done|].
  rewrite filter_cons_True by (apply Hall; left).
  f_equal. apply IH. intros y Hy. apply Hall. by right.
Qed.

Section joined_requests_facts.
Context `{Collaborators}.

Lemma joined_requests_cons (s : Segment) (segs : list Segment)
    (window : list Z) :
  snd <$> JoinedChunk.joined_requests (s :: segs) window
  = filter (λ f, f ∈ frame_set s) (set_iter window)
    ++ (snd <$> JoinedChunk.joined_requests segs window).
Proof.
  unfold JoinedChunk.joined_requests. cbn [mbind list_bind].
  rewrite fmap_app, <- list_fmap_compose. f_equal.
  by rewrite list_fmap_id.
Qed.

(** When no frame is owned by two of the segments, the requests of the
    joined chunk are the frames of the chunk that some segment owns, each
    once. *)
Lemma joined_requests_owned (segs : list Segment) (window : list Z) :
  (∀ f, f ∈ set_iter window →
        (length (filter (λ s, f ∈ frame_set s) segs) ≤ 1)%nat) →
  snd <$> JoinedChunk.joined_requests segs window
  ≡ₚ filter (λ f, Exists (λ s, f ∈ frame_set s) segs) (set_iter window).
Proof.
  induction segs as [|s segs IH]; intros Hone.
  - simpl. symmetry. apply Permutation_nil_r.
    destruct (filter _ _) as [|f l] eqn:Hf; [done|].
    assert (f ∈ filter (λ f, Exists (λ s, f ∈ frame_set s) [])
                  (set_iter window)) as Hin by (rewrite Hf; left).
    apply list_elem_of_filter in Hin as [Hex _]. by apply Exists_nil in Hex.
  - rewrite joined_requests_cons, IH.
    + rewrite filter_app_disjoint.
      * erewrite list_filter_iff; [done|]. intros f. by rewrite Exists_cons.
      * intros f Hf Hs (s' & Hs' & Hfs')%Exists_exists.
        specialize (Hone f Hf). rewrite filter_cons_True in Hone by done.
        simpl in Hone.
        assert (s' ∈ filter (λ s, f ∈ frame_set s) segs) as Hin
          by (by apply list_elem_of_filter).
        destruct (filter _ segs); [by apply elem_of_nil in Hin|].
        simpl in Hone. lia.
    + intros f Hf. specialize (Hone f Hf). rewrite filter_cons in Hone.
      case_decide; simpl in Hone; lia.
Qed.

End joined_requests_facts.

Section joined_chunk_theorem.
Context `{Collaborators}.

(** C3, as amended. A validated task chunk whose frames meet more than one
    [RANGE] segment, on a task whose segment ids identify its segments and a
    cache that is coherent for the chunks of the matching segments:
    [get_chunk] returns the container written from the frames that the
    matching segments, taken in ascending order of [start_frame], serve for
    the frame ids of the chunk they own (the exception of the first frame
    that cannot be served otherwise); the cache changes under segment chunk
    keys of the matching segments only, so under no task chunk key; and
    when the set of chunk frames is iterated element by element and every
    chunk frame is owned by exactly one matching segment, the frames
    requested are the frames of the chunk, each once. *)
Theorem joined_chunk_frames_and_cache_writes
    (db_task : Task) (chunk_number : Z) (quality : FrameQuality) (w : world)
    (window : list Z) :
  TaskFrameProvider.validate_chunk_number db_task chunk_number
  = Ok chunk_number →
  TaskFrameProvider.task_chunk_frame_range (data db_task) chunk_number
  = Ok window →
  let segments := TaskFrameProvider.matching_segments db_task window in
  (1 < length segments)%nat →
  (∀ s s', s ∈ segment_set db_task → s' ∈ segment_set db_task →
           seg_id s = seg_id s' → s = s') →
  JoinedChunk.coherent db_task quality segments w →
  let result := TaskFrameProvider.get_chunk db_task chunk_number quality w in
  fst result = JoinedChunk.joined_chunk db_task quality segments window
  ∧ JoinedChunk.only_segment_chunks_written quality segments w (snd result)
  ∧ (∀ k q,
       cache (snd result) !! MediaCache._make_task_chunk_key db_task k q
       = cache w !! MediaCache._make_task_chunk_key db_task k q)
  ∧ Forall (λ s, seg_type s = RANGE) segments
  ∧ StronglySorted (λ a b, seg_start_frame a ≤ seg_start_frame b) segments
  ∧ (set_iter window ≡ₚ window →
     (∀ f, f ∈ window →
           length (filter (λ s, f ∈ frame_set s) segments) = 1%nat) →
     snd <$> JoinedChunk.joined_requests segments window ≡ₚ window).
Proof.
  intros Hvalid Hwindow segments Hlen Hids Hcoh result.
  assert (∀ s, s ∈ segments → s ∈ segment_set db_task ∧ seg_type s = RANGE)
    as Hsegments.
  { intros s Hs. apply matching_segments_elem in Hs. tauto. }
  destruct (join_segments_served db_task quality segments) with
    (segs := segments) (window := window) (w := w)
    as (w' & Hrun & Hcoh' & Hw'); [|done|done|].
  { intros s s' Hs Hs'. apply Hids; by apply Hsegments. }
  assert (result
          = (JoinedChunk.joined_chunk db_task quality segments window, w'))
    as ->.
  { subst result. unfold TaskFrameProvider.get_chunk, bind, lift_result.
    rewrite Hvalid, Hwindow. fold segments.
    destruct segments as [|s1 [|s2 rest]] eqn:Hm; simpl in Hlen; [lia..|].
    rewrite Hrun. unfold JoinedChunk.joined_chunk.
    destruct (collect _ _) as [frames | e]; cbn [rbind]; [|done].
    unfold ret. by destruct (save_as_chunk _ _ _ _ _). }
  cbn [fst snd]. split; [done|]. split; [done|]. split.
  { intros k q. apply Hw'. intros s k' _.
    apply task_chunk_key_not_segment_chunk_key. }
  split.
  { apply Forall_forall. intros s Hs. by apply Hsegments. }
  split.
  { apply sorted_by_start_frame_sorted. }
  intros Hiter Hone.
  rewrite joined_requests_owned.
  - rewrite filter_all; [done|]. intros f Hf. rewrite Hiter in Hf.
    specialize (Hone f Hf).
    destruct (filter (λ s, f ∈ frame_set s) segments) as [|s l] eqn:Hfilter;
      [done|].
    assert (s ∈ filter (λ s, f ∈ frame_set s) segments) as Hs
      by (rewrite Hfilter; left).
    apply list_elem_of_filter in Hs as [Hfs Hs].
    apply Exists_exists. by exists s.
  - intros f Hf. rewrite Hiter in Hf. by rewrite (Hone f Hf).
Qed.

End joined_chunk_theorem.

Lemma joined_chunk_frames_and_cache_writes_witness :
  fst (TaskFrameProvider.get_chunk (H := demo_collaborators id)
         two_segment_task 0 ORIGINAL empty_world)
  = Ok (mkDataWithMeta (PBytesIO [x00; x01; x02; x03])
          (Some "application/zip") None)
  ∧ cache
      (snd (TaskFrameProvider.get_chunk (H := demo_collaborators id)
              two_segment_task 0 ORIGINAL empty_world))
      !! "task_2_0_100"
    = None
  ∧ snd <$> JoinedChunk.joined_requests (H := demo_collaborators id)
              [first_segment; second_segment] [0; 1; 2; 3]
    ≡ₚ [0; 1; 2; 3].
Proof.
  destruct (joined_chunk_frames_and_cache_writes (H := demo_collaborators id)
              two_segment_task 0 ORIGINAL empty_world [0; 1; 2; 3])
    as (Hresult & _ & Htask & _ & _ & Hperm).
  - reflexivity.
  - reflexivity.
  - simpl. lia.
  - intros s s' Hs Hs' Hid. simpl in Hs, Hs'.
    apply elem_of_cons in Hs as [-> | Hs];
      apply elem_of_cons in Hs' as [-> | Hs'];
      try reflexivity;
      repeat match goal with
             | Hx : _ ∈ [_] |- _ => apply list_elem_of_singleton in Hx as ->
             end;
      try reflexivity; discriminate Hid.
  - intros s k it _ Hit. simpl in Hit. rewrite lookup_empty in Hit.
    discriminate Hit.
  - split; [rewrite Hresult; reflexivity|]. split.
    + apply (Htask 0 ORIGINAL).
    + apply Hperm; [reflexivity|].
      intros f Hf.
      repeat (apply elem_of_cons in Hf as [-> | Hf]; [reflexivity|]).
      by apply elem_of_nil in Hf.
Defined.

(** C3, as stated, fails for a task whose chunks are served from the
    cache: chunk 0 of a task of four frames meets the two [RANGE] segments
    [0..1] and [2..3]; on an empty cache [get_chunk] returns the joined
    chunk and leaves the chunks of both segments in the cache, under their
    segment chunk keys. *)
Lemma joined_chunk_writes_segment_chunks :
  TaskFrameProvider.matching_segments two_segment_task [0; 1; 2; 3]
  = [first_segment; second_segment]
  ∧ cache empty_world = ∅
  ∧ fst (TaskFrameProvider.get_chunk (H := demo_collaborators id)
           two_segment_task 0 ORIGINAL empty_world)
    = Ok (mkDataWithMeta (PBytesIO [x00; x01; x02; x03])
            (Some "application/zip") None)
  ∧ cache
      (snd (TaskFrameProvider.get_chunk (H := demo_collaborators id)
              two_segment_task 0 ORIGINAL empty_world))
      !! "segment_1_0_100"
    = Some (Pickled (Item3 (PBytesIO [x00; x01]) (Some "application/zip")
                       (Some (crc32 [x00; x01]))))
  ∧ cache
      (snd (TaskFrameProvider.get_chunk (H := demo_collaborators id)
              two_segment_task 0 ORIGINAL empty_world))
      !! "segment_2_0_100"
    = Some (Pickled (Item3 (PBytesIO [x02; x03]) (Some "application/zip")
                       (Some (crc32 [x02; x03])))).
Proof. vm_compute. done. Qed.

(** The order of the frames inside a segment of a joined chunk is the
    iteration order of the set of chunk frames. Chunk 2 of a task of nine
    frames in chunks of three holds the frames 6, 7 and 8; CPython iterates
    the set as 8, 6, 7, and the joined chunk of the segments [0..6] and
    [7..8] holds the frames 6, 8, 7. *)
Remark joined_chunk_follows_set_order :
  TaskFrameProvider.task_chunk_frame_range nine_frame_data 2 = Ok [6; 7; 8]
  ∧ small_set_order [6; 7; 8] = [8; 6; 7]
  ∧ fst (TaskFrameProvider.get_chunk (H := demo_collaborators small_set_order)
           nine_frame_task 2 ORIGINAL empty_world)
    = Ok (mkDataWithMeta (PBytesIO [x06; x08; x07])
            (Some "application/zip") None).
Proof. vm_compute. done. Qed.

(** ** More on the cache: lookups, eviction, failures *)

Section cache_round_trips.
Context `{Collaborators}.

(** [_get] reads: it returns the entry under the key ([None] when there is
    none or when it fails to unpickle), never raises and leaves the cache
    and the readers alone. *)
Lemma get_reads (key : string) (w : world) :
  fst (MediaCache._get key w)
  = Ok match cache w !! key with
       | Some (Pickled it) => Some it
       | _ => None
       end
  ∧ cache (snd (MediaCache._get key w)) = cache w
  ∧ readers (snd (MediaCache._get key w)) = readers w.
Proof.
  unfold MediaCache._get, bind, info, except_unpickling, cache_get, ret.
  simpl. by destruct (cache w !! key) as [[it|]|].
Qed.

(** X1. After [get_or_set_task_chunk] ran its callback on a miss and the
    callback returned a buffer, [get_task_chunk] returns the stored triple:
    the buffer, its MIME type and the CRC-32 of the buffer. *)
Theorem get_task_chunk_after_get_or_set
    (db_task : Task) (chunk_number : Z) (quality : FrameQuality)
    (set_callback : M world ProducerRet) (w w1 : world)
    (b : bytes) (m : option string) :
  let key := MediaCache._make_task_chunk_key db_task chunk_number quality in
  cache w !! key = None →
  set_callback (logged w [StartGet key; EndGet key false; StartPrepare key])
  = (Ok (RetPair (PBytesIO b) m), w1) →
  let stored :=
    snd (MediaCache.get_or_set_task_chunk db_task chunk_number quality
           set_callback w) in
  fst (MediaCache.get_or_set_task_chunk db_task chunk_number quality
         set_callback w)
  = Ok (PBytesIO b, m)
  ∧ fst (MediaCache.get_task_chunk db_task chunk_number quality stored)
    = Ok (Some (Item3 (PBytesIO b) m (Some (crc32 b)))).
Proof.
  intros key Hmiss Hcb stored. subst stored.
  unfold MediaCache.get_or_set_task_chunk, MediaCache.get_task_chunk.
  fold key. rewrite get_or_set_miss by done.
  rewrite (create_item_buffer _ _ _ w1 b m) by (by rewrite logged_logged).
  split; [done|].
  match goal with
  | |- context [MediaCache._get ?k ?W] => destruct (get_reads k W) as [-> _]
  end.
  simpl. by rewrite lookup_insert_eq.
Qed.

(** X2. Once get-or-set stored the buffer of a callback, a second
    get-or-set under the same key is a hit: it returns the same pair with
    any callback, without running it, and changes nothing but the log. *)
Theorem get_or_set_twice
    (key : string) (first second : M world ProducerRet) (w w1 : world)
    (b : bytes) (m : option string) :
  cache w !! key = None →
  first (logged w [StartGet key; EndGet key false; StartPrepare key])
  = (Ok (RetPair (PBytesIO b) m), w1) →
  let stored := snd (MediaCache._get_or_set_cache_item key first w) in
  MediaCache._get_or_set_cache_item key second stored
  = (Ok (PBytesIO b, m), logged stored [StartGet key; EndGet key true]).
Proof.
  intros Hmiss Hcb stored. subst stored.
  rewrite (get_or_set_miss key first w) by done.
  rewrite (create_item_buffer _ _ _ w1 b m) by (by rewrite logged_logged).
  cbn [snd]. apply (get_or_set_hit key second _ b).
  - simpl. by rewrite lookup_insert_eq.
  - by left.
Qed.

(** X3. [remove_segment_chunk] evicts the chunk of the segment: a lookup
    of its key then finds nothing, the entries under the other keys stay,
    evicting again changes nothing in the cache, and the next
    [get_segment_chunk] returns what the producer makes. *)
Theorem remove_segment_chunk_evicts
    (db_task : Task) (db_segment : Segment) (chunk_number : Z)
    (quality : FrameQuality) (w : world) :
  let key :=
    MediaCache._make_segment_chunk_key db_segment chunk_number quality in
  let evicted :=
    snd (MediaCache.remove_segment_chunk db_segment chunk_number quality w) in
  fst (MediaCache._get key evicted) = Ok None
  ∧ (∀ key', key' ≠ key → cache evicted !! key' = cache w !! key')
  ∧ cache (snd (MediaCache.remove_segment_chunk db_segment chunk_number
                  quality evicted))
    = cache evicted
  ∧ fst (MediaCache.get_segment_chunk db_task db_segment chunk_number quality
           evicted)
    = MediaCache.prepare_segment_chunk db_task db_segment chunk_number quality.
Proof.
  intros key evicted.
  assert (cache evicted = delete key (cache w)) as Hcache by done.
  split.
  { destruct (get_reads key evicted) as [-> _].
    by rewrite Hcache, lookup_delete_eq. }
  split.
  { intros key' Hne. by rewrite Hcache, lookup_delete_ne. }
  split.
  { change (delete key (cache evicted) = cache evicted).
    by rewrite Hcache, delete_delete_eq. }
  unfold MediaCache.get_segment_chunk. fold key.
  apply get_or_set_miss_pure.
  - by rewrite Hcache, lookup_delete_eq.
  - apply prepare_segment_chunk_buffer.
Qed.

(** X4. An entry that fails to unpickle is rebuilt: get-or-set logs the
    failure, runs the producer and, when the producer returns a buffer,
    replaces the entry by the triple of the buffer, which the next lookup
    returns. *)
Theorem get_or_set_replaces_unpicklable
    (key : string) (w : world) (b : bytes) (m : option string) :
  cache w !! key = Some Unpicklable →
  let result :=
    MediaCache._get_or_set_cache_item key
      (MediaCache.callback_of (Ok (PBytesIO b, m))) w in
  fst (MediaCache._get key w) = Ok None
  ∧ fst result = Ok (PBytesIO b, m)
  ∧ ErrorGet key ∈ slog (snd result)
  ∧ fst (MediaCache._get key (snd result))
    = Ok (Some (Item3 (PBytesIO b) m (Some (crc32 b)))).
Proof.
  intros Hk result. subst result.
  split.
  { destruct (get_reads key w) as [-> _]. by rewrite Hk. }
  rewrite get_or_set_unpicklable by done.
  erewrite create_item_buffer by reflexivity.
  split; [done|]. split.
  { simpl. set_solver. }
  match goal with
  | |- context [MediaCache._get ?k ?W] => destruct (get_reads k W) as [-> _]
  end.
  simpl. by rewrite lookup_insert_eq.
Qed.

(** X5. When the producer raises, get-or-set passes the exception on and
    commits nothing: on a miss the key stays absent, on a checksum mismatch
    the stale entry stays. *)
Theorem get_or_set_commits_nothing_on_failure
    (key : string) (e : exn) (w : world) :
  (∀ it, cache w !! key = Some (Pickled it) →
         ∃ b, (item_data it = PBytesIO b ∨ item_data it = PBytes b)
              ∧ item_checksum it ≠ Some (crc32 b)) →
  let result :=
    MediaCache._get_or_set_cache_item key
      (MediaCache.callback_of (Raise e)) w in
  fst result = Raise e ∧ cache (snd result) = cache w.
Proof.
  intros Hstale result. subst result.
  destruct (cache w !! key) as [[it|]|] eqn:Hk.
  - destruct (Hstale it eq_refl) as (b & Hd & Hc).
    rewrite (get_or_set_mismatch key _ w it b) by done.
    by erewrite create_item_raise by reflexivity.
  - rewrite get_or_set_unpicklable by done.
    by erewrite create_item_raise by reflexivity.
  - rewrite get_or_set_miss by done.
    by erewrite create_item_raise by reflexivity.
Qed.

End cache_round_trips.

(** ** Context images *)

Section context_image_facts.
Context `{Collaborators}.

(** The key of the context images of a frame. *)
Local Abbreviation context_key db_data frame_number :=
  ("context_image_" +:+ pretty (data_id db_data) +:+ "_"
     +:+ pretty frame_number).

(** X6. A frame whose image record has no related files has no context
    images: with either storage method [get_frame_context_images] of the
    segment provider returns [None], and nothing is written to the cache,
    so with the cache storage method every request runs the producer
    again. *)
Theorem no_related_files_no_context_images
    (self : SegmentFrameProvider.t) (frame_number : Z) (w : world) :
  let db_data := data (SegmentFrameProvider._db_task self) in
  related_files db_data frame_number = Some [] →
  cache w !! context_key db_data frame_number = None →
  let result :=
    SegmentFrameProvider.get_frame_context_images self frame_number w in
  fst result = Ok None
  ∧ cache (snd result) = cache w
  ∧ fst (SegmentFrameProvider.get_frame_context_images self frame_number
           (snd result))
    = Ok None.
Proof.
  intros db_data Hfiles Hmiss result. subst result.
  assert (∀ w0, cache w0 = cache w →
            fst (SegmentFrameProvider.get_frame_context_images self
                   frame_number w0) = Ok None
            ∧ cache (snd (SegmentFrameProvider.get_frame_context_images self
                            frame_number w0)) = cache w) as Hrun.
  { intros w0 Hw0.
    unfold SegmentFrameProvider.get_frame_context_images, bind, lift_result,
      MediaCache.get_frame_context_images, MediaCache.prepare_context_images.
    fold db_data. rewrite Hfiles. simpl.
    destruct (storage_method db_data); [|done].
    rewrite get_or_set_miss by (by rewrite Hw0).
    by erewrite create_item_falsy by reflexivity. }
  destruct (Hrun w eq_refl) as [Hfirst Hcache].
  split; [done|]. split; [done|]. by apply Hrun.
Qed.

(** X7. A frame without an image record: the producer returns [None]
    instead of a pair, and [get_frame_context_images] of the segment
    provider fails with a [TypeError] with either storage method, writing
    nothing to the cache. *)
Theorem missing_image_record_is_a_type_error
    (self : SegmentFrameProvider.t) (frame_number : Z) (w : world) :
  let db_data := data (SegmentFrameProvider._db_task self) in
  related_files db_data frame_number = None →
  cache w !! context_key db_data frame_number = None →
  let result :=
    SegmentFrameProvider.get_frame_context_images self frame_number w in
  fst result = Raise TypeError ∧ cache (snd result) = cache w.
Proof.
  intros db_data Hfiles Hmiss result. subst result.
  unfold SegmentFrameProvider.get_frame_context_images, bind, lift_result,
    MediaCache.get_frame_context_images, MediaCache.prepare_context_images.
  fold db_data. rewrite Hfiles. simpl.
  destruct (storage_method db_data); [|done].
  rewrite get_or_set_miss by done.
  unfold MediaCache.create_item, bind, info. done.
Qed.

(** X8. A frame with related files: [get_frame_context_images] returns
    their archive with the MIME type [application/zip]; with the cache
    storage method the archive is stored under the key of the frame with
    its CRC-32, with the other storage method the cache is left alone. *)
Theorem related_files_are_bundled
    (self : SegmentFrameProvider.t) (frame_number : Z) (w : world)
    (files : list string) (zip_buffer : bytes) :
  let db_data := data (SegmentFrameProvider._db_task self) in
  related_files db_data frame_number = Some files →
  files ≠ [] →
  zip_related_files files = Ok zip_buffer →
  cache w !! context_key db_data frame_number = None →
  let result :=
    SegmentFrameProvider.get_frame_context_images self frame_number w in
  fst result
  = Ok (Some (mkDataWithMeta (PBytesIO zip_buffer) (Some "application/zip")
                None))
  ∧ cache (snd result)
    = match storage_method db_data with
      | CACHE =>
          <[context_key db_data frame_number :=
              Pickled (Item3 (PBytesIO zip_buffer) (Some "application/zip")
                         (Some (crc32 zip_buffer)))]> (cache w)
      | FILE_SYSTEM => cache w
      end.
Proof.
  intros db_data Hfiles Hsome Hzip Hmiss result. subst result.
  unfold SegmentFrameProvider.get_frame_context_images, bind, lift_result,
    MediaCache.get_frame_context_images, MediaCache.prepare_context_images.
  fold db_data. rewrite Hfiles, bool_decide_eq_false_2, Hzip by done. simpl.
  destruct (storage_method db_data); [|done].
  rewrite get_or_set_miss by done.
  by erewrite create_item_buffer by reflexivity.
Qed.

End context_image_facts.

(** ** Chunks of a segment *)

Lemma py_slice_bound_nonneg (len i : Z) :
  0 ≤ i → py_slice_bound len i = Z.min i len.
Proof.
  intros Hi. unfold py_slice_bound. cbv zeta.
  rewrite (proj2 (Z.ltb_ge i 0)) by lia.
  rewrite (proj2 (Z.ltb_ge i 0)) by lia.
  destruct (Z.ltb_spec len i); lia.
Qed.

(** A slice with bounds [0 <= a <= b] takes [b - a] elements after the
    first [a]. *)
Lemma py_slice_take_drop {A} (l : list A) (a b : Z) :
  0 ≤ a → a ≤ b →
  py_slice l a b = take (Z.to_nat (b - a)) (drop (Z.to_nat a) l).
Proof.
  intros Ha Hab. unfold py_slice.
  rewrite !py_slice_bound_nonneg by lia.
  destruct (Z.le_gt_cases (Z.of_nat (length l)) a) as [Hlen | Hlen].
  - rewrite !drop_ge by lia. by rewrite !take_nil.
  - rewrite (Z.min_l a) by lia.
    destruct (Z.le_gt_cases b (Z.of_nat (length l))).
    + by rewrite Z.min_l by lia.
    + rewrite Z.min_r by lia.
      rewrite !take_ge; [done | rewrite length_drop; lia..].
Qed.

Section segment_chunk_facts.
Context `{Collaborators}.

(** X9. The frame that [validate_frame_number] places at offset [o] of
    chunk [k] is the [o]-th of the frame ids that the segment-chunk
    producers read for chunk [k]. *)
Theorem validated_frame_is_in_its_chunk
    (self : SegmentFrameProvider.t) (f f' k o : Z) :
  let db_task := SegmentFrameProvider._db_task self in
  let db_segment := SegmentFrameProvider._db_segment self in
  0 < chunk_size (data db_task) →
  SegmentFrameProvider.validate_frame_number self f = Ok (f', k, o) →
  0 ≤ k
  ∧ MediaCache.chunk_frame_ids db_task db_segment k !! Z.to_nat o = Some f.
Proof.
  intros db_task db_segment Hcs Hvalid.
  destruct (validate_frame_number_addressing self f) as [Hmember Hother];
    [done|].
  destruct (decide (f ∈ frame_set db_segment)) as [Hin | Hout].
  2:{ rewrite (Hother Hout) in Hvalid. done. }
  destruct (Hmember Hin) as (i & k0 & o0 & Hv & Hlookup & _ & Hsum & Ho).
  rewrite Hv in Hvalid. injection Hvalid as _ <- <-.
  fold db_task in Hsum, Ho. set (cs := chunk_size (data db_task)) in *.
  assert (0 ≤ k0) as Hk by nia.
  split; [done|].
  unfold MediaCache.chunk_frame_ids. fold cs.
  rewrite py_slice_take_drop by nia.
  rewrite lookup_take_lt by nia.
  rewrite lookup_drop. fold db_segment in Hlookup.
  by replace (Z.to_nat (cs * k0) + Z.to_nat o0)%nat with i by nia.
Qed.

Lemma chunk_frame_ids_take_drop (db_task : Task) (db_segment : Segment)
    (k : Z) :
  0 < chunk_size (data db_task) → 0 ≤ k →
  MediaCache.chunk_frame_ids db_task db_segment k
  = take (Z.to_nat (chunk_size (data db_task)))
      (drop (Z.to_nat (chunk_size (data db_task)) * Z.to_nat k)
         (frame_set db_segment)).
Proof.
  intros Hcs Hk. unfold MediaCache.chunk_frame_ids.
  rewrite py_slice_take_drop by nia. f_equal; [f_equal; nia|].
  f_equal. nia.
Qed.

(** X10. With a positive chunk size, the frame ids of the chunks
    [0 .. n-1] of a segment, one chunk after the other, are the first
    [n * chunk_size] ids of its frame set: every chunk holds at most
    [chunk_size] ids, [n] chunks with [n * chunk_size] at least the size of
    the frame set hold all of it, and any later chunk is empty. *)
Theorem chunks_partition_the_frame_set
    (db_task : Task) (db_segment : Segment) (n : nat) :
  let chunk_size := chunk_size (data db_task) in
  0 < chunk_size →
  concat ((λ k, MediaCache.chunk_frame_ids db_task db_segment (Z.of_nat k))
            <$> seq 0 n)
  = take (n * Z.to_nat chunk_size) (frame_set db_segment)
  ∧ (∀ k, 0 ≤ k →
          Z.of_nat
            (length (MediaCache.chunk_frame_ids db_task db_segment k))
          ≤ chunk_size)
  ∧ (Z.of_nat (length (frame_set db_segment)) ≤ Z.of_nat n * chunk_size →
     concat ((λ k, MediaCache.chunk_frame_ids db_task db_segment (Z.of_nat k))
               <$> seq 0 n)
     = frame_set db_segment
     ∧ ∀ k, Z.of_nat n ≤ k →
            MediaCache.chunk_frame_ids db_task db_segment k = []).
Proof.
  intros cs Hcs.
  assert (concat
            ((λ k, MediaCache.chunk_frame_ids db_task db_segment (Z.of_nat k))
               <$> seq 0 n)
          = take (n * Z.to_nat cs) (frame_set db_segment)) as Hconcat.
  { induction n as [|n IH]; [done|].
    rewrite seq_S, fmap_app, concat_app, IH. simpl. rewrite app_nil_r.
    rewrite chunk_frame_ids_take_drop by lia. fold cs.
    rewrite Nat2Z.id, (Nat.mul_comm (Z.to_nat cs) n), take_take_drop.
    f_equal. lia. }
  split; [done|]. split.
  { intros k Hk. rewrite chunk_frame_ids_take_drop by lia. fold cs.
    rewrite length_take. lia. }
  intros Hall. split.
  { rewrite Hconcat. apply take_ge. nia. }
  intros k Hk. rewrite chunk_frame_ids_take_drop by lia. fold cs.
  rewrite drop_ge by nia. apply take_nil.
Qed.

End segment_chunk_facts.

(** ** Validation of frame and chunk numbers *)

Lemma task_validate_frame_number_spec (db_task : Task) (f : Z) :
  let db_data := data db_task in
  0 < frame_step db_data →
  (TaskFrameProvider.validate_frame_number db_task f = Ok f
   ↔ start_frame db_data ≤ f ≤ stop_frame db_data
     ∧ (f - start_frame db_data) mod frame_step db_data = 0)
  ∧ (TaskFrameProvider.validate_frame_number db_task f = Ok f
     ∨ TaskFrameProvider.validate_frame_number db_task f
       = Raise ValidationError).
Proof.
  intros db_data Hstep.
  unfold TaskFrameProvider.validate_frame_number,
    Addressing.task_validate_frame_number. fold db_data.
  destruct (py_range (start_frame db_data) (stop_frame db_data + 1)
              (frame_step db_data)) as [l | e] eqn:Hrange.
  2:{ unfold py_range in Hrange.
      destruct (Z.eqb_spec (frame_step db_data) 0); [lia | done]. }
  pose proof (py_range_elem _ _ _ l f Hstep Hrange) as Hmem.
  cbn [rbind]. destruct (py_in f l) eqn:Hin; cbn [negb].
  - split; [|by left]. split; [intros _ | done].
    apply py_in_spec, Hmem in Hin as (i & Hi & -> & Hlt).
    split; [nia|].
    replace (start_frame db_data + i * frame_step db_data
             - start_frame db_data) with (i * frame_step db_data) by lia.
    by apply Z.mod_mul; lia.
  - split; [|by right]. split; [done|]. intros [Hbounds Hmod].
    apply py_in_false in Hin. destruct Hin. apply Hmem.
    exists ((f - start_frame db_data) / frame_step db_data).
    pose proof (Z.div_mod (f - start_frame db_data) (frame_step db_data)).
    split; [apply Z.div_pos; lia|]. split; [lia | lia].
Qed.

(** X11. With a positive frame step, the task provider accepts exactly
    the frame numbers [start_frame + i * frame_step] that do not exceed
    [stop_frame], and refuses every other number with a
    [ValidationError]. *)
Theorem task_frame_numbers_are_the_stepped_range (db_task : Task) (f : Z) :
  let db_data := data db_task in
  0 < frame_step db_data →
  (TaskFrameProvider.validate_frame_number db_task f = Ok f
   ↔ start_frame db_data ≤ f ≤ stop_frame db_data
     ∧ (f - start_frame db_data) mod frame_step db_data = 0)
  ∧ (TaskFrameProvider.validate_frame_number db_task f = Ok f
     ∨ TaskFrameProvider.validate_frame_number db_task f
       = Raise ValidationError).
Proof. apply task_validate_frame_number_spec. Qed.


(** X12. With a positive chunk size, the segment provider accepts a chunk
    number [k] exactly when [0 <= k] and chunk [k - 1] starts inside the
    segment ([chunk_size * (k - 1) < frame_count]); [get_chunk] refuses any
    other number with a [ValidationError] before it reads anything, leaving
    the provider and the world as they were. *)
Theorem segment_chunk_numbers_accepted
    (self : SegmentFrameProvider.t) (k : Z) (quality : FrameQuality)
    (w : world) :
  let chunk_size := chunk_size (data (SegmentFrameProvider._db_task self)) in
  let frame_count := frame_count (SegmentFrameProvider._db_segment self) in
  0 < chunk_size →
  (SegmentFrameProvider.validate_chunk_number self k = Ok k
   ↔ 0 ≤ k ∧ chunk_size * (k - 1) < frame_count)
  ∧ (¬ (0 ≤ k ∧ chunk_size * (k - 1) < frame_count) →
     SegmentFrameProvider.get_chunk k quality (self, w)
     = (Raise ValidationError, (self, w))).
Proof.
  intros cs fc Hcs.
  destruct (py_ceil_div_ceiling fc cs Hcs) as (c & Hceil & Hc).
  assert (SegmentFrameProvider.validate_chunk_number self k
          = if (0 <=? k) && (k <=? c) then Ok k else Raise ValidationError)
    as Hvalid.
  { unfold SegmentFrameProvider.validate_chunk_number,
      Addressing.segment_validate_chunk_number.
    fold cs. fold fc. rewrite Hceil. cbn [rbind].
    by destruct ((0 <=? k) && (k <=? c)). }
  split.
  - rewrite Hvalid. destruct (Z.leb_spec 0 k), (Z.leb_spec k c); simpl;
      split; try done; try (intros [? ?]; nia). intros _. nia.
  - intros Hnot. unfold SegmentFrameProvider.get_chunk. rewrite Hvalid.
    destruct (Z.leb_spec 0 k), (Z.leb_spec k c); simpl; try done.
    destruct Hnot. nia.
Qed.

(** ** Routing of task frames and chunks *)

Lemma filter_first {A} (P : A → Prop) `{∀ x, Decision (P x)}
    (pre : list A) (x : A) (post : list A) :
  Forall (λ y, ¬ P y) pre → P x →
  filter P (pre ++ x :: post) = x :: filter P post.
Proof.
  intros Hpre Hx. rewrite filter_app, filter_cons_True by done.
  induction Hpre as [|y pre Hy _ IH]; [done|].
  by rewrite filter_cons_False.
Qed.

Lemma single_segment_identified (s : Segment) :
  ∀ s1 s2 : Segment, s1 ∈ [s] → s2 ∈ [s] → seg_id s1 = seg_id s2 → s1 = s2.
Proof.
  intros s1 s2 Hs1 Hs2 _.
  apply list_elem_of_singleton in Hs1, Hs2. congruence.
Qed.

Section task_routing_facts.
Context `{Collaborators}.

(** X13. [TaskFrameProvider.get_frame] routes a frame number: a number
    that [validate_frame_number] refuses fails with its exception and a
    valid number that no [RANGE] segment holds fails with [StopIteration],
    both without touching the world; otherwise the frame comes from the
    first [RANGE] segment of the task that holds it, and (on a cache
    coherent for that segment) is the frame that segment serves. *)
Theorem task_get_frame_routes
    (db_task : Task) (f : Z) (quality : FrameQuality) (w : world) :
  (∀ e out_type,
     TaskFrameProvider.validate_frame_number db_task f = Raise e →
     TaskFrameProvider.get_frame db_task f quality out_type w = (Raise e, w))
  ∧ (∀ out_type,
       TaskFrameProvider.validate_frame_number db_task f = Ok f →
       Forall (λ s, ¬ (seg_type s = RANGE ∧ f ∈ frame_set s))
         (segment_set db_task) →
       TaskFrameProvider.get_frame db_task f quality out_type w
       = (Raise StopIteration, w))
  ∧ (∀ pre s post,
       TaskFrameProvider.validate_frame_number db_task f = Ok f →
       segment_set db_task = pre ++ s :: post →
       Forall (λ s', ¬ (seg_type s' = RANGE ∧ f ∈ frame_set s')) pre →
       seg_type s = RANGE → f ∈ frame_set s →
       JoinedChunk.coherent db_task quality [s] w →
       rbind (fst (TaskFrameProvider.get_frame db_task f quality BUFFER w))
         (λ d, Ok (dwm_data d))
       = JoinedChunk.served_frame db_task quality (s, f)).
Proof.
  split; [|split].
  - intros e out_type Hvalid.
    unfold TaskFrameProvider.get_frame,
      TaskFrameProvider._get_segment_frame_provider, bind, lift_result.
    by rewrite Hvalid.
  - intros out_type Hvalid Hnone.
    unfold TaskFrameProvider.get_frame,
      TaskFrameProvider._get_segment_frame_provider,
      TaskFrameProvider._get_segment, bind, lift_result.
    rewrite Hvalid. cbn [rbind].
    destruct (filter _ (segment_set db_task)) as [|s l] eqn:Hfilter; [done|].
    assert (s ∈ filter (λ s, seg_type s = RANGE ∧ f ∈ frame_set s)
                  (segment_set db_task)) as Hs by (rewrite Hfilter; left).
    apply list_elem_of_filter in Hs as [Hs Hin].
    rewrite Forall_forall in Hnone. destruct (Hnone s Hin Hs).
  - intros pre s post Hvalid Hset Hpre Hrange Hf Hcoh.
    unfold TaskFrameProvider.get_frame,
      TaskFrameProvider._get_segment_frame_provider,
      TaskFrameProvider._get_segment, bind, lift_result.
    rewrite Hvalid. cbn [rbind].
    rewrite Hset, filter_first by done. cbn [rbind].
    unfold TaskFrameProvider.on_fresh.
    destruct (init_serves db_task quality s) as (Htask & Hseg & Hserves).
    destruct (get_frame_served db_task quality [s]
                (single_segment_identified s) s
                (SegmentFrameProvider.init db_task s) f w Htask Hseg
                ltac:(left) Hcoh Hserves)
      as (R & p' & w' & Hrun & Hserved & _).
    by rewrite Hrun.
Qed.

(** X14. A task chunk that meets exactly one [RANGE] segment is served as
    the chunk of that segment with the same number: when the segment
    accepts the number, the result is that chunk at its source (on a cache
    coherent for the segment), with its MIME type and no checksum;
    otherwise the [ValidationError] of the segment. *)
Theorem single_segment_chunk_keeps_its_number
    (db_task : Task) (chunk_number : Z) (quality : FrameQuality) (w : world)
    (window : list Z) (s : Segment) :
  TaskFrameProvider.validate_chunk_number db_task chunk_number
  = Ok chunk_number →
  TaskFrameProvider.task_chunk_frame_range (data db_task) chunk_number
  = Ok window →
  TaskFrameProvider.matching_segments db_task window = [s] →
  JoinedChunk.coherent db_task quality [s] w →
  fst (TaskFrameProvider.get_chunk db_task chunk_number quality w)
  = rbind
      (Addressing.segment_validate_chunk_number db_task s chunk_number)
      (λ k, rbind (JoinedChunk.chunk_source db_task s k quality)
              (λ '(chunk_data, mime),
                 Ok (mkDataWithMeta chunk_data mime None))).
Proof.
  intros Hvalid Hwindow Hmatch Hcoh.
  unfold TaskFrameProvider.get_chunk, bind, lift_result.
  rewrite Hvalid, Hwindow, Hmatch.
  assert (chunk_size (data db_task) ≠ 0) as Hcs.
  { intros Hcs. unfold TaskFrameProvider.validate_chunk_number,
      Addressing.task_validate_chunk_number, py_ceil_div in Hvalid.
    by rewrite Hcs in Hvalid. }
  destruct (init_serves db_task quality s) as (Htask & Hseg & Hread & _).
  unfold SegmentFrameProvider.get_chunk_number,
    Addressing.segment_get_chunk_number, py_floordiv.
  rewrite Htask.
  destruct (Z.eqb_spec (chunk_size (data db_task)) 0); [done|].
  rewrite Z.div_mul by done.
  unfold TaskFrameProvider.on_fresh, SegmentFrameProvider.get_chunk,
    SegmentFrameProvider.validate_chunk_number.
  rewrite Htask, Hseg.
  destruct (Addressing.segment_validate_chunk_number db_task s chunk_number)
    as [k | e]; [|done].
  cbn [rbind]. rewrite Hread.
  destruct (segment_read_chunk_spec db_task quality [s]
              (single_segment_identified s) s k w ltac:(left) Hcoh)
    as (w' & -> & _).
  by destruct (JoinedChunk.chunk_source db_task s k quality) as [[d m] | e].
Qed.

End task_routing_facts.

(** ** Chunk files: the cache is not involved *)

Lemma load_quiet (l : ChunkLoader.t) (k : Z) (w : world) :
  quiet (ChunkLoader.read_chunk l) →
  cache (snd (snd (ChunkLoader.load k (l, w)))) = cache w
  ∧ slog (snd (snd (ChunkLoader.load k (l, w)))) = slog w
  ∧ ChunkLoader.read_chunk (fst (snd (ChunkLoader.load k (l, w))))
    = ChunkLoader.read_chunk l.
Proof.
  intros Hquiet.
  destruct (decide (ChunkLoader.chunk_id l = Some k)) as [Hk | Hk].
  - by rewrite load_same.
  - rewrite load_other by done.
    set (w1 := with_events w _).
    destruct (Hquiet k w1) as [Hc Hs].
    destruct (ChunkLoader.read_chunk l k w1) as [[[chunk mime] | e] w2];
      simpl in *; by rewrite Hc, Hs.
Qed.

Section file_storage_facts.
Context `{Collaborators}.

Lemma get_frame_quiet (p : SegmentFrameProvider.t) (f : Z)
    (quality : FrameQuality) (out_type : FrameOutputType) (w : world) :
  quiet (ChunkLoader.read_chunk (SegmentFrameProvider._loaders p quality)) →
  let after := snd (SegmentFrameProvider.get_frame f quality out_type (p, w)) in
  cache (snd after) = cache w
  ∧ slog (snd after) = slog w
  ∧ ChunkLoader.read_chunk (SegmentFrameProvider._loaders (fst after) quality)
    = ChunkLoader.read_chunk (SegmentFrameProvider._loaders p quality).
Proof.
  intros Hquiet after. subst after.
  unfold SegmentFrameProvider.get_frame.
  destruct (SegmentFrameProvider.validate_frame_number p f)
    as [[[f' k] o] | e]; [|done].
  unfold SegmentFrameProvider.with_loader.
  destruct (load_quiet (SegmentFrameProvider._loaders p quality) k w Hquiet)
    as (Hc & Hs & Hr).
  destruct (ChunkLoader.load k (SegmentFrameProvider._loaders p quality, w))
    as [R [l' w']].
  cbn [fst snd] in *.
  assert (SegmentFrameProvider._loaders
            (SegmentFrameProvider.set_loader p quality l') quality = l')
    as Hl by (by destruct quality).
  destruct R as [chunk_reader | e]; cbn [fst snd]; by rewrite Hl.
Qed.

Lemma join_segment_frames_quiet (ids fs : list Z) (quality : FrameQuality)
    (p : SegmentFrameProvider.t) (w : world) :
  quiet (ChunkLoader.read_chunk (SegmentFrameProvider._loaders p quality)) →
  cache (snd (snd (TaskFrameProvider.join_segment_frames ids fs quality (p, w))))
  = cache w
  ∧ slog (snd (snd (TaskFrameProvider.join_segment_frames ids fs quality
                      (p, w))))
    = slog w.
Proof.
  revert p w. induction ids as [|f ids IH]; intros p w Hquiet; [done|].
  remember (TaskFrameProvider.join_segment_frames (f :: ids) fs quality (p, w))
    as res eqn:Hres.
  cbn [TaskFrameProvider.join_segment_frames] in Hres.
  destruct (negb (py_in f fs)); [subst res; by apply IH|].
  unfold bind in Hres.
  destruct (get_frame_quiet p f quality BUFFER w Hquiet) as (Hc & Hs & Hr).
  destruct (SegmentFrameProvider.get_frame f quality BUFFER (p, w))
    as [[d | e] [p1 w1]]; cbn [fst snd] in *; [|subst res; by split].
  destruct (IH p1 w1) as [Hc' Hs']; [by rewrite Hr|].
  destruct (TaskFrameProvider.join_segment_frames ids fs quality (p1, w1))
    as [[frames | e] [p2 w2]]; subst res; cbn [fst snd] in *;
    by rewrite <- Hc, <- Hs.
Qed.

Lemma init_quiet (db_task : Task) (s : Segment) (quality : FrameQuality) :
  storage_method (data db_task) = FILE_SYSTEM →
  quiet (ChunkLoader.read_chunk
           (SegmentFrameProvider._loaders
              (SegmentFrameProvider.init db_task s) quality)).
Proof.
  intros Hfs k w. unfold SegmentFrameProvider.init. rewrite Hfs.
  by destruct quality.
Qed.

Lemma join_segments_quiet (db_task : Task) (segs : list Segment)
    (window : list Z) (quality : FrameQuality) (w : world) :
  storage_method (data db_task) = FILE_SYSTEM →
  cache (snd (TaskFrameProvider.join_segments db_task segs window quality w))
  = cache w
  ∧ slog (snd (TaskFrameProvider.join_segments db_task segs window quality w))
    = slog w.
Proof.
  intros Hfs. revert w. induction segs as [|s segs IH]; intros w; [done|].
  remember (TaskFrameProvider.join_segments db_task (s :: segs) window quality
              w) as res eqn:Hres.
  cbn [TaskFrameProvider.join_segments] in Hres.
  unfold bind, TaskFrameProvider.on_fresh in Hres.
  destruct (join_segment_frames_quiet (set_iter window) (frame_set s) quality
              (SegmentFrameProvider.init db_task s) w
              (init_quiet db_task s quality Hfs)) as [Hc Hs].
  destruct (TaskFrameProvider.join_segment_frames _ _ _ _)
    as [[frames | e] [p1 w1]]; cbn [fst snd] in *; [|subst res; by split].
  destruct (IH w1) as [Hc' Hs'].
  destruct (TaskFrameProvider.join_segments db_task segs window quality w1)
    as [[frames' | e] w2]; subst res; cbn [fst snd] in *;
    by rewrite <- Hc, <- Hs.
Qed.

(** X15. With the storage method [FILE_SYSTEM] the providers read chunk
    files only: whatever [TaskFrameProvider.get_chunk] and
    [TaskFrameProvider.get_frame] return or raise, they leave the cache and
    the log of the cache as they found them. *)
Theorem file_system_storage_leaves_the_cache_alone
    (db_task : Task) (n : Z) (quality : FrameQuality)
    (out_type : FrameOutputType) (w : world) :
  storage_method (data db_task) = FILE_SYSTEM →
  cache (snd (TaskFrameProvider.get_chunk db_task n quality w)) = cache w
  ∧ slog (snd (TaskFrameProvider.get_chunk db_task n quality w)) = slog w
  ∧ cache (snd (TaskFrameProvider.get_frame db_task n quality out_type w))
    = cache w
  ∧ slog (snd (TaskFrameProvider.get_frame db_task n quality out_type w))
    = slog w.
Proof.
  intros Hfs.
  assert (cache (snd (TaskFrameProvider.get_chunk db_task n quality w))
          = cache w
          ∧ slog (snd (TaskFrameProvider.get_chunk db_task n quality w))
            = slog w) as Hchunk.
  { unfold TaskFrameProvider.get_chunk, bind, lift_result.
    destruct (TaskFrameProvider.validate_chunk_number db_task n)
      as [k | e]; [|done].
    destruct (TaskFrameProvider.task_chunk_frame_range (data db_task) k)
      as [window | e]; [|done].
    destruct (TaskFrameProvider.matching_segments db_task window)
      as [|s1 [|s2 rest]]; [done | |].
    - destruct (SegmentFrameProvider.get_chunk_number _ _) as [k' | e];
        [|done].
      unfold TaskFrameProvider.on_fresh, SegmentFrameProvider.get_chunk.
      destruct (SegmentFrameProvider.validate_chunk_number _ k')
        as [k'' | e]; [|done].
      destruct (init_quiet db_task s1 quality Hfs k'' w) as [Hc Hs].
      destruct (ChunkLoader.read_chunk _ k'' w) as [[[d m] | e] w1]; done.
    - destruct (join_segments_quiet db_task (s1 :: s2 :: rest) window quality
                  w Hfs) as [Hc Hs].
      destruct (TaskFrameProvider.join_segments _ _ _ _ _)
        as [[frames | e] w1]; [|done].
      cbn [fst snd] in *.
      by destruct (save_as_chunk _ _ _ _ _). }
  split; [apply Hchunk|]. split; [apply Hchunk|].
  unfold TaskFrameProvider.get_frame, bind, lift_result,
    TaskFrameProvider._get_segment_frame_provider.
  destruct (TaskFrameProvider.validate_frame_number db_task n)
    as [f | e]; [|done].
  cbn [rbind].
  destruct (TaskFrameProvider._get_segment db_task f) as [s | e]; [|done].
  cbn [rbind]. unfold TaskFrameProvider.on_fresh.
  destruct (get_frame_quiet (SegmentFrameProvider.init db_task s) n quality
              out_type w (init_quiet db_task s quality Hfs)) as (Hc & Hs & _).
  by destruct (SegmentFrameProvider.get_frame n quality out_type _)
    as [R [p1 w1]].
Qed.

End file_storage_facts.

(** ** Readers held by a provider *)

(** After [load], failed or not, the loader is at the requested chunk. *)
Lemma load_sets_chunk_id (l : ChunkLoader.t) (k : Z) (w : world) :
  ChunkLoader.chunk_id (fst (snd (ChunkLoader.load k (l, w)))) = Some k.
Proof.
  destruct (decide (ChunkLoader.chunk_id l = Some k)) as [Hk | Hk].
  - by rewrite load_same.
  - rewrite load_other by done.
    by destruct (ChunkLoader.read_chunk l k _) as [[[chunk mime] | e] w2].
Qed.

Lemma set_loader_loaders (p : SegmentFrameProvider.t) (quality : FrameQuality) :
  SegmentFrameProvider.set_loader p quality
    (SegmentFrameProvider._loaders p quality) = p.
Proof. by destruct p, quality. Qed.

(** X16. Frames of one chunk share a reader: once [get_frame] served a
    frame, [get_frame] of any frame that [validate_frame_number] places in
    the same chunk, at the same quality, reads no chunk and opens no
    reader; it leaves the provider and the world exactly as they were. *)
Theorem frames_of_one_chunk_share_a_reader `{Collaborators}
    (p p1 : SegmentFrameProvider.t) (w w1 : world)
    (f1 f2 g1 g2 k o1 o2 : Z) (quality : FrameQuality)
    (out1 out2 : FrameOutputType) (d : DataWithMeta Frame) :
  SegmentFrameProvider.get_frame f1 quality out1 (p, w) = (Ok d, (p1, w1)) →
  SegmentFrameProvider.validate_frame_number p f1 = Ok (g1, k, o1) →
  SegmentFrameProvider.validate_frame_number p f2 = Ok (g2, k, o2) →
  snd (SegmentFrameProvider.get_frame f2 quality out2 (p1, w1)) = (p1, w1)
  ∧ ChunkLoader.chunk_id (SegmentFrameProvider._loaders p1 quality) = Some k
  ∧ is_Some (ChunkLoader.chunk_reader (SegmentFrameProvider._loaders p1 quality)).
Proof.
  intros Hrun Hv1 Hv2.
  unfold SegmentFrameProvider.get_frame in Hrun. rewrite Hv1 in Hrun.
  unfold SegmentFrameProvider.with_loader in Hrun.
  pose proof (load_sets_chunk_id (SegmentFrameProvider._loaders p quality) k w)
    as Hid.
  destruct (ChunkLoader.load k (SegmentFrameProvider._loaders p quality, w))
    as [R [l' w']] eqn:Hload.
  cbn [fst snd] in Hid.
  destruct R as [chunk_reader | e]; [|done].
  injection Hrun as Hd <- <-.
  assert (SegmentFrameProvider._loaders
            (SegmentFrameProvider.set_loader p quality l') quality = l')
    as Hl by (by destruct quality).
  assert (ChunkLoader.chunk_reader l' = chunk_reader) as Hreader.
  { destruct (decide (ChunkLoader.chunk_id
                        (SegmentFrameProvider._loaders p quality) = Some k))
      as [Hk | Hk].
    - rewrite load_same in Hload by done. by injection Hload as <- <- _.
    - rewrite load_other in Hload by done.
      destruct (ChunkLoader.read_chunk _ k _) as [[[chunk mime] | e] w2];
        [|done].
      by injection Hload as <- <- _. }
  assert (SegmentFrameProvider.validate_frame_number
            (SegmentFrameProvider.set_loader p quality l') f2
          = Ok (g2, k, o2)) as Hv2'.
  { rewrite <- Hv2. by destruct p, quality. }
  split; [|split].
  - unfold SegmentFrameProvider.get_frame. rewrite Hv2'.
    unfold SegmentFrameProvider.with_loader.
    rewrite Hl, load_same by done.
    cbn [snd]. f_equal. by destruct p, quality.
  - by rewrite Hl.
  - rewrite Hl, Hreader.
    destruct chunk_reader as [r|]; [by eexists|].
    unfold SegmentFrameProvider.reader_subscript in Hd. done.
Qed.

(** X17. [SegmentFrameProvider.unload] releases both loaders: it closes
    the reader of the compressed loader, then that of the original loader
    (whichever are held), forgets both chunk ids, and touches neither the
    cache nor the log. *)
Theorem provider_unload_releases_both_loaders
    (p : SegmentFrameProvider.t) (w : world) :
  let after := snd (SegmentFrameProvider.unload (p, w)) in
  fst (SegmentFrameProvider.unload (p, w)) = Ok tt
  ∧ (∀ quality,
       ChunkLoader.chunk_id (SegmentFrameProvider._loaders (fst after) quality)
       = None
       ∧ ChunkLoader.chunk_reader
           (SegmentFrameProvider._loaders (fst after) quality)
         = None)
  ∧ readers (snd after)
    = readers w
      ++ (Closed <$> held (SegmentFrameProvider.loader_compressed p))
      ++ (Closed <$> held (SegmentFrameProvider.loader_original p))
  ∧ cache (snd after) = cache w
  ∧ slog (snd after) = slog w.
Proof.
  intros after. subst after.
  unfold SegmentFrameProvider.unload, bind, SegmentFrameProvider.with_loader.
  cbn [SegmentFrameProvider._loaders]. rewrite !unload_spec.
  cbn [SegmentFrameProvider.set_loader SegmentFrameProvider._loaders
         SegmentFrameProvider.loader_original fst snd].
  split; [done|]. split.
  { by intros []. }
  unfold held, with_events. simpl.
  destruct (ChunkLoader.chunk_reader (SegmentFrameProvider.loader_compressed p)),
    (ChunkLoader.chunk_reader (SegmentFrameProvider.loader_original p));
    simpl; rewrite <- ?app_assoc, ?app_nil_r; done.
Qed.

(** ** Iteration over frames *)

Lemma py_range_unit_step (a b : Z) :
  py_range a b 1 = Ok ((λ i, a + Z.of_nat i) <$> seq 0 (Z.to_nat (b - a))).
Proof.
  unfold py_range, py_range1. simpl.
  rewrite Z.div_1_r, <- list_fmap_compose.
  replace (b - a + 1 - 1) with (b - a) by lia.
  f_equal. apply list_fmap_ext. intros _ i _. simpl. lia.
Qed.

Section iterate_frames_facts.
Context `{Collaborators}.

(** X18. [iterate_frames] with [stop_frame] left at [None], or given as 0,
    serves no frame: the bound of the range is [None] and both providers
    end with a [TypeError], leaving the provider and the world as they
    were. With [start_frame] above a non-zero [stop_frame] they end without
    a frame and without an exception. *)
Theorem iterate_frames_without_stop_frame
    (db_task : Task) (p : SegmentFrameProvider.t) (start_frame : option Z)
    (stop_frame : option Z) (quality : FrameQuality)
    (out_type : FrameOutputType) (w : world) :
  (stop_frame = None ∨ stop_frame = Some 0 →
   IterateFrames.task_iterate_frames db_task start_frame stop_frame quality
     out_type w
   = (([], Some TypeError), w)
   ∧ IterateFrames.segment_iterate_frames start_frame stop_frame quality
       out_type (p, w)
     = (([], Some TypeError), (p, w)))
  ∧ (∀ a b, start_frame = Some a → stop_frame = Some b → b ≠ 0 → b < a →
       IterateFrames.task_iterate_frames db_task start_frame stop_frame
         quality out_type w
       = (([], None), w)
       ∧ IterateFrames.segment_iterate_frames start_frame stop_frame quality
           out_type (p, w)
         = (([], None), (p, w))).
Proof.
  split.
  - intros Hstop.
    assert (iteration_range start_frame stop_frame = Raise TypeError) as Hr.
    { unfold iteration_range. destruct Hstop as [-> | ->]; simpl;
        by destruct start_frame. }
    unfold IterateFrames.task_iterate_frames,
      IterateFrames.segment_iterate_frames. by rewrite Hr.
  - intros a b -> -> Hb Hab.
    assert (iteration_range (Some a) (Some b) = Ok []) as Hr.
    { unfold iteration_range. rewrite bool_decide_eq_true_2 by done.
      rewrite py_range_unit_step.
      by replace (Z.to_nat (b + 1 - a)) with 0%nat by lia. }
    unfold IterateFrames.task_iterate_frames,
      IterateFrames.segment_iterate_frames. by rewrite Hr.
Qed.

(** X19. On a task with a frame step above 1, [iterate_frames] over more
    than one frame number cannot complete: it asks for consecutive
    numbers, so it yields at most one frame and ends with an exception,
    which is the [ValidationError] of the second number when the first
    frame was served. *)
Theorem task_iterate_frames_ignores_frame_step
    (db_task : Task) (a b : Z) (quality : FrameQuality)
    (out_type : FrameOutputType) (w : world) :
  1 < frame_step (data db_task) →
  a < b → b ≠ 0 →
  ∃ frames e w',
    IterateFrames.task_iterate_frames db_task (Some a) (Some b) quality
      out_type w
    = ((frames, Some e), w')
    ∧ (length frames ≤ 1)%nat
    ∧ (length frames = 1%nat → e = ValidationError).
Proof.
  intros Hstep Hab Hb.
  unfold IterateFrames.task_iterate_frames, iteration_range.
  rewrite bool_decide_eq_true_2 by done. rewrite py_range_unit_step.
  replace (Z.to_nat (b + 1 - a)) with (S (S (Z.to_nat (b - a - 1)))) by lia.
  cbn [seq fmap list_fmap yield_frames].
  replace (a + Z.of_nat 0) with a by lia.
  replace (a + Z.of_nat 1) with (a + 1) by lia.
  destruct (TaskFrameProvider.get_frame db_task a quality out_type w)
    as [[d | e] w1] eqn:Hfirst.
  2:{ exists [], e, w1. split; [done|]. simpl. split; [lia | lia]. }
  assert (TaskFrameProvider.validate_frame_number db_task a = Ok a) as Hva.
  { unfold TaskFrameProvider.get_frame,
      TaskFrameProvider._get_segment_frame_provider, bind, lift_result
      in Hfirst.
    destruct (task_validate_frame_number_spec db_task a ltac:(lia))
      as [_ [Hok | Hbad]]; [done|].
    by rewrite Hbad in Hfirst. }
  assert (TaskFrameProvider.validate_frame_number db_task (a + 1)
          = Raise ValidationError) as Hvb.
  { destruct (task_validate_frame_number_spec db_task (a + 1) ltac:(lia))
      as [Hiff [Hok | Hbad]]; [|done].
    apply Hiff in Hok as [_ Hmod1].
    apply (task_validate_frame_number_spec db_task a ltac:(lia)) in Hva
      as [_ Hmod0].
    set (step := frame_step (data db_task)) in *.
    set (s0 := start_frame (data db_task)) in *.
    apply Z.mod_divide in Hmod0 as [q0 Hq0]; [|lia].
    apply Z.mod_divide in Hmod1 as [q1 Hq1]; [|lia].
    assert ((q1 - q0) * step = 1) as Hone by lia.
    assert (0 < q1 - q0) by nia. nia. }
  assert (TaskFrameProvider.get_frame db_task (a + 1) quality out_type w1
          = (Raise ValidationError, w1)) as Hsecond.
  { unfold TaskFrameProvider.get_frame,
      TaskFrameProvider._get_segment_frame_provider, bind, lift_result.
    by rewrite Hvb. }
  rewrite Hsecond. exists [d], ValidationError, w1. done.
Qed.

End iterate_frames_facts.
